(** * GeniusTestBoost: the school-management API over its table store

    A shallow embedding of the Express routers of the repository
    (middleware/auth.js, routes/courses.js, routes/assignments.js,
    routes/messages.js, routes/auth.js, routes/admin.js) and the
    properties of its authorization and aggregation layer.

    Modelling conventions.
    - A request handler is a function from the table store to a reply and
      the store it leaves behind.  A reply is the JSON payload of a
      success (status 200; the [success: true] wrapper is left out), an
      error with its status and message, or a redirect.
    - The table store (the Supabase client) is an in-memory collection of
      row lists.  A query [.eq(..)] is a [filter]; [.single()] yields its
      row only when exactly one row is selected and an error otherwise;
      [.order(col)] is a sort on that column.  Calls to the store do not
      fail for reasons outside the data (connection loss); the one schema
      constraint enforced is the uniqueness of an enrollment pair, which
      the enroll route handles by its error code.
    - Values that come from a JSON request body are [JsVal]s (numbers are
      integers) and the columns they are written to hold them as they
      were sent.
    - Row ids are keys generated by the store (a counter); instants are
      natural numbers.
    - The password hashing library is a parameter of the login route. *)

From stdpp Require Import base decidable option list sorting gmap strings.

(** ** JavaScript values carried by request bodies *)

Module Js.

Inductive JsVal :=
| JUndefined
| JNull
| JBool (b : bool)
| JNum (n : Z)
| JStr (s : string).

#[global] Instance JsVal_eq_dec : EqDecision JsVal.
Proof. solve_decision. Defined.

(** [if (v)]: JavaScript truthiness. *)
Definition truthy (v : JsVal) : bool :=
  match v with
  | JUndefined | JNull => false
  | JBool b => b
  | JNum n => negb (Z.eqb n 0)
  | JStr s => negb (String.eqb s "")
  end.

(** [a || b] *)
Definition js_or (a b : JsVal) : JsVal := if truthy a then a else b.

(** [v !== undefined ? { key: v } : {}]: the entry an object literal gets
    for a key that is assigned only when its value is defined. *)
Definition defined (v : JsVal) : option JsVal :=
  match v with JUndefined => None | _ => Some v end.

(** [if (v) updates.key = v] *)
Definition supplied (v : JsVal) : option JsVal :=
  if truthy v then Some v else None.

(** [s.length] counts the UTF-16 code units of a string.  The strings of
    the model hold their text in UTF-8: a character of the basic plane
    takes one to three bytes there and one code unit in JavaScript, a
    character outside it four bytes and two code units (a surrogate
    pair).  So a first byte counts for the code units of its character and
    a continuation byte for nothing. *)
Definition code_units (c : Ascii.ascii) : nat :=
  let b := Ascii.nat_of_ascii c in
  if b <? 128 then 1           (* 0xxxxxxx: one byte *)
  else if b <? 192 then 0      (* 10xxxxxx: continuation *)
  else if b <? 240 then 1      (* 110xxxxx, 1110xxxx: two or three bytes *)
  else 2.                      (* 11110xxx: four bytes *)

Fixpoint js_length (s : string) : nat :=
  match s with
  | EmptyString => 0
  | String c s' => code_units c + js_length s'
  end.

End Js.
Export Js.

Abbreviation Id := nat (only parsing).
Abbreviation Time := nat (only parsing).

(** ** Rows of the six tables *)

Module User.
Record t := mk {
  id : Id;
  first_name : JsVal;
  last_name : JsVal;
  email : JsVal;
  password : string;
  role : JsVal;
  is_approved : bool;
  created_at : Time }.

(** The object passed to [.update(..)] by the admin edit route. *)
Record updates := mk_updates {
  set_first_name : option JsVal;
  set_last_name : option JsVal;
  set_email : option JsVal;
  set_role : option JsVal }.

Definition update (u : updates) (r : t) : t :=
  {| id := id r;
     first_name := default (first_name r) (set_first_name u);
     last_name := default (last_name r) (set_last_name u);
     email := default (email r) (set_email u);
     password := password r;
     role := default (role r) (set_role u);
     is_approved := is_approved r;
     created_at := created_at r |}.

(** [.update({ is_approved: b })] *)
Definition approve (b : bool) (r : t) : t :=
  {| id := id r;
     first_name := first_name r;
     last_name := last_name r;
     email := email r;
     password := password r;
     role := role r;
     is_approved := b;
     created_at := created_at r |}.

(** [.order('created_at', { ascending: false })] *)
Definition by_created_at_desc (a b : t) : Prop := created_at b ≤ created_at a.
#[global] Instance by_created_at_desc_dec : RelDecision by_created_at_desc.
Proof. intros a b. unfold by_created_at_desc. apply _. Defined.
End User.

Module Course.
Record t := mk {
  id : Id;
  teacher_id : Id;
  name : JsVal;
  description : JsVal;
  subject : JsVal;
  is_active : JsVal;
  created_at : Time;
  updated_at : Time }.

Record updates := mk_updates {
  set_updated_at : option Time;
  set_name : option JsVal;
  set_description : option JsVal;
  set_subject : option JsVal;
  set_is_active : option JsVal }.

Definition update (u : updates) (r : t) : t :=
  {| id := id r;
     teacher_id := teacher_id r;
     name := default (name r) (set_name u);
     description := default (description r) (set_description u);
     subject := default (subject r) (set_subject u);
     is_active := default (is_active r) (set_is_active u);
     created_at := created_at r;
     updated_at := default (updated_at r) (set_updated_at u) |}.

(** [.order('created_at', { ascending: false })] *)
Definition by_created_at_desc (a b : t) : Prop := created_at b ≤ created_at a.
#[global] Instance by_created_at_desc_dec : RelDecision by_created_at_desc.
Proof. intros a b. unfold by_created_at_desc. apply _. Defined.
End Course.

Module Enrollment.
Record t := mk {
  id : Id;
  student_id : Id;
  course_id : Id;
  enrolled_at : Time }.
End Enrollment.

Module Assignment.
Record t := mk {
  id : Id;
  course_id : Id;
  title : JsVal;
  description : JsVal;
  due_date : JsVal;
  max_points : JsVal }.

Record updates := mk_updates {
  set_title : option JsVal;
  set_description : option JsVal;
  set_due_date : option JsVal;
  set_max_points : option JsVal }.

Definition update (u : updates) (r : t) : t :=
  {| id := id r;
     course_id := course_id r;
     title := default (title r) (set_title u);
     description := default (description r) (set_description u);
     due_date := default (due_date r) (set_due_date u);
     max_points := default (max_points r) (set_max_points u) |}.
End Assignment.

Module Submission.
Record t := mk {
  id : Id;
  assignment_id : Id;
  student_id : Id;
  content : JsVal;
  submitted_at : Time;
  grade : option Z;
  feedback : JsVal;
  graded_at : option Time }.

(** [.update({ content, submitted_at })] *)
Definition resubmit (c : JsVal) (now : Time) (r : t) : t :=
  {| id := id r;
     assignment_id := assignment_id r;
     student_id := student_id r;
     content := c;
     submitted_at := now;
     grade := grade r;
     feedback := feedback r;
     graded_at := graded_at r |}.

(** [.order('submitted_at', { ascending: true })] *)
Definition by_submitted_at (a b : t) : Prop :=
  submitted_at a ≤ submitted_at b.
#[global] Instance by_submitted_at_dec : RelDecision by_submitted_at.
Proof. intros a b. unfold by_submitted_at. apply _. Defined.

(** [.order('submitted_at', { ascending: false })] *)
Definition by_submitted_at_desc (a b : t) : Prop :=
  submitted_at b ≤ submitted_at a.
#[global] Instance by_submitted_at_desc_dec : RelDecision by_submitted_at_desc.
Proof. intros a b. unfold by_submitted_at_desc. apply _. Defined.

(** [.update({ grade, feedback, graded_at })] *)
Definition graded (g : option Z) (fb : JsVal) (now : Time) (r : t) : t :=
  {| id := id r;
     assignment_id := assignment_id r;
     student_id := student_id r;
     content := content r;
     submitted_at := submitted_at r;
     grade := g;
     feedback := fb;
     graded_at := Some now |}.
End Submission.

Module Message.
Record t := mk {
  id : Id;
  sender_id : Id;
  receiver_id : Id;
  content : JsVal;
  created_at : Time;
  is_read : bool }.

(** [.update({ is_read: true })] *)
Definition mark_read (r : t) : t :=
  {| id := id r;
     sender_id := sender_id r;
     receiver_id := receiver_id r;
     content := content r;
     created_at := created_at r;
     is_read := true |}.

(** [.order('created_at', { ascending: true })] *)
Definition by_created_at (a b : t) : Prop := created_at a ≤ created_at b.
#[global] Instance by_created_at_dec : RelDecision by_created_at.
Proof. intros a b. unfold by_created_at. apply _. Defined.
End Message.

#[global] Instance User_eq_dec : EqDecision User.t.
Proof. solve_decision. Defined.
#[global] Instance Course_eq_dec : EqDecision Course.t.
Proof. solve_decision. Defined.
#[global] Instance Enrollment_eq_dec : EqDecision Enrollment.t.
Proof. solve_decision. Defined.
#[global] Instance Assignment_eq_dec : EqDecision Assignment.t.
Proof. solve_decision. Defined.
#[global] Instance Submission_eq_dec : EqDecision Submission.t.
Proof. solve_decision. Defined.
#[global] Instance Message_eq_dec : EqDecision Message.t.
Proof. solve_decision. Defined.

(** ** The table store *)

Record Store := mkStore {
  users : list User.t;
  courses : list Course.t;
  enrollments : list Enrollment.t;
  assignments : list Assignment.t;
  submissions : list Submission.t;
  messages : list Message.t;
  next_id : Id }.

Definition with_users (l : list User.t) (s : Store) : Store :=
  mkStore l (courses s) (enrollments s) (assignments s) (submissions s)
          (messages s) (next_id s).
Definition with_courses (l : list Course.t) (s : Store) : Store :=
  mkStore (users s) l (enrollments s) (assignments s) (submissions s)
          (messages s) (next_id s).
Definition with_enrollments (l : list Enrollment.t) (s : Store) : Store :=
  mkStore (users s) (courses s) l (assignments s) (submissions s)
          (messages s) (next_id s).
Definition with_assignments (l : list Assignment.t) (s : Store) : Store :=
  mkStore (users s) (courses s) (enrollments s) l (submissions s)
          (messages s) (next_id s).
Definition with_submissions (l : list Submission.t) (s : Store) : Store :=
  mkStore (users s) (courses s) (enrollments s) (assignments s) l
          (messages s) (next_id s).
Definition with_messages (l : list Message.t) (s : Store) : Store :=
  mkStore (users s) (courses s) (enrollments s) (assignments s)
          (submissions s) l (next_id s).
Definition bump (s : Store) : Store :=
  mkStore (users s) (courses s) (enrollments s) (assignments s)
          (submissions s) (messages s) (S (next_id s)).

Section Queries.
Context {R : Type} (P : R → Prop) `{!∀ r, Decision (P r)}.

(** [.single()]: the selected row when the selection has exactly one
    row; otherwise [data] is null and [error] is set. *)
Definition single (rows : list R) : option R :=
  match rows with
  | [r] => Some r
  | _ => None
  end.

(** [.update(f).<filters P>]: every selected row is rewritten. *)
Definition update_where (f : R → R) (rows : list R) : list R :=
  (λ r, if decide (P r) then f r else r) <$> rows.

(** [.update(f).<filters P>.select().single()]: the rewritten row comes
    back when exactly one row is selected; with none or several the
    request is an error and the table is left as it was. *)
Definition update_single (f : R → R) (rows : list R)
  : option (R * list R) :=
  match single (filter P rows) with
  | Some r => Some (f r, update_where f rows)
  | None => None
  end.

(** [.delete().<filters P>] *)
Definition delete_where (rows : list R) : list R :=
  filter (λ r, ¬ P r) rows.
End Queries.

(** Modelled from the spec: the schema of the enrollments table is not in
    the sources; the pair (student id, course id) carries a unique
    constraint, whose violation the store reports with the error code
    23505.  The enrolled-at instant is the column default. *)
Definition insert_enrollment (student course : Id) (now : Time) (s : Store)
  : (string + Enrollment.t) * Store :=
  if decide (Exists (λ e, Enrollment.student_id e = student
                          ∧ Enrollment.course_id e = course) (enrollments s))
  then (inl "23505", s)
  else
    let e := Enrollment.mk (next_id s) student course now in
    (inr e, bump (with_enrollments (enrollments s ++ [e]) s)).

(** ** Requests and replies *)

(** [req.session.user] *)
Record SessionUser := mkSessionUser {
  su_id : Id;
  firstName : JsVal;
  lastName : JsVal;
  su_email : JsVal;
  su_role : JsVal;
  isApproved : bool }.

Record Req := mkReq {
  path : string;
  session_user : option SessionUser }.

Inductive Reply (A : Type) :=
| Json (payload : A)                     (* res.json(payload) *)
| Fail (status : nat) (error : string)   (* res.status(status).json({ error }) *)
| Redirect (url : string).               (* res.redirect(url) *)
Arguments Json {A} payload.
Arguments Fail {A} status error.
Arguments Redirect {A} url.

Definition status {A} (r : Reply A) : nat :=
  match r with
  | Json _ => 200
  | Fail st _ => st
  | Redirect _ => 302
  end.

Definition Handler (A : Type) := Store → Reply A * Store.

(** ** middleware/auth.js *)

Inductive Verdict :=
| Next
| Halt (status : nat) (error : string)
| Goto (url : string).

Definition Middleware := Req → Store → Verdict.

Definition student : JsVal := JStr "student".
Definition teacher : JsVal := JStr "teacher".
Definition master_teacher : JsVal := JStr "master_teacher".

Definition requireAuth : Middleware := λ req _,
  match session_user req with
  | None =>
      if String.prefix "/api/" (path req)
      then Halt 401 "Not authenticated"
      else Goto "/login"
  | Some _ => Next
  end.

Definition requireRole (roles : list JsVal) : Middleware := λ req _,
  match session_user req with
  | None => Halt 401 "Not authenticated"
  | Some u =>
      if decide (su_role u ∈ roles) then Next
      else Halt 403 "Insufficient permissions"
  end.

Definition requireApproved : Middleware := λ req s,
  match session_user req with
  | None => Halt 401 "Not authenticated"
  | Some u =>
      if decide (su_role u = student ∨ su_role u = master_teacher) then Next
      else
        match single (filter (λ r, User.id r = su_id u) (users s)) with
        | Some user =>
            if User.is_approved user then Next
            else Halt 403 "Your account is pending admin approval"
        | None => Halt 403 "Your account is pending admin approval"
        end
  end.

(** The middleware chain of a route. *)
Fixpoint through (ms : list Middleware) (req : Req) (s : Store) : Verdict :=
  match ms with
  | [] => Next
  | m :: ms' =>
      match m req s with
      | Next => through ms' req s
      | v => v
      end
  end.

(** A route: its middleware chain, then the handler body, which reads
    [req.session.user] inside a try block.  A body that throws ([None])
    ends in the catch block: status 500 with the route's message [crash],
    nothing having been written. *)
Definition route {A} (ms : list Middleware) (crash : string)
    (body : SessionUser → Store → option (Reply A * Store))
    (req : Req) : Handler A := λ s,
  match through ms req s with
  | Halt st e => (Fail st e, s)
  | Goto url => (Redirect url, s)
  | Next =>
      match session_user req with
      | Some u => default (Fail 500 crash, s) (body u s)
      | None => (Fail 500 crash, s)
      end
  end.

(** ** routes/courses.js *)

Module Courses.

(** The ownership block of the update, deactivate and list-students
    routes: [if (role === 'teacher') { ... if (!course ||
    course.teacher_id !== req.session.user.id) return 403 }]. *)
Definition not_your_course (id : Id) (u : SessionUser) (s : Store) : bool :=
  if decide (su_role u = teacher) then
    match single (filter (λ c, Course.id c = id) (courses s)) with
    | Some course => bool_decide (Course.teacher_id course ≠ su_id u)
    | None => true
    end
  else false.

(** POST /api/courses.  The active flag and the two timestamps of the new
    row are column defaults. *)
Definition create (now : Time) (name description subject : JsVal)
  : Req → Handler Course.t :=
  route [requireAuth; requireRole [teacher; master_teacher]; requireApproved]
        "Failed to create course"
    (λ u s,
       if negb (truthy name) then Some (Fail 400 "Course name is required", s)
       else
         let course :=
           Course.mk (next_id s) (su_id u) name
                     (js_or description (JStr "")) (js_or subject (JStr ""))
                     (JBool true) now now in
         Some (Json course, bump (with_courses (courses s ++ [course]) s))).

(** PUT /api/courses/:id *)
Definition update (now : Time) (id : Id)
    (name description subject is_active : JsVal) : Req → Handler Course.t :=
  route [requireAuth; requireRole [teacher; master_teacher]]
        "Failed to update course"
    (λ u s,
       if not_your_course id u s then Some (Fail 403 "Not your course", s)
       else
         let updates :=
           Course.mk_updates (Some now) (defined name) (defined description)
                             (defined subject) (defined is_active) in
         '(data, rows) ← update_single (λ c, Course.id c = id)
                                       (Course.update updates) (courses s);
         Some (Json data, with_courses rows s)).

(** DELETE /api/courses/:id: the course is deactivated, not removed. *)
Definition deactivate (now : Time) (id : Id) : Req → Handler unit :=
  route [requireAuth; requireRole [teacher; master_teacher]]
        "Failed to delete course"
    (λ u s,
       if not_your_course id u s then Some (Fail 403 "Not your course", s)
       else
         let updates :=
           Course.mk_updates (Some now) None None None (Some (JBool false)) in
         Some (Json (),
               with_courses (update_where (λ c, Course.id c = id)
                                          (Course.update updates) (courses s))
                            s)).

(** POST /api/courses/:id/enroll *)
Definition enroll (now : Time) (id : Id) : Req → Handler Enrollment.t :=
  route [requireAuth; requireRole [student]] "Failed to enroll"
    (λ u s,
       match insert_enrollment (su_id u) id now s with
       | (inl code, s') =>
           if decide (code = "23505")
           then Some (Fail 400 "Already enrolled in this course", s')
           else None
       | (inr data, s') => Some (Json data, s')
       end).

(** DELETE /api/courses/:id/unenroll *)
Definition unenroll (id : Id) : Req → Handler unit :=
  route [requireAuth; requireRole [student]] "Failed to unenroll"
    (λ u s,
       Some (Json (),
             with_enrollments
               (delete_where (λ e, Enrollment.student_id e = su_id u
                                   ∧ Enrollment.course_id e = id)
                             (enrollments s))
               s)).

(** A course row with the properties the listing routes attach to it; a
    property that a route does not attach is [None]. *)
Record Listed := mkListed {
  row : Course.t;
  teacher_of : option (option (JsVal * JsVal));  (* first_name, last_name *)
  is_enrolled : option bool;
  enrollment_count : option nat;
  assignment_count : option nat }.

(** [course.teacher]: the names on the user row of the course's teacher. *)
Definition teacher_names (s : Store) (c : Course.t) : option (JsVal * JsVal) :=
  (λ r, (User.first_name r, User.last_name r))
    <$> single (filter (λ r, User.id r = Course.teacher_id c) (users s)).

(** [enrollments ? enrollments.length : 0] *)
Definition count_enrollments (s : Store) (c : Course.t) : nat :=
  length (filter (λ e, Enrollment.course_id e = Course.id c) (enrollments s)).

(** [assignments ? assignments.length : 0] *)
Definition count_assignments (s : Store) (c : Course.t) : nat :=
  length (filter (λ a, Assignment.course_id a = Course.id c) (assignments s)).

(** GET /api/courses *)
Definition list_courses : Req → Handler (list Listed) :=
  route [requireAuth] "Failed to load courses"
    (λ u s,
       if decide (su_role u = student) then
         let enrollments :=
           filter (λ e, Enrollment.student_id e = su_id u) (enrollments s) in
         if decide (enrollments = []) then Some (Json [], s)
         else
           let courseIds := Enrollment.course_id <$> enrollments in
           let courses :=
             filter (λ c, Course.id c ∈ courseIds
                          ∧ Course.is_active c = JBool true) (courses s) in
           Some (Json ((λ c, mkListed c (Some (teacher_names s c)) None None
                                      (Some (count_assignments s c)))
                         <$> courses), s)
       else if decide (su_role u = teacher) then
         let courses :=
           merge_sort Course.by_created_at_desc
             (filter (λ c, Course.teacher_id c = su_id u) (courses s)) in
         Some (Json ((λ c, mkListed c None None
                                    (Some (count_enrollments s c))
                                    (Some (count_assignments s c)))
                       <$> courses), s)
       else
         let courses := merge_sort Course.by_created_at_desc (courses s) in
         Some (Json ((λ c, mkListed c (Some (teacher_names s c)) None
                                    (Some (count_enrollments s c)) None)
                       <$> courses), s)).

(** GET /api/courses/available *)
Definition available : Req → Handler (list Listed) :=
  route [requireAuth; requireRole [student]] "Failed to load courses"
    (λ u s,
       let courses :=
         merge_sort Course.by_created_at_desc
           (filter (λ c, Course.is_active c = JBool true) (courses s)) in
       let enrolledIds :=
         Enrollment.course_id
           <$> filter (λ e, Enrollment.student_id e = su_id u)
                      (enrollments s) in
       Some (Json ((λ c, mkListed c (Some (teacher_names s c))
                                  (Some (bool_decide (Course.id c ∈ enrolledIds)))
                                  (Some (count_enrollments s c)) None)
                     <$> courses), s)).

(** A row of the list of enrolled students. *)
Record Enrolled := mkEnrolled {
  student_id : Id;
  first_name : JsVal;
  last_name : JsVal;
  email : JsVal;
  enrolled_at : option Time }.

(** GET /api/courses/:id/students *)
Definition students (id : Id) : Req → Handler (list Enrolled) :=
  route [requireAuth; requireRole [teacher; master_teacher]]
        "Failed to load students"
    (λ u s,
       if not_your_course id u s then Some (Fail 403 "Not your course", s)
       else
         let enrollments :=
           filter (λ e, Enrollment.course_id e = id) (enrollments s) in
         if decide (enrollments = []) then Some (Json [], s)
         else
           let studentIds := Enrollment.student_id <$> enrollments in
           let students :=
             filter (λ r, User.id r ∈ studentIds) (users s) in
           let enrollMap : gmap Id Time :=
             foldl (λ m e, <[Enrollment.student_id e
                               := Enrollment.enrolled_at e]> m) ∅ enrollments in
           Some (Json ((λ r, mkEnrolled (User.id r) (User.first_name r)
                                        (User.last_name r) (User.email r)
                                        (enrollMap !! User.id r))
                         <$> students), s)).

End Courses.

(** ** routes/assignments.js *)

Module Assignments.

Definition verifyTeacherOwns (courseId userId : Id) (s : Store) : bool :=
  match single (filter (λ c, Course.id c = courseId) (courses s)) with
  | Some course => bool_decide (Course.teacher_id course = userId)
  | None => false
  end.

Definition verifyEnrolled (courseId studentId : Id) (s : Store) : bool :=
  match single (filter (λ e, Enrollment.course_id e = courseId
                             ∧ Enrollment.student_id e = studentId)
                       (enrollments s)) with
  | Some _ => true
  | None => false
  end.

(** [if (role === 'teacher') { if (!owns) return 403 }] *)
Definition not_your_course (courseId : Id) (u : SessionUser) (s : Store)
  : bool :=
  if decide (su_role u = teacher)
  then negb (verifyTeacherOwns courseId (su_id u) s)
  else false.

(** POST /api/assignments.  [course_id] is [None] when the body has no
    (truthy) course id. *)
Definition create (course_id : option Id)
    (title description due_date max_points : JsVal)
  : Req → Handler Assignment.t :=
  route [requireAuth; requireRole [teacher; master_teacher]; requireApproved]
        "Failed to create assignment"
    (λ u s,
       match course_id with
       | Some cid =>
           if negb (truthy title)
           then Some (Fail 400 "Course and title are required", s)
           else if not_your_course cid u s
           then Some (Fail 403 "Not your course", s)
           else
             let assignment :=
               Assignment.mk (next_id s) cid title
                             (js_or description (JStr ""))
                             (js_or due_date JNull)
                             (js_or max_points (JNum 100)) in
             Some (Json assignment,
                   bump (with_assignments (assignments s ++ [assignment]) s))
       | None => Some (Fail 400 "Course and title are required", s)
       end).

(** PUT /api/assignments/:id *)
Definition update (id : Id) (title description due_date max_points : JsVal)
  : Req → Handler Assignment.t :=
  route [requireAuth; requireRole [teacher; master_teacher]]
        "Failed to update assignment"
    (λ u s,
       match single (filter (λ a, Assignment.id a = id) (assignments s)) with
       | None => Some (Fail 404 "Assignment not found", s)
       | Some assignment =>
           if not_your_course (Assignment.course_id assignment) u s
           then Some (Fail 403 "Not your course", s)
           else
             let updates :=
               Assignment.mk_updates (defined title) (defined description)
                                     (defined due_date) (defined max_points) in
             '(data, rows) ← update_single (λ a, Assignment.id a = id)
                                           (Assignment.update updates)
                                           (assignments s);
             Some (Json data, with_assignments rows s)
       end).

(** DELETE /api/assignments/:id *)
Definition delete (id : Id) : Req → Handler unit :=
  route [requireAuth; requireRole [teacher; master_teacher]]
        "Failed to delete assignment"
    (λ u s,
       match single (filter (λ a, Assignment.id a = id) (assignments s)) with
       | None => Some (Fail 404 "Assignment not found", s)
       | Some assignment =>
           if not_your_course (Assignment.course_id assignment) u s
           then Some (Fail 403 "Not your course", s)
           else
             Some (Json (),
                   with_assignments
                     (delete_where (λ a, Assignment.id a = id) (assignments s))
                     s)
       end).

(** POST /api/assignments/:id/submit.  The insert names the assignment,
    the student and the content; the submitted-at instant, the null grade
    and the other columns of a new row are column defaults. *)
Definition submit (now : Time) (id : Id) (content : JsVal)
  : Req → Handler Submission.t :=
  route [requireAuth; requireRole [student]] "Failed to submit"
    (λ u s,
       if negb (truthy content)
       then Some (Fail 400 "Submission content is required", s)
       else
         match single (filter (λ a, Assignment.id a = id) (assignments s)) with
         | None => Some (Fail 404 "Assignment not found", s)
         | Some assignment =>
             if negb (verifyEnrolled (Assignment.course_id assignment)
                                     (su_id u) s)
             then Some (Fail 403 "Not enrolled in this course", s)
             else
               match single (filter (λ r, Submission.assignment_id r = id
                                          ∧ Submission.student_id r = su_id u)
                                    (submissions s)) with
               | Some existing =>
                   '(data, rows) ←
                     update_single
                       (λ r, Submission.id r = Submission.id existing)
                       (Submission.resubmit content now) (submissions s);
                   Some (Json data, with_submissions rows s)
               | None =>
                   let data :=
                     Submission.mk (next_id s) id (su_id u) content now
                                   None JNull None in
                   Some (Json data,
                         bump (with_submissions (submissions s ++ [data]) s))
               end
         end).

(** An entry of the student's list of submissions. *)
Record Mine := mkMine {
  mine : Submission.t;
  (* title, max_points, due_date, course_id *)
  mine_assignment : option (JsVal * JsVal * JsVal * Id);
  mine_course_name : option JsVal }.

(** The loop body of my-submissions: the assignment and, when there is
    one, the name of its course ([''] when the course is missing). *)
Definition attach_mine (s : Store) (sub : Submission.t) : Mine :=
  let assignment :=
    single (filter (λ a, Assignment.id a = Submission.assignment_id sub)
                   (assignments s)) in
  mkMine sub
    ((λ a, (Assignment.title a, Assignment.max_points a,
            Assignment.due_date a, Assignment.course_id a)) <$> assignment)
    ((λ a, match single (filter (λ c, Course.id c = Assignment.course_id a)
                                (courses s)) with
           | Some course => Course.name course
           | None => JStr ""
           end) <$> assignment).

(** GET /api/assignments/my-submissions *)
Definition my_submissions : Req → Handler (list Mine) :=
  route [requireAuth; requireRole [student]] "Failed to load submissions"
    (λ u s,
       let submissions :=
         merge_sort Submission.by_submitted_at_desc
           (filter (λ r, Submission.student_id r = su_id u) (submissions s)) in
       Some (Json (attach_mine s <$> submissions), s)).

(** The reply of the single-assignment route: the row with the course
    and, for a student, the caller's submission attached ([my_submission]
    is [None] when the property is not attached). *)
Record Detail := mkDetail {
  detail : Assignment.t;
  detail_course : option (JsVal * Id);          (* name, teacher_id *)
  my_submission : option (option Submission.t) }.

(** GET /api/assignments/:id *)
Definition get (id : Id) : Req → Handler Detail :=
  route [requireAuth] "Failed to load assignment"
    (λ u s,
       match single (filter (λ a, Assignment.id a = id) (assignments s)) with
       | None => Some (Fail 404 "Assignment not found", s)
       | Some assignment =>
           let course :=
             single (filter (λ c, Course.id c = Assignment.course_id assignment)
                            (courses s)) in
           Some (Json (mkDetail assignment
                         ((λ c, (Course.name c, Course.teacher_id c))
                            <$> course)
                         (if decide (su_role u = student)
                          then Some (single
                                       (filter
                                          (λ r, Submission.assignment_id r
                                                = Assignment.id assignment
                                                ∧ Submission.student_id r
                                                  = su_id u)
                                          (submissions s)))
                          else None)),
                 s)
       end).

(** An entry of the pending-grading list: the submission row with the
    three attached properties. *)
Record Pending := mkPending {
  row : Submission.t;
  student : option (JsVal * JsVal);          (* first_name, last_name *)
  assignment : option (Id * JsVal * Id);     (* id, title, course_id *)
  course_name : JsVal }.

(** The body of the loop that attaches the student, the assignment and
    the course name to a submission. *)
Definition attach (s : Store) (courseMap : gmap Id JsVal)
    (assignmentMap : gmap Id (Id * JsVal * Id)) (sub : Submission.t)
  : Pending :=
  let student :=
    single (filter (λ r, User.id r = Submission.student_id sub) (users s)) in
  let assignment := assignmentMap !! Submission.assignment_id sub in
  mkPending sub
    ((λ r, (User.first_name r, User.last_name r)) <$> student)
    assignment
    (js_or (default JUndefined
                    (a ← assignment; courseMap !! (a.2 : Id)))
           (JStr "")).

(** GET /api/assignments/pending-grading *)
Definition pending_grading : Req → Handler (list Pending) :=
  route [requireAuth; requireRole [teacher; master_teacher]]
        "Failed to load pending grades"
    (λ u s,
       let courses := filter (λ c, Course.teacher_id c = su_id u) (courses s) in
       if decide (courses = []) then Some (Json [], s)
       else
         let courseIds := Course.id <$> courses in
         let courseMap : gmap Id JsVal :=
           foldl (λ m c, <[Course.id c := Course.name c]> m) ∅ courses in
         let assignments :=
           filter (λ a, Assignment.course_id a ∈ courseIds) (assignments s) in
         if decide (assignments = []) then Some (Json [], s)
         else
           let assignmentIds := Assignment.id <$> assignments in
           let assignmentMap : gmap Id (Id * JsVal * Id) :=
             foldl (λ m a, <[Assignment.id a :=
                               (Assignment.id a, Assignment.title a,
                                Assignment.course_id a)]> m) ∅ assignments in
           let submissions :=
             merge_sort Submission.by_submitted_at
               (filter (λ r, Submission.assignment_id r ∈ assignmentIds
                             ∧ Submission.grade r = None)
                       (submissions s)) in
           Some (Json (attach s courseMap assignmentMap <$> submissions), s)).

(** The reply of the submissions list of an assignment. *)
Record Submitted := mkSubmitted {
  of_assignment : Id * JsVal * JsVal;     (* course_id, title, max_points *)
  (* each submission with first_name, last_name, email of the student *)
  received : list (Submission.t * option (JsVal * JsVal * JsVal)) }.

(** GET /api/assignments/:id/submissions *)
Definition list_submissions (id : Id) : Req → Handler Submitted :=
  route [requireAuth; requireRole [teacher; master_teacher]]
        "Failed to load submissions"
    (λ u s,
       match single (filter (λ a, Assignment.id a = id) (assignments s)) with
       | None => Some (Fail 404 "Assignment not found", s)
       | Some assignment =>
           if not_your_course (Assignment.course_id assignment) u s
           then Some (Fail 403 "Not your course", s)
           else
             let submissions :=
               merge_sort Submission.by_submitted_at_desc
                 (filter (λ r, Submission.assignment_id r = id)
                         (submissions s)) in
             Some (Json (mkSubmitted
                           (Assignment.course_id assignment,
                            Assignment.title assignment,
                            Assignment.max_points assignment)
                           ((λ sub,
                               (sub,
                                (λ r, (User.first_name r, User.last_name r,
                                       User.email r))
                                  <$> single
                                        (filter (λ r, User.id r
                                                      = Submission.student_id sub)
                                                (users s))))
                              <$> submissions)),
                   s)
       end).

Section Grade.
(** [parseInt] of the JavaScript runtime; [None] is NaN, which the store
    client sends as null. *)
Variable parseInt : JsVal → option Z.

(** PUT /api/assignments/submissions/:id/grade.  The ownership check
    reads [assignment.course_id]: it throws when the assignment of the
    submission is missing. *)
Definition grade (now : Time) (id : Id) (grade feedback : JsVal)
  : Req → Handler Submission.t :=
  route [requireAuth; requireRole [teacher; master_teacher]]
        "Failed to grade submission"
    (λ u s,
       if decide (grade = JUndefined ∨ grade = JNull)
       then Some (Fail 400 "Grade is required", s)
       else
         match single (filter (λ r, Submission.id r = id) (submissions s)) with
         | None => Some (Fail 404 "Submission not found", s)
         | Some submission =>
             let assignment :=
               single (filter (λ a, Assignment.id a
                                    = Submission.assignment_id submission)
                              (assignments s)) in
             denied ←
               (if decide (su_role u = teacher) then
                  a ← assignment;
                  Some (negb (verifyTeacherOwns (Assignment.course_id a)
                                                (su_id u) s))
                else Some false);
             if (denied : bool) then Some (Fail 403 "Not your course", s)
             else
               '(data, rows) ←
                 update_single (λ r, Submission.id r = id)
                   (Submission.graded (parseInt grade)
                                      (js_or feedback (JStr "")) now)
                   (submissions s);
               Some (Json data, with_submissions rows s)
         end).
End Grade.

End Assignments.

(** ** routes/messages.js *)

Module Messages.

(** GET /api/messages/unread-count *)
Definition unread_count : Req → Handler nat :=
  route [requireAuth] "Failed to get unread count"
    (λ u s,
       let data :=
         filter (λ m, Message.receiver_id m = su_id u
                      ∧ Message.is_read m = false) (messages s) in
       Some (Json (length data), s)).

Record Conversation := mkConversation {
  partner : option (JsVal * JsVal * JsVal);  (* first_name, last_name, role *)
  history : list Message.t }.

(** GET /api/messages/conversation/:userId *)
Definition conversation (partnerId : Id) : Req → Handler Conversation :=
  route [requireAuth] "Failed to load conversation"
    (λ u s,
       let userId := su_id u in
       let messages' :=
         merge_sort Message.by_created_at
           (filter (λ m, (Message.sender_id m = userId
                          ∧ Message.receiver_id m = partnerId)
                         ∨ (Message.sender_id m = partnerId
                            ∧ Message.receiver_id m = userId))
                   (messages s)) in
       let s' :=
         with_messages
           (update_where (λ m, Message.sender_id m = partnerId
                               ∧ Message.receiver_id m = userId
                               ∧ Message.is_read m = false)
                         Message.mark_read (messages s))
           s in
       let partner :=
         single (filter (λ r, User.id r = partnerId) (users s')) in
       Some (Json (mkConversation
                     ((λ r, (User.first_name r, User.last_name r, User.role r))
                        <$> partner)
                     messages'),
             s')).

(** POST /api/messages/send.  [receiver_id] is [None] when the body has
    no (truthy) receiver id; the created-at instant and the unread flag
    of the new row are column defaults. *)
Definition send (now : Time) (receiver_id : option Id) (content : JsVal)
  : Req → Handler Message.t :=
  route [requireAuth] "Failed to send message"
    (λ u s,
       match receiver_id with
       | Some rid =>
           if negb (truthy content)
           then Some (Fail 400 "Receiver and content are required", s)
           else
             match single (filter (λ r, User.id r = rid) (users s)) with
             | None => Some (Fail 404 "Recipient not found", s)
             | Some _ =>
                 let message :=
                   Message.mk (next_id s) (su_id u) rid content now false in
                 Some (Json message,
                       bump (with_messages (messages s ++ [message]) s))
             end
       | None => Some (Fail 400 "Receiver and content are required", s)
       end).

(** [...new Set(ids)]: the ids in order of first occurrence. *)
Fixpoint dedupe (ids seen : list Id) : list Id :=
  match ids with
  | [] => []
  | i :: ids' =>
      if decide (i ∈ seen) then dedupe ids' seen
      else i :: dedupe ids' (i :: seen)
  end.

(** A row of the contacts list. *)
Record Contact := mkContact {
  contact_id : Id;
  first_name : JsVal;
  last_name : JsVal;
  role : JsVal }.

Definition contact_of (r : User.t) : Contact :=
  mkContact (User.id r) (User.first_name r) (User.last_name r) (User.role r).

(** GET /api/messages/contacts *)
Definition contacts : Req → Handler (list Contact) :=
  route [requireAuth] "Failed to load contacts"
    (λ u s,
       let id := su_id u in
       if decide (su_role u = student) then
         let enrollments :=
           filter (λ e, Enrollment.student_id e = id) (enrollments s) in
         if decide (enrollments = []) then Some (Json [], s)
         else
           let courseIds := Enrollment.course_id <$> enrollments in
           let courses := filter (λ c, Course.id c ∈ courseIds) (courses s) in
           let teacherIds := dedupe (Course.teacher_id <$> courses) [] in
           if decide (teacherIds = []) then Some (Json [], s)
           else
             Some (Json (contact_of
                           <$> filter (λ r, User.id r ∈ teacherIds) (users s)),
                   s)
       else if decide (su_role u = teacher) then
         let courses := filter (λ c, Course.teacher_id c = id) (courses s) in
         if decide (courses = []) then Some (Json [], s)
         else
           let courseIds := Course.id <$> courses in
           let enrollments :=
             filter (λ e, Enrollment.course_id e ∈ courseIds) (enrollments s) in
           let studentIds := dedupe (Enrollment.student_id <$> enrollments) [] in
           if decide (studentIds = []) then Some (Json [], s)
           else
             Some (Json (contact_of
                           <$> filter (λ r, User.id r ∈ studentIds) (users s)),
                   s)
       else
         Some (Json (contact_of <$> filter (λ r, User.id r ≠ id) (users s)),
               s)).

End Messages.

(** ** routes/auth.js *)

Module Auth.
Section Login.
(** [bcrypt.compare(password, hash)] of the password hashing library:
    whether the password matches the hash, or [None] when the library
    rejects its arguments. *)
Variable bcrypt_compare : JsVal → string → option bool.

(** POST /auth/login.  The second component is the value assigned to
    [req.session.user], if any; the store is only read. *)
Definition login (email password : JsVal) (s : Store)
  : Reply string * option SessionUser :=
  if negb (truthy email) || negb (truthy password)
  then (Fail 400 "Email and password are required", None)
  else
    match single (filter (λ r, User.email r = email) (users s)) with
    | None => (Fail 401 "Invalid email or password", None)
    | Some user =>
        match bcrypt_compare password (User.password user) with
        | None => (Fail 500 "Login failed. Please try again.", None)
        | Some false => (Fail 401 "Invalid email or password", None)
        | Some true =>
            (Json "/dashboard",
             Some (mkSessionUser (User.id user) (User.first_name user)
                                 (User.last_name user) (User.email user)
                                 (User.role user) (User.is_approved user)))
        end
    end.
End Login.
Section Register.
(** [bcrypt.hash(password, 10)] of the password hashing library, or
    [None] when the library rejects its argument. *)
Variable bcrypt_hash : JsVal → option string.

(** [password.length < 6]: the length of a string is its number of
    UTF-16 code units; a number or a boolean has no length, and
    [undefined < 6] is false. *)
Definition too_short (password : JsVal) : bool :=
  match password with
  | JStr p => bool_decide (js_length p < 6)
  | _ => false
  end.

(** POST /auth/register.  The second component is the value assigned to
    [req.session.user], if any; the creation instant of the new row is a
    column default. *)
Definition register (now : Time)
    (firstName lastName email password role : JsVal) (s : Store)
  : Reply string * option SessionUser * Store :=
  if negb (truthy firstName) || negb (truthy lastName)
     || negb (truthy email) || negb (truthy password)
  then (Fail 400 "All fields are required", None, s)
  else if too_short password
  then (Fail 400 "Password must be at least 6 characters", None, s)
  else
    match single (filter (λ r, User.email r = email) (users s)) with
    | Some _ =>
        (Fail 400 "An account with this email already exists", None, s)
    | None =>
        match bcrypt_hash password with
        | None => (Fail 500 "Registration failed. Please try again.", None, s)
        | Some hashedPassword =>
            let userRole :=
              if decide (role ∈ [student; teacher]) then role else student in
            let isApproved := bool_decide (userRole = student) in
            let newUser :=
              User.mk (next_id s) firstName lastName email hashedPassword
                      userRole isApproved now in
            (Json "/dashboard",
             Some (mkSessionUser (User.id newUser) firstName lastName email
                                 userRole isApproved),
             bump (with_users (users s ++ [newUser]) s))
        end
    end.
End Register.
End Auth.

(** ** routes/admin.js *)

Module Admin.

(** PUT /api/admin/users/:id *)
Definition edit_user (id : Id) (first_name last_name email role : JsVal)
  : Req → Handler User.t :=
  route [requireAuth; requireRole [master_teacher]] "Failed to update user"
    (λ u s,
       if bool_decide (id = su_id u) && truthy role
          && bool_decide (role ≠ master_teacher)
       then Some (Fail 400 "Cannot change your own admin role", s)
       else
         let updates :=
           User.mk_updates (supplied first_name) (supplied last_name)
                           (supplied email) (supplied role) in
         '(data, rows) ← update_single (λ r, User.id r = id)
                                       (User.update updates) (users s);
         Some (Json data, with_users rows s)).

(** POST /api/admin/users/:id/reject *)
Definition reject (id : Id) : Req → Handler User.t :=
  route [requireAuth; requireRole [master_teacher]] "Failed to reject teacher"
    (λ u s,
       '(data, rows) ← update_single (λ r, User.id r = id
                                           ∧ User.role r = teacher)
                                     (User.approve false) (users s);
       Some (Json data, with_users rows s)).

Record Stats := mkStats {
  totalStudents : nat;
  totalTeachers : nat;
  totalAdmins : nat;
  pendingApprovals : nat;
  totalCourses : nat;
  totalUsers : nat }.

(** GET /api/admin/stats *)
Definition stats : Req → Handler Stats :=
  route [requireAuth; requireRole [master_teacher]] "Failed to load stats"
    (λ u s,
       let users := users s in
       Some (Json (mkStats
                     (length (filter (λ r, User.role r = student) users))
                     (length (filter (λ r, User.role r = teacher) users))
                     (length (filter (λ r, User.role r = master_teacher) users))
                     (length (filter (λ r, User.role r = teacher
                                           ∧ User.is_approved r = false) users))
                     (length (courses s))
                     (length users)),
             s)).

(** DELETE /api/admin/users/:id *)
Definition delete_user (id : Id) : Req → Handler unit :=
  route [requireAuth; requireRole [master_teacher]] "Failed to delete user"
    (λ u s,
       if decide (id = su_id u)
       then Some (Fail 400 "Cannot delete your own account", s)
       else
         Some (Json (),
               with_users (delete_where (λ r, User.id r = id) (users s)) s)).

(** POST /api/admin/users/:id/approve *)
Definition approve (id : Id) : Req → Handler User.t :=
  route [requireAuth; requireRole [master_teacher]] "Failed to approve teacher"
    (λ u s,
       '(data, rows) ← update_single (λ r, User.id r = id
                                           ∧ User.role r = teacher)
                                     (User.approve true) (users s);
       Some (Json data, with_users rows s)).

(** [.update({ role: 'master_teacher', is_approved: true })] *)
Definition promoted (r : User.t) : User.t :=
  User.mk (User.id r) (User.first_name r) (User.last_name r) (User.email r)
          (User.password r) master_teacher true (User.created_at r).

(** POST /api/admin/users/:id/promote *)
Definition promote (id : Id) : Req → Handler User.t :=
  route [requireAuth; requireRole [master_teacher]] "Failed to promote user"
    (λ u s,
       '(data, rows) ← update_single (λ r, User.id r = id) promoted (users s);
       Some (Json data, with_users rows s)).

(** A row of the pending-teachers list. *)
Record PendingTeacher := mkPendingTeacher {
  pt_id : Id;
  first_name : JsVal;
  last_name : JsVal;
  email : JsVal;
  created_at : Time }.

(** GET /api/admin/pending-teachers *)
Definition pending_teachers : Req → Handler (list PendingTeacher) :=
  route [requireAuth; requireRole [master_teacher]]
        "Failed to load pending teachers"
    (λ u s,
       Some (Json ((λ r, mkPendingTeacher (User.id r) (User.first_name r)
                                          (User.last_name r) (User.email r)
                                          (User.created_at r))
                     <$> merge_sort User.by_created_at_desc
                           (filter (λ r, User.role r = teacher
                                         ∧ User.is_approved r = false)
                                   (users s))),
             s)).

End Admin.

(** ** Predicates of the specification *)

(** The store's approval flag of user [uid] is false (on every row that
    carries the id). *)
Definition unapproved (uid : Id) (s : Store) : Prop :=
  Forall (λ r, User.id r = uid → User.is_approved r = false) (users s).

(** No course row with id [cid] names [uid] as its teacher. *)
Definition not_owner (uid cid : Id) (s : Store) : Prop :=
  Forall (λ c, Course.id c = cid → Course.teacher_id c ≠ uid) (courses s).

(** Student [sid] has an enrollment row for course [cid]. *)
Definition enrolled (sid cid : Id) (s : Store) : Prop :=
  Exists (λ e, Enrollment.student_id e = sid ∧ Enrollment.course_id e = cid)
         (enrollments s).

(** A submission row references an assignment that exists and a student
    enrolled in that assignment's course. *)
Definition references_enrolled (s : Store) (r : Submission.t) : Prop :=
  Exists (λ a, Assignment.id a = Submission.assignment_id r
               ∧ enrolled (Submission.student_id r) (Assignment.course_id a) s)
         (assignments s).

Definition submissions_valid (s : Store) : Prop :=
  Forall (references_enrolled s) (submissions s).

(** A submission is ungraded and its assignment belongs to a course whose
    teacher is [uid]. *)
Definition owned_pending (uid : Id) (s : Store) (r : Submission.t) : Prop :=
  Submission.grade r = None
  ∧ Exists (λ a, Assignment.id a = Submission.assignment_id r
                 ∧ Exists (λ c, Course.id c = Assignment.course_id a
                                ∧ Course.teacher_id c = uid) (courses s))
           (assignments s).

(** The rows for the pair (assignment, student). *)
Definition submissions_of (aid sid : Id) (s : Store) : list Submission.t :=
  filter (λ r, Submission.assignment_id r = aid ∧ Submission.student_id r = sid)
         (submissions s).

(** The messages from [partner] that [uid] has not read. *)
Definition unread_from (partner uid : Id) (s : Store) : list Message.t :=
  filter (λ m, Message.sender_id m = partner ∧ Message.receiver_id m = uid
               ∧ Message.is_read m = false) (messages s).

(** What the read-marking of the conversation route may do to a message
    [m], giving [m']: the row keeps its key, its sender, receiver, text and
    instant, and its flag is set when the message goes from [partner] to
    [uid] and kept otherwise. *)
Definition read_by (partner uid : Id) (m m' : Message.t) : Prop :=
  Message.id m' = Message.id m
  ∧ Message.sender_id m' = Message.sender_id m
  ∧ Message.receiver_id m' = Message.receiver_id m
  ∧ Message.content m' = Message.content m
  ∧ Message.created_at m' = Message.created_at m
  ∧ Message.is_read m'
    = (if decide (Message.sender_id m = partner ∧ Message.receiver_id m = uid)
       then true else Message.is_read m).

(** The two stores differ in the messages table at most. *)
Definition same_but_messages (s s' : Store) : Prop :=
  users s' = users s
  ∧ courses s' = courses s
  ∧ enrollments s' = enrollments s
  ∧ assignments s' = assignments s
  ∧ submissions s' = submissions s
  ∧ next_id s' = next_id s.

(** The id column is the primary key of the submissions table: no two
    rows share an id, and the ids in use are below the store's counter, so
    that the key of an inserted row is new. *)
Definition submission_keys (s : Store) : Prop :=
  NoDup (Submission.id <$> submissions s)
  ∧ Forall (λ k, k < next_id s) (Submission.id <$> submissions s).

(** The messages addressed to [uid] that are not read. *)
Definition unread_for (uid : Id) (s : Store) : list Message.t :=
  filter (λ m, Message.receiver_id m = uid ∧ Message.is_read m = false)
         (messages s).

(** An entry of the pending-grading list carries the name of the student
    on the student's user row, an assignment of the store with the id the
    submission names, and the name of a course of [uid] that the
    assignment belongs to (the empty string when the name is falsy). *)
Definition enriched (uid : Id) (s : Store) (e : Assignments.Pending) : Prop :=
  (∀ r, filter (λ r, User.id r = Submission.student_id (Assignments.row e))
               (users s) = [r] →
        Assignments.student e = Some (User.first_name r, User.last_name r))
  ∧ ∃ a c,
      a ∈ assignments s ∧ c ∈ courses s
      ∧ Assignment.id a = Submission.assignment_id (Assignments.row e)
      ∧ Course.id c = Assignment.course_id a
      ∧ Course.teacher_id c = uid
      ∧ Assignments.assignment e
        = Some (Assignment.id a, Assignment.title a, Assignment.course_id a)
      ∧ Assignments.course_name e = js_or (Course.name c) (JStr "").

(** What the admin edit may do to a column: keep it, or write a truthy
    supplied value. *)
Definition kept_or_written (supplied old new : JsVal) : Prop :=
  new = old ∨ (truthy supplied = true ∧ new = supplied).

(** What the edit route may do to a row of the users table. *)
Definition edited (fn ln em ro : JsVal) (r r' : User.t) : Prop :=
  kept_or_written fn (User.first_name r) (User.first_name r')
  ∧ kept_or_written ln (User.last_name r) (User.last_name r')
  ∧ kept_or_written em (User.email r) (User.email r')
  ∧ kept_or_written ro (User.role r) (User.role r').

(** User [tid] is the teacher of a course in which [sid] is enrolled. *)
Definition teaches (tid sid : Id) (s : Store) : Prop :=
  Exists (λ c, Course.teacher_id c = tid ∧ enrolled sid (Course.id c) s)
         (courses s).

(** A reply other than a success. *)
Definition refused {A} (r : Reply A) : Prop :=
  match r with
  | Json _ => False
  | _ => True
  end.

(** The caller may write to course [cid]: a master_teacher, or the
    teacher named on the course row. *)
Definition may_write_course (u : SessionUser) (cid : Id) (s : Store) : Prop :=
  su_role u = master_teacher
  ∨ (su_role u = teacher
     ∧ ∃ c, filter (λ c, Course.id c = cid) (courses s) = [c]
            ∧ Course.teacher_id c = su_id u).

(** The caller may grade submission [sub]: a master_teacher, or the
    teacher of the course of the submission's assignment. *)
Definition may_grade (u : SessionUser) (sub : Submission.t) (s : Store) : Prop :=
  su_role u = master_teacher
  ∨ ∃ a, filter (λ a, Assignment.id a = Submission.assignment_id sub)
                (assignments s) = [a]
         ∧ su_role u = teacher
         ∧ ∃ c, filter (λ c, Course.id c = Assignment.course_id a) (courses s)
                = [c]
                ∧ Course.teacher_id c = su_id u.

(** The outcome of a request either is a success or leaves the store [s]
    it started from. *)
Definition writes_only_on_success {A} (out : Reply A * Store) (s : Store)
  : Prop :=
  match out.1 with
  | Json _ => True
  | _ => out.2 = s
  end.

#[global] Instance unapproved_dec uid s : Decision (unapproved uid s).
Proof. unfold unapproved. apply _. Defined.
#[global] Instance not_owner_dec uid cid s : Decision (not_owner uid cid s).
Proof. unfold not_owner. apply _. Defined.
#[global] Instance enrolled_dec sid cid s : Decision (enrolled sid cid s).
Proof. unfold enrolled. apply _. Defined.
#[global] Instance references_enrolled_dec s r :
  Decision (references_enrolled s r).
Proof. unfold references_enrolled. apply _. Defined.
#[global] Instance submissions_valid_dec s : Decision (submissions_valid s).
Proof. unfold submissions_valid. apply _. Defined.
#[global] Instance owned_pending_dec uid s r : Decision (owned_pending uid s r).
Proof. unfold owned_pending. apply _. Defined.
#[global] Instance teaches_dec tid sid s : Decision (teaches tid sid s).
Proof. unfold teaches. apply _. Defined.
#[global] Instance submission_keys_dec s : Decision (submission_keys s).
Proof. unfold submission_keys. apply _. Defined.

(** ** A school to run the routes on *)

Module School.

Definition ann : User.t :=
  User.mk 1 (JStr "Ann") (JStr "Lee") (JStr "ann@school.test") "hash-ann"
          teacher true 0.
Definition bo : User.t :=
  User.mk 2 (JStr "Bo") (JStr "Diaz") (JStr "bo@school.test") "hash-bo"
          student true 0.
Definition root : User.t :=
  User.mk 3 (JStr "Max") (JStr "Root") (JStr "root@school.test") "hash-root"
          master_teacher true 0.
Definition cy : User.t :=
  User.mk 4 (JStr "Cy") (JStr "Orr") (JStr "cy@school.test") "hash-cy"
          teacher true 0.

(** The session snapshot taken when a user logs in. *)
Definition session_of (r : User.t) : SessionUser :=
  mkSessionUser (User.id r) (User.first_name r) (User.last_name r)
                (User.email r) (User.role r) (User.is_approved r).
Definition as_user (r : User.t) : Req := mkReq "/" (Some (session_of r)).

Definition empty : Store := mkStore [ann; bo; root; cy] [] [] [] [] [] 10.

(** Ann creates the course Algebra and the assignment HW1. *)
Definition with_course : Store :=
  (Courses.create 1 (JStr "Algebra") JUndefined JUndefined (as_user ann)
                  empty).2.
Definition with_assignment : Store :=
  (Assignments.create (Some 10) (JStr "HW1") JUndefined (JNum 7) JUndefined
                      (as_user ann) with_course).2.


(** Bo enrolls in Algebra, submits an answer to HW1, then unenrolls. *)
Definition bo_enrolled : Store :=
  (Courses.enroll 2 10 (as_user bo) with_assignment).2.
Definition bo_submitted : Store :=
  (Assignments.submit 3 11 (JStr "answer") (as_user bo) bo_enrolled).2.
Definition bo_unenrolled : Store :=
  (Courses.unenroll 10 (as_user bo) bo_submitted).2.

(** Ann writes to Bo twice; Bo answers once. *)
Definition chatting : Store :=
  with_messages
    [Message.mk 20 1 2 (JStr "Welcome") 1 false;
     Message.mk 21 2 1 (JStr "Thanks") 2 false;
     Message.mk 22 1 2 (JStr "HW1 is out") 3 false;
     Message.mk 23 3 2 (JStr "Notice") 4 false]
    bo_enrolled.

(** A password check that compares the password with the stored text. *)
Definition plain_compare (password : JsVal) (hash : string) : option bool :=
  match password with
  | JStr p => Some (String.eqb p hash)
  | _ => None
  end.


(** [parseInt] and [bcrypt.hash] for the runs: numbers parse to
    themselves, and the hash of a password is its text. *)
Definition parse_int (v : JsVal) : option Z :=
  match v with
  | JNum n => Some n
  | _ => None
  end.
Definition plain_hash (password : JsVal) : option string :=
  match password with
  | JStr p => Some p
  | _ => None
  end.

(** Ann grades Bo's answer with 85. *)
Definition bo_graded : Store :=
  (Assignments.grade parse_int 5 13 (JNum 85) (JStr "good") (as_user ann)
                     bo_submitted).2.

(** Dee registers as a teacher. *)
Definition dee_registered : Store :=
  (Auth.register plain_hash 6 (JStr "Dee") (JStr "Kim")
                 (JStr "dee@school.test") (JStr "secret-dee") teacher
                 empty).2.

(** Dee's row after registration; the admin then approves her. *)
Definition dee : User.t :=
  User.mk 10 (JStr "Dee") (JStr "Kim") (JStr "dee@school.test") "secret-dee"
          teacher false 6.
Definition dee_approved : Store :=
  (Admin.approve 10 (as_user root) dee_registered).2.

(** Ann deactivates Algebra while Bo is enrolled. *)
Definition algebra_closed : Store :=
  (Courses.deactivate 7 10 (as_user ann) bo_submitted).2.

(** The admin promotes Cy. *)
Definition cy_promoted : Store := (Admin.promote 4 (as_user root) empty).2.
End School.

(** * Properties *)

(** ** Queries *)

Section QueryFacts.
Context {R : Type} (P : R → Prop) `{!∀ r, Decision (P r)}.

Lemma single_Some (rows : list R) (r : R) :
  single rows = Some r ↔ rows = [r].
Proof.
  destruct rows as [|x [|y rows]]; simpl; split; intros Heq;
    by simplify_eq.
Qed.

Lemma single_filter_elem (rows : list R) (r : R) :
  single (filter P rows) = Some r → r ∈ rows ∧ P r.
Proof.
  intros Heq%single_Some.
  assert (r ∈ filter P rows) as Hin by (rewrite Heq; apply list_elem_of_here).
  apply list_elem_of_filter in Hin. tauto.
Qed.

Lemma update_where_length (f : R → R) rows :
  length (update_where P f rows) = length rows.
Proof. apply length_fmap. Qed.

(** Rows selected by [P] stay selected when [f] preserves [P]: the
    selection of the rewritten table is the rewritten selection. *)
Lemma filter_update_where (f : R → R) rows :
  (∀ r, P r → P (f r)) →
  filter P (update_where P f rows) = f <$> filter P rows.
Proof.
  intros Hf. induction rows as [|x rows IH]; [done|].
  unfold update_where in *. rewrite fmap_cons.
  destruct (decide (P x)) as [HP|HP].
  - rewrite (filter_cons_True P _ _ (Hf _ HP)).
    rewrite (filter_cons_True P _ _ HP). by rewrite fmap_cons, IH.
  - rewrite !(filter_cons_False P _ _ HP). apply IH.
Qed.

(** A row outside the selection is in the table after the update
    exactly when it was there before, provided the rewritten rows stay
    in the selection. *)
Lemma update_where_others (f : R → R) rows r :
  (∀ x, P x → P (f x)) → ¬ P r →
  r ∈ update_where P f rows ↔ r ∈ rows.
Proof.
  intros Hf Hr. unfold update_where. rewrite list_elem_of_fmap. split.
  - intros (x & -> & Hx). destruct (decide (P x)) as [HP|HP]; [|done].
    destruct Hr. by apply Hf.
  - intros Hx. exists r. by rewrite decide_False.
Qed.

Lemma update_where_none (f : R → R) rows :
  filter P rows = [] → update_where P f rows = rows.
Proof.
  intros Hnil. unfold update_where. induction rows as [|x rows IH]; [done|].
  rewrite fmap_cons. destruct (decide (P x)) as [HP|HP].
  - by rewrite (filter_cons_True P _ _ HP) in Hnil.
  - rewrite (filter_cons_False P _ _ HP) in Hnil. by rewrite IH.
Qed.

Lemma update_where_elem (f : R → R) rows r :
  r ∈ rows → P r → f r ∈ update_where P f rows.
Proof.
  intros Hin HP. unfold update_where. apply list_elem_of_fmap.
  exists r. by rewrite decide_True.
Qed.

(** A column that [f] leaves alone reads the same after the update. *)
Lemma update_where_column {C} (col : R → C) (f : R → R) rows :
  (∀ r, col (f r) = col r) →
  col <$> update_where P f rows = col <$> rows.
Proof.
  intros Hcol. unfold update_where. rewrite <- list_fmap_compose.
  apply list_fmap_ext. intros i r _. simpl. by destruct (decide (P r)).
Qed.

(** A selection on columns that [f] leaves alone commutes with the
    update. *)
Lemma filter_update_where_frame (Q : R → Prop) `{!∀ r, Decision (Q r)}
    (f : R → R) rows :
  (∀ r, Q (f r) ↔ Q r) →
  filter Q (update_where P f rows) = update_where P f (filter Q rows).
Proof.
  intros HQ. unfold update_where.
  induction rows as [|x rows IH]; [done|]. rewrite fmap_cons.
  assert (Q (if decide (P x) then f x else x) ↔ Q x) as Hx
    by (destruct (decide (P x)); [apply HQ | done]).
  destruct (decide (Q x)) as [Hq|Hq].
  - rewrite (filter_cons_True Q _ _ Hq).
    rewrite filter_cons_True by by apply Hx.
    by rewrite fmap_cons, IH.
  - rewrite (filter_cons_False Q _ _ Hq).
    rewrite filter_cons_False by (by rewrite Hx). apply IH.
Qed.

(** The rows outside the selection are the same after the update. *)
Lemma filter_update_where_others (f : R → R) rows :
  (∀ r, P r → P (f r)) →
  filter (λ r, ¬ P r) (update_where P f rows) = filter (λ r, ¬ P r) rows.
Proof.
  intros Hf. unfold update_where.
  induction rows as [|x rows IH]; [done|]. rewrite fmap_cons.
  destruct (decide (P x)) as [HP|HP].
  - rewrite !filter_cons_False by (intros Hn; apply Hn; auto). apply IH.
  - rewrite !filter_cons_True by done. by rewrite IH.
Qed.

Lemma update_single_Some (f : R → R) rows r :
  filter P rows = [r] →
  update_single P f rows = Some (f r, update_where P f rows).
Proof. intros Heq. unfold update_single. by rewrite Heq. Qed.
End QueryFacts.

(** ** The middleware chain *)

Section Gates.
Context (req : Req) (u : SessionUser) (s : Store).
Hypothesis Hsession : session_user req = Some u.

Lemma requireAuth_next : requireAuth req s = Next.
Proof using Hsession. unfold requireAuth. by rewrite Hsession. Qed.

Lemma requireRole_next roles :
  su_role u ∈ roles → requireRole roles req s = Next.
Proof using Hsession.
  intros H. unfold requireRole. rewrite Hsession. by rewrite decide_True.
Qed.


Lemma through_auth : through [requireAuth] req s = Next.
Proof using Hsession. simpl. by rewrite requireAuth_next. Qed.

Lemma through_auth_role roles :
  su_role u ∈ roles → through [requireAuth; requireRole roles] req s = Next.
Proof using Hsession.
  intros H. simpl. by rewrite requireAuth_next, requireRole_next.
Qed.


Lemma route_next {A} ms crash
    (body : SessionUser → Store → option (Reply A * Store)) :
  through ms req s = Next →
  route ms crash body req s = default (Fail 500 crash, s) (body u s).
Proof using Hsession. intros H. unfold route. by rewrite H, Hsession. Qed.
End Gates.

Lemma route_halt {A} ms crash
    (body : SessionUser → Store → option (Reply A * Store)) req s st e :
  through ms req s = Halt st e →
  route ms crash body req s = (Fail st e, s).
Proof. intros H. unfold route. by rewrite H. Qed.

Lemma teacher_may_teach : teacher ∈ [teacher; master_teacher].
Proof. set_solver. Qed.

Lemma master_may_teach : master_teacher ∈ [teacher; master_teacher].
Proof. set_solver. Qed.

(** ** Approval *)



(** An approved teacher does create a course. *)
Example approved_teacher_creates :
  status (Courses.create 1 (JStr "Algebra") JUndefined JUndefined
                         (School.as_user School.ann) School.empty).1 = 200
  ∧ Course.name <$> courses School.with_course = [JStr "Algebra"].
Proof. split; reflexivity. Qed.


(** ** Course ownership *)

Lemma not_your_course_teacher (id : Id) (u : SessionUser) (s : Store) :
  su_role u = teacher → not_owner (su_id u) id s →
  Courses.not_your_course id u s = true.
Proof.
  intros Hrole Hown. unfold Courses.not_your_course.
  rewrite decide_True by done.
  destruct (single _) as [course|] eqn:Hsingle; [|done].
  apply single_filter_elem in Hsingle as [Hin Hid].
  unfold not_owner in Hown. rewrite Forall_forall in Hown.
  apply bool_decide_eq_true. by apply Hown.
Qed.

Lemma not_your_course_master (id : Id) (u : SessionUser) (s : Store) :
  su_role u = master_teacher → Courses.not_your_course id u s = false.
Proof.
  intros Hrole. unfold Courses.not_your_course.
  by rewrite decide_False by (rewrite Hrole; discriminate).
Qed.

(** C5: a teacher who does not own the course gets 403 from the course
    update and delete routes, which leave the store as it was; for a
    master_teacher the ownership check is skipped: the routes write to the
    course whoever its teacher is and never answer 403. *)
Theorem course_ownership_gate :
  (∀ (now : Time) (req : Req) (u : SessionUser) (s : Store) (id : Id)
     (name description subject is_active : JsVal),
     session_user req = Some u →
     su_role u = teacher →
     not_owner (su_id u) id s →
     Courses.update now id name description subject is_active req s
     = (Fail 403 "Not your course", s)
     ∧ Courses.deactivate now id req s = (Fail 403 "Not your course", s))
  ∧
  (∀ (now : Time) (req : Req) (u : SessionUser) (s : Store) (id : Id)
     (name description subject is_active : JsVal),
     session_user req = Some u →
     su_role u = master_teacher →
     let updates :=
       Course.mk_updates (Some now) (defined name) (defined description)
                         (defined subject) (defined is_active) in
     let off :=
       Course.mk_updates (Some now) None None None (Some (JBool false)) in
     status (Courses.update now id name description subject is_active req s).1
     ≠ 403
     ∧ (∀ course,
          filter (λ c, Course.id c = id) (courses s) = [course] →
          Courses.update now id name description subject is_active req s
          = (Json (Course.update updates course),
             with_courses (update_where (λ c, Course.id c = id)
                                        (Course.update updates) (courses s))
                          s))
     ∧ Courses.deactivate now id req s
       = (Json (),
          with_courses (update_where (λ c, Course.id c = id)
                                     (Course.update off) (courses s))
                       s)).
Proof.
  split.
  - intros now req u s id name description subject is_active
           Hsession Hrole Hown.
    assert (su_role u ∈ [teacher; master_teacher]) as Hin
      by (rewrite Hrole; apply teacher_may_teach).
    unfold Courses.update, Courses.deactivate.
    rewrite !(route_next req u s Hsession)
      by by apply (through_auth_role req u s Hsession).
    by rewrite (not_your_course_teacher id u s Hrole Hown).
  - intros now req u s id name description subject is_active
           Hsession Hrole updates off.
    assert (su_role u ∈ [teacher; master_teacher]) as Hin
      by (rewrite Hrole; apply master_may_teach).
    unfold Courses.update, Courses.deactivate.
    rewrite !(route_next req u s Hsession)
      by by apply (through_auth_role req u s Hsession).
    rewrite (not_your_course_master id u s Hrole).
    split; [|split].
    + fold updates.
      by destruct (update_single _ _ _) as [[data rows]|].
    + intros course Hrow. fold updates.
      by rewrite (update_single_Some _ _ _ _ Hrow).
    + done.
Qed.

Lemma course_ownership_gate_witness :
  (Courses.update 9 10 (JStr "Mine") JUndefined JUndefined JUndefined
                  (School.as_user School.cy) School.with_course
   = (Fail 403 "Not your course", School.with_course)
   ∧ Courses.deactivate 9 10 (School.as_user School.cy) School.with_course
     = (Fail 403 "Not your course", School.with_course))
  ∧ Courses.deactivate 9 10 (School.as_user School.root) School.with_course
    = (Json (),
       with_courses
         (update_where (λ c, Course.id c = 10)
            (Course.update
               (Course.mk_updates (Some 9) None None None (Some (JBool false))))
            (courses School.with_course))
         School.with_course).
Proof.
  split.
  - apply (proj1 course_ownership_gate 9 (School.as_user School.cy)
             (School.session_of School.cy));
      [reflexivity | reflexivity |].
    apply (bool_decide_unpack _). vm_compute. exact I.
  - apply (proj2 course_ownership_gate 9 (School.as_user School.root)
             (School.session_of School.root) School.with_course 10
             JUndefined JUndefined JUndefined JUndefined);
      reflexivity.
Defined.

(** ** Enrollment *)

Lemma enroll_Json (now : Time) (req : Req) (u : SessionUser) (s : Store)
    (id : Id) (e : Enrollment.t) (s' : Store) :
  session_user req = Some u →
  Courses.enroll now id req s = (Json e, s') →
  enrolled (su_id u) id s'.
Proof.
  intros Hsession. unfold Courses.enroll, route.
  destruct (through _ _ _); [|intros; simplify_eq..].
  rewrite Hsession. unfold insert_enrollment.
  destruct (decide _) as [Hdup|Hnew]; simpl; intros Heq; simplify_eq.
  unfold enrolled. simpl. apply Exists_app. right. by constructor.
Qed.

Lemma enroll_when_enrolled
    (now : Time) (req : Req) (u : SessionUser) (s : Store) (id : Id) :
  session_user req = Some u →
  su_role u = student →
  enrolled (su_id u) id s →
  Courses.enroll now id req s = (Fail 400 "Already enrolled in this course", s).
Proof.
  intros Hsession Hrole Hdup. unfold Courses.enroll.
  rewrite (route_next req u s Hsession)
    by (apply (through_auth_role req u s Hsession); rewrite Hrole; set_solver).
  unfold insert_enrollment. by rewrite decide_True.
Qed.

(** C7: when the student already has an enrollment row for the course,
    enroll answers 400 with the message of the enroll route (not the 500
    of its catch block) and the store, hence the number of enrollments of
    the course, is as before. *)
Theorem duplicate_enroll_rejected
    (now : Time) (req : Req) (u : SessionUser) (s : Store) (id : Id) :
  session_user req = Some u →
  su_role u = student →
  enrolled (su_id u) id s →
  Courses.enroll now id req s = (Fail 400 "Already enrolled in this course", s)
  ∧ length (filter (λ e, Enrollment.course_id e = id)
                   (enrollments (Courses.enroll now id req s).2))
    = length (filter (λ e, Enrollment.course_id e = id) (enrollments s)).
Proof.
  intros Hsession Hrole Hdup.
  by rewrite (enroll_when_enrolled now req u s id Hsession Hrole Hdup).
Qed.

Lemma duplicate_enroll_rejected_witness :
  Courses.enroll 5 10 (School.as_user School.bo) School.bo_enrolled
  = (Fail 400 "Already enrolled in this course", School.bo_enrolled)
  ∧ length (filter (λ e, Enrollment.course_id e = 10)
              (enrollments (Courses.enroll 5 10 (School.as_user School.bo)
                                           School.bo_enrolled).2))
    = length (filter (λ e, Enrollment.course_id e = 10)
                     (enrollments School.bo_enrolled)).
Proof.
  apply (duplicate_enroll_rejected 5 (School.as_user School.bo)
           (School.session_of School.bo));
    [reflexivity | reflexivity |].
  apply (bool_decide_unpack _). vm_compute. exact I.
Defined.

(** Enrolling twice in a row: the second call is the rejected one. *)
Lemma enroll_twice (now now' : Time) (req : Req) (u : SessionUser)
    (s s' : Store) (id : Id) (e : Enrollment.t) :
  session_user req = Some u →
  Courses.enroll now id req s = (Json e, s') →
  Courses.enroll now' id req s'
  = (Fail 400 "Already enrolled in this course", s').
Proof.
  intros Hsession Hfirst.
  assert (su_role u = student) as Hrole.
  { revert Hfirst. unfold Courses.enroll, route. simpl.
    rewrite (requireAuth_next req u s Hsession).
    unfold requireRole. rewrite Hsession.
    destruct (decide (su_role u ∈ [student])) as [Hin|Hout].
    - intros _. by apply list_elem_of_singleton.
    - intros Heq. simplify_eq. }
  apply (enroll_when_enrolled now' req u s' id Hsession Hrole).
  by eapply enroll_Json.
Qed.

(** ** Submissions *)

Section PrimaryKey.
Context {R : Type} (key : R → Id).

Lemma filter_key_absent (k : Id) (rows : list R) :
  k ∉ key <$> rows → filter (λ r, key r = k) rows = [].
Proof.
  intros Hk. induction rows as [|x rows IH]; [done|].
  rewrite fmap_cons, not_elem_of_cons in Hk. destruct Hk as [Hx Hk].
  rewrite filter_cons_False by done. by apply IH.
Qed.

(** Selecting by the key of a row of a keyed table selects that row. *)
Lemma filter_key (r : R) (rows : list R) :
  NoDup (key <$> rows) → r ∈ rows → filter (λ x, key x = key r) rows = [r].
Proof.
  induction rows as [|x rows IH]; intros Hdup Hin.
  - by apply elem_of_nil in Hin.
  - rewrite fmap_cons in Hdup. apply NoDup_cons in Hdup as [Hx Hdup].
    apply elem_of_cons in Hin as [->|Hin].
    + rewrite filter_cons_True by done. by rewrite filter_key_absent.
    + rewrite filter_cons_False; [by apply IH|].
      intros Heq. apply Hx. rewrite Heq. by apply list_elem_of_fmap_2.
Qed.
End PrimaryKey.

Lemma verifyEnrolled_enrolled (cid sid : Id) (s : Store) :
  Assignments.verifyEnrolled cid sid s = true → enrolled sid cid s.
Proof.
  unfold Assignments.verifyEnrolled, enrolled.
  destruct (single _) as [e|] eqn:Hsingle; [|done]. intros _.
  apply single_filter_elem in Hsingle as [Hin [Hc Hs]].
  apply Exists_exists. by exists e.
Qed.

(** What a successful submit has gone through. *)
Lemma submit_Json (now : Time) (req : Req) (u : SessionUser) (s : Store)
    (id : Id) (content : JsVal) (sub : Submission.t) (s' : Store) :
  session_user req = Some u →
  Assignments.submit now id content req s = (Json sub, s') →
  su_role u = student
  ∧ truthy content = true
  ∧ ∃ a, single (filter (λ a, Assignment.id a = id) (assignments s)) = Some a
      ∧ Assignments.verifyEnrolled (Assignment.course_id a) (su_id u) s = true
      ∧ match single (submissions_of id (su_id u) s) with
        | Some existing =>
            ∃ rows,
              update_single (λ r, Submission.id r = Submission.id existing)
                            (Submission.resubmit content now) (submissions s)
              = Some (sub, rows)
              ∧ s' = with_submissions rows s
        | None =>
            sub = Submission.mk (next_id s) id (su_id u) content now
                                None JNull None
            ∧ s' = bump (with_submissions (submissions s ++ [sub]) s)
        end.
Proof.
  intros Hsession. unfold Assignments.submit, route, submissions_of. simpl.
  rewrite (requireAuth_next req u s Hsession).
  unfold requireRole. rewrite Hsession.
  destruct (decide (su_role u ∈ [student])) as [Hin|Hout];
    [|intros; simplify_eq].
  apply list_elem_of_singleton in Hin.
  destruct (truthy content); simpl; [|intros; simplify_eq].
  destruct (single (filter _ (assignments s))) as [a|]; simpl;
    [|intros; simplify_eq].
  destruct (Assignments.verifyEnrolled _ _ _) eqn:Henr; simpl;
    [|intros; simplify_eq].
  destruct (single (filter _ (submissions s))) as [existing|]; simpl.
  - destruct (update_single _ _ _) as [[data rows]|]; simpl;
      intros Heq; simplify_eq.
    do 2 (split; [done|]). exists a. do 2 (split; [done|]). by exists rows.
  - intros Heq. simplify_eq.
    do 2 (split; [done|]). exists a. by do 2 (split; [done|]).
Qed.

(** C2 (as amended): submit enforces the reference at creation: the row it
    returns is in the store, names the assignment and the caller, and at
    that moment the assignment exists and the caller is enrolled in the
    assignment's course. *)
Theorem submit_references_enrolled
    (now : Time) (req : Req) (u : SessionUser) (s : Store)
    (id : Id) (content : JsVal) (sub : Submission.t) (s' : Store) :
  session_user req = Some u →
  Assignments.submit now id content req s = (Json sub, s') →
  sub ∈ submissions s'
  ∧ Submission.assignment_id sub = id
  ∧ Submission.student_id sub = su_id u
  ∧ references_enrolled s' sub.
Proof.
  intros Hsession Hsubmit.
  destruct (submit_Json _ _ _ _ _ _ _ _ Hsession Hsubmit)
    as (Hrole & Hcontent & a & Ha & Henr & Hrow).
  apply single_filter_elem in Ha as [Ha Hid].
  apply verifyEnrolled_enrolled in Henr.
  assert (sub ∈ submissions s' ∧ Submission.assignment_id sub = id
          ∧ Submission.student_id sub = su_id u
          ∧ assignments s' = assignments s
          ∧ enrollments s' = enrollments s) as (Hin & Haid & Hsid & Has & Hes).
  { destruct (single (submissions_of _ _ _)) as [existing|] eqn:Hex.
    - destruct Hrow as (rows & Hupd & ->).
      apply single_filter_elem in Hex as [Hex [Haid Hsid]].
      unfold update_single in Hupd.
      destruct (single (filter _ (submissions s))) as [r|] eqn:Hr;
        simpl in Hupd; simplify_eq.
      destruct (single_filter_elem _ _ _ Hr) as [Hrin Hkey]. simpl.
      split; [by apply update_where_elem|].
      assert (r = existing) as ->; [|done].
      apply single_Some in Hr.
      assert (existing ∈ filter (λ r, Submission.id r = Submission.id existing)
                (submissions s)) as Hin
        by (by apply list_elem_of_filter).
      rewrite Hr in Hin. by apply list_elem_of_singleton in Hin.
    - destruct Hrow as [-> ->]. simpl.
      split; [|done]. apply elem_of_app. right. apply list_elem_of_here. }
  do 3 (split; [done|]).
  unfold references_enrolled. rewrite Has, Haid, Hsid.
  apply Exists_exists. exists a. do 2 (split; [done|]).
  unfold enrolled in *. by rewrite Hes.
Qed.

Lemma submit_references_enrolled_witness :
  Submission.mk 13 11 2 (JStr "answer") 3 None JNull None
    ∈ submissions School.bo_submitted
  ∧ Submission.assignment_id
      (Submission.mk 13 11 2 (JStr "answer") 3 None JNull None) = 11
  ∧ Submission.student_id
      (Submission.mk 13 11 2 (JStr "answer") 3 None JNull None)
    = su_id (School.session_of School.bo)
  ∧ references_enrolled School.bo_submitted
      (Submission.mk 13 11 2 (JStr "answer") 3 None JNull None).
Proof.
  apply (submit_references_enrolled 3 (School.as_user School.bo)
           (School.session_of School.bo) School.bo_enrolled 11 (JStr "answer"));
    reflexivity.
Defined.

(** C2 (as stated) fails: once Bo has submitted to HW1 and then unenrolls
    from Algebra, his submission stays in the store and references a
    student who is not enrolled in the assignment's course. *)
Lemma unenroll_orphans_submission :
  submissions_valid School.bo_submitted
  ∧ status (Courses.unenroll 10 (School.as_user School.bo)
                             School.bo_submitted).1 = 200
  ∧ ¬ submissions_valid
        (Courses.unenroll 10 (School.as_user School.bo) School.bo_submitted).2.
Proof.
  split; [apply (bool_decide_unpack _); vm_compute; exact I|].
  split; [reflexivity|].
  apply (proj1 (bool_decide_eq_false _)). vm_compute. reflexivity.
Qed.

Lemma verifyEnrolled_frame (cid sid : Id) (s s' : Store) :
  enrollments s' = enrollments s →
  Assignments.verifyEnrolled cid sid s' = Assignments.verifyEnrolled cid sid s.
Proof. intros Heq. unfold Assignments.verifyEnrolled. by rewrite Heq. Qed.

(** The update path of submit. *)
Lemma submit_existing (now : Time) (req : Req) (u : SessionUser) (s : Store)
    (id : Id) (content : JsVal) (a : Assignment.t) (existing : Submission.t) :
  session_user req = Some u →
  su_role u = student →
  truthy content = true →
  single (filter (λ a, Assignment.id a = id) (assignments s)) = Some a →
  Assignments.verifyEnrolled (Assignment.course_id a) (su_id u) s = true →
  submission_keys s →
  submissions_of id (su_id u) s = [existing] →
  Assignments.submit now id content req s
  = (Json (Submission.resubmit content now existing),
     with_submissions
       (update_where (λ r, Submission.id r = Submission.id existing)
                     (Submission.resubmit content now) (submissions s))
       s).
Proof.
  intros Hsession Hrole Hcontent Ha Henr [Hkeys _] Hex.
  assert (existing ∈ submissions s) as Hin.
  { assert (existing ∈ submissions_of id (su_id u) s) as Hin
      by (rewrite Hex; apply list_elem_of_here).
    by apply list_elem_of_filter in Hin as [_ Hin]. }
  unfold Assignments.submit.
  rewrite (route_next req u s Hsession)
    by (apply (through_auth_role req u s Hsession); rewrite Hrole;
        by apply list_elem_of_singleton).
  rewrite Hcontent. simpl. rewrite Ha, Henr. simpl.
  unfold submissions_of in Hex. rewrite Hex. simpl.
  by rewrite (update_single_Some _ _ _ existing)
    by (by apply (filter_key Submission.id)).
Qed.

(** The store after the update path: still keyed, and the pair's only row
    is the rewritten one. *)
Lemma resubmit_rows (now : Time) (content : JsVal) (existing : Submission.t)
    (aid sid : Id) (s : Store) :
  submission_keys s →
  submissions_of aid sid s = [existing] →
  let s' :=
    with_submissions
      (update_where (λ r, Submission.id r = Submission.id existing)
                    (Submission.resubmit content now) (submissions s))
      s in
  submission_keys s'
  ∧ submissions_of aid sid s' = [Submission.resubmit content now existing]
  ∧ length (submissions s') = length (submissions s).
Proof.
  intros Hkeys Hex s'. unfold submission_keys, submissions_of in *. simpl.
  rewrite update_where_column by done.
  split; [done|]. split; [|apply update_where_length].
  rewrite filter_update_where_frame by done.
  rewrite Hex. unfold update_where. simpl. by rewrite decide_True.
Qed.

(** The store after the insert path. *)
Lemma insert_rows (now : Time) (content : JsVal) (aid sid : Id) (s : Store) :
  submission_keys s →
  submissions_of aid sid s = [] →
  let sub := Submission.mk (next_id s) aid sid content now None JNull None in
  let s' := bump (with_submissions (submissions s ++ [sub]) s) in
  submission_keys s' ∧ submissions_of aid sid s' = [sub].
Proof.
  intros [Hdup Hfresh] Hex sub s'.
  unfold submission_keys, submissions_of in *. simpl.
  rewrite fmap_app, filter_app, Hex. simpl.
  split; [split|].
  - apply NoDup_app. split; [done|]. split; [|apply NoDup_singleton].
    intros k Hk Hk'. apply list_elem_of_singleton in Hk'. subst k.
    rewrite Forall_forall in Hfresh. specialize (Hfresh _ Hk). lia.
  - apply Forall_app. split.
    + eapply Forall_impl; [exact Hfresh|]. simpl. lia.
    + repeat constructor.
  - by rewrite filter_cons_True by done.
Qed.

(** Submit is an upsert on a keyed table holding at most one row for the
    pair: afterwards the pair has exactly the returned row, which carries
    the content and the instant of the call. *)
Lemma submit_upsert (now : Time) (req : Req) (u : SessionUser) (s : Store)
    (id : Id) (content : JsVal) (sub : Submission.t) (s' : Store) :
  session_user req = Some u →
  submission_keys s →
  length (submissions_of id (su_id u) s) ≤ 1 →
  Assignments.submit now id content req s = (Json sub, s') →
  submission_keys s'
  ∧ submissions_of id (su_id u) s' = [sub]
  ∧ Submission.content sub = content
  ∧ Submission.submitted_at sub = now
  ∧ assignments s' = assignments s
  ∧ enrollments s' = enrollments s.
Proof.
  intros Hsession Hkeys Hone Hsubmit.
  destruct (submit_Json _ _ _ _ _ _ _ _ Hsession Hsubmit)
    as (Hrole & Hcontent & a & Ha & Henr & Hrow).
  destruct (submissions_of id (su_id u) s) as [|existing [|other rest]] eqn:Hex;
    simpl in Hone, Hrow; [| |lia].
  - destruct Hrow as [-> ->].
    destruct (insert_rows now content id (su_id u) s Hkeys Hex) as [Hk Hs].
    do 2 (split; [done|]). by repeat split.
  - destruct Hrow as (rows & Hupd & ->).
    assert (existing ∈ submissions s) as Hin.
    { assert (existing ∈ submissions_of id (su_id u) s) as Hin
        by (rewrite Hex; apply list_elem_of_here).
      by apply list_elem_of_filter in Hin as [_ Hin]. }
    rewrite (update_single_Some _ _ _ existing) in Hupd
      by (apply (filter_key Submission.id); [apply Hkeys|done]).
    simplify_eq.
    destruct (resubmit_rows now content existing id (su_id u) s Hkeys Hex)
      as (Hk & Hs & _).
    do 2 (split; [done|]). by repeat split.
Qed.

(** C3: on a keyed submissions table with at most one row for the pair,
    two submits in a row for the same assignment by the same student leave
    exactly one row for the pair; it has the content and the submitted-at
    instant of the second call and the id returned by the first call, and
    the second call adds no row (it takes the update path). *)
Theorem submit_twice_one_row
    (now1 now2 : Time) (req : Req) (u : SessionUser) (s : Store) (id : Id)
    (c1 c2 : JsVal) (sub1 : Submission.t) (s1 : Store) :
  session_user req = Some u →
  submission_keys s →
  length (submissions_of id (su_id u) s) ≤ 1 →
  Assignments.submit now1 id c1 req s = (Json sub1, s1) →
  truthy c2 = true →
  ∃ sub2 s2,
    Assignments.submit now2 id c2 req s1 = (Json sub2, s2)
    ∧ submissions_of id (su_id u) s2 = [sub2]
    ∧ Submission.id sub2 = Submission.id sub1
    ∧ Submission.content sub2 = c2
    ∧ Submission.submitted_at sub2 = now2
    ∧ length (submissions s2) = length (submissions s1)
    ∧ next_id s2 = next_id s1.
Proof.
  intros Hsession Hkeys Hone Hfirst Hc2.
  destruct (submit_Json _ _ _ _ _ _ _ _ Hsession Hfirst)
    as (Hrole & _ & a & Ha & Henr & _).
  destruct (submit_upsert _ _ _ _ _ _ _ _ Hsession Hkeys Hone Hfirst)
    as (Hkeys1 & Hrow1 & _ & _ & Has & Hes).
  rewrite <- Has in Ha.
  rewrite <- (verifyEnrolled_frame _ _ _ _ Hes) in Henr.
  eexists _, _.
  split; [by apply (submit_existing now2 req u s1 id c2 a sub1)|].
  destruct (resubmit_rows now2 c2 sub1 id (su_id u) s1 Hkeys1 Hrow1)
    as (_ & Hrow2 & Hlen).
  by repeat split.
Qed.

Lemma submit_twice_one_row_witness :
  ∃ sub2 s2,
    Assignments.submit 4 11 (JStr "better answer") (School.as_user School.bo)
                       School.bo_submitted = (Json sub2, s2)
    ∧ submissions_of 11 (su_id (School.session_of School.bo)) s2 = [sub2]
    ∧ Submission.id sub2 = 13
    ∧ Submission.content sub2 = JStr "better answer"
    ∧ Submission.submitted_at sub2 = 4
    ∧ length (submissions s2) = length (submissions School.bo_submitted)
    ∧ next_id s2 = next_id School.bo_submitted.
Proof.
  apply (submit_twice_one_row 3 4 (School.as_user School.bo)
           (School.session_of School.bo) School.bo_enrolled 11
           (JStr "answer") (JStr "better answer")
           (Submission.mk 13 11 2 (JStr "answer") 3 None JNull None)
           School.bo_submitted);
    [reflexivity | | vm_compute; lia | reflexivity | reflexivity].
  apply (bool_decide_unpack _). vm_compute. exact I.
Defined.

(** ** Login *)

(** A login whose password matches no account with the email is refused
    with the one 401 reply and sets no session. *)
Lemma login_refused (bcrypt_compare : JsVal → string → option bool)
    (email password : JsVal) (s : Store) :
  truthy email = true →
  truthy password = true →
  Forall (λ r, User.email r = email →
               bcrypt_compare password (User.password r) = Some false)
         (users s) →
  Auth.login bcrypt_compare email password s
  = (Fail 401 "Invalid email or password", None).
Proof.
  intros Hemail Hpassword Hwrong. unfold Auth.login.
  rewrite Hemail, Hpassword. simpl.
  destruct (single _) as [user|] eqn:Hsingle; [|done].
  apply single_filter_elem in Hsingle as [Hin Heq].
  rewrite Forall_forall in Hwrong. by rewrite (Hwrong _ Hin Heq).
Qed.

(** The uniform refusal the route aims at, for the passwords the library
    compares: a login with the email of an account and a password that the
    comparison answers false for, and a login with an email of no account,
    get the same reply, 401 with the same message, and neither sets a
    session. *)
Theorem login_no_user_oracle
    (bcrypt_compare : JsVal → string → option bool) (s : Store)
    (known unknown password password' : JsVal) (user : User.t) :
  truthy known = true → truthy password = true →
  truthy unknown = true → truthy password' = true →
  user ∈ users s → User.email user = known →
  Forall (λ r, User.email r = known →
               bcrypt_compare password (User.password r) = Some false)
         (users s) →
  Forall (λ r, User.email r ≠ unknown) (users s) →
  Auth.login bcrypt_compare known password s
  = Auth.login bcrypt_compare unknown password' s
  ∧ Auth.login bcrypt_compare known password s
    = (Fail 401 "Invalid email or password", None).
Proof.
  intros Hknown Hpassword Hunknown Hpassword' _ _ Hwrong Habsent.
  rewrite (login_refused _ known password s Hknown Hpassword Hwrong).
  rewrite (login_refused _ unknown password' s Hunknown Hpassword'); [done|].
  eapply Forall_impl; [exact Habsent|]. by intros r Hne Heq.
Qed.

Lemma login_no_user_oracle_witness :
  Auth.login School.plain_compare (JStr "ann@school.test") (JStr "guess")
             School.empty
  = Auth.login School.plain_compare (JStr "nobody@school.test")
               (JStr "hash-ann") School.empty
  ∧ Auth.login School.plain_compare (JStr "ann@school.test") (JStr "guess")
               School.empty
    = (Fail 401 "Invalid email or password", None).
Proof.
  apply (login_no_user_oracle School.plain_compare School.empty
           (JStr "ann@school.test") (JStr "nobody@school.test")
           (JStr "guess") (JStr "hash-ann") School.ann);
    try reflexivity.
  - apply (bool_decide_unpack _). vm_compute. exact I.
  - apply (bool_decide_unpack _). vm_compute. exact I.
  - apply (bool_decide_unpack _). vm_compute. exact I.
Defined.

(** The same login with the right password goes through, so the refusal
    above is the password's doing. *)
Example login_accepts :
  (Auth.login School.plain_compare (JStr "ann@school.test") (JStr "hash-ann")
              School.empty).1 = Json "/dashboard".
Proof. reflexivity. Qed.

(** C4 (defect of the code): the two failures are told apart when the
    password is one the comparison rejects instead of answering (the
    library takes strings only, and the body may carry a number or [true]).
    With the email of the one account that has it the rejection is raised
    after the lookup and caught: 500 'Login failed. Please try again.'.
    With an email of no account the lookup answers first: 401 'Invalid
    email or password'.  Neither sets a session, and the replies differ in
    status and in message, so the reply tells whether the email has an
    account. *)
Theorem login_leaks_known_email
    (bcrypt_compare : JsVal → string → option bool) (s : Store)
    (known unknown password : JsVal) (user : User.t) :
  truthy known = true → truthy unknown = true → truthy password = true →
  filter (λ r, User.email r = known) (users s) = [user] →
  bcrypt_compare password (User.password user) = None →
  Forall (λ r, User.email r ≠ unknown) (users s) →
  Auth.login bcrypt_compare known password s
  = (Fail 500 "Login failed. Please try again.", None)
  ∧ Auth.login bcrypt_compare unknown password s
    = (Fail 401 "Invalid email or password", None)
  ∧ Auth.login bcrypt_compare known password s
    ≠ Auth.login bcrypt_compare unknown password s.
Proof.
  intros Hknown Hunknown Hpassword Hone Hrejects Habsent.
  assert (Auth.login bcrypt_compare known password s
          = (Fail 500 "Login failed. Please try again.", None)) as H500.
  { unfold Auth.login. rewrite Hknown, Hpassword, Hone. simpl.
    by rewrite Hrejects. }
  assert (Auth.login bcrypt_compare unknown password s
          = (Fail 401 "Invalid email or password", None)) as H401.
  { apply login_refused; [done..|].
    eapply Forall_impl; [exact Habsent|]. by intros r Hne Heq. }
  rewrite H500, H401. by repeat split.
Qed.

Lemma login_leaks_known_email_witness :
  Auth.login School.plain_compare (JStr "ann@school.test") (JNum 1)
             School.empty
  = (Fail 500 "Login failed. Please try again.", None)
  ∧ Auth.login School.plain_compare (JStr "nobody@school.test") (JNum 1)
               School.empty
    = (Fail 401 "Invalid email or password", None)
  ∧ Auth.login School.plain_compare (JStr "ann@school.test") (JNum 1)
               School.empty
    ≠ Auth.login School.plain_compare (JStr "nobody@school.test") (JNum 1)
                 School.empty.
Proof.
  apply (login_leaks_known_email School.plain_compare School.empty
           (JStr "ann@school.test") (JStr "nobody@school.test") (JNum 1)
           School.ann);
    try reflexivity.
  apply (bool_decide_unpack _). vm_compute. exact I.
Defined.

(** ** Partial update of an assignment *)

Lemma not_your_course_authorized (cid : Id) (u : SessionUser) (s : Store) :
  su_role u = master_teacher
  ∨ (su_role u = teacher
     ∧ Assignments.verifyTeacherOwns cid (su_id u) s = true) →
  Assignments.not_your_course cid u s = false.
Proof.
  unfold Assignments.not_your_course. intros [Hrole|[Hrole Howns]].
  - by rewrite decide_False by (rewrite Hrole; discriminate).
  - by rewrite decide_True, Howns by done.
Qed.

(** C6: after an assignment update by a caller who may write to the
    assignment (a master_teacher, or the teacher of its course), the
    stored row has, for every field left out of the request (undefined),
    its previous value and, for every field present, null included, the
    supplied value; the other rows of the table are untouched, and the
    row the route answers with is the stored one. *)
Theorem assignment_partial_update
    (req : Req) (u : SessionUser) (s : Store) (id : Id)
    (title description due_date max_points : JsVal) (old : Assignment.t) :
  session_user req = Some u →
  su_role u = master_teacher
  ∨ (su_role u = teacher
     ∧ Assignments.verifyTeacherOwns (Assignment.course_id old) (su_id u) s
       = true) →
  filter (λ a, Assignment.id a = id) (assignments s) = [old] →
  ∃ new,
    filter (λ a, Assignment.id a = id)
           (assignments
              (Assignments.update id title description due_date max_points
                                  req s).2) = [new]
    ∧ filter (λ a, Assignment.id a ≠ id)
             (assignments
                (Assignments.update id title description due_date max_points
                                    req s).2)
      = filter (λ a, Assignment.id a ≠ id) (assignments s)
    ∧ (∀ data,
         (Assignments.update id title description due_date max_points
                             req s).1 = Json data → data = new)
    ∧ Assignment.id new = Assignment.id old
    ∧ Assignment.course_id new = Assignment.course_id old
    ∧ Assignment.title new
      = match title with JUndefined => Assignment.title old | _ => title end
    ∧ Assignment.description new
      = match description with
        | JUndefined => Assignment.description old
        | _ => description
        end
    ∧ Assignment.due_date new
      = match due_date with
        | JUndefined => Assignment.due_date old
        | _ => due_date
        end
    ∧ Assignment.max_points new
      = match max_points with
        | JUndefined => Assignment.max_points old
        | _ => max_points
        end.
Proof.
  intros Hsession Hmay Hrow.
  assert (su_role u ∈ [teacher; master_teacher]) as Hin.
  { destruct Hmay as [->|[-> _]];
      [apply master_may_teach | apply teacher_may_teach]. }
  eexists.
  unfold Assignments.update.
  rewrite (route_next req u s Hsession)
    by by apply (through_auth_role req u s Hsession).
  rewrite Hrow. simpl.
  rewrite (not_your_course_authorized _ _ _ Hmay).
  rewrite (update_single_Some _ _ _ old Hrow). simpl.
  split; [by rewrite filter_update_where, Hrow by done|].
  split; [by apply filter_update_where_others|].
  split; [by intros data [= <-]|].
  do 2 (split; [done|]).
  by destruct title, description, due_date, max_points.
Qed.

Lemma assignment_partial_update_witness :
  ∃ new,
    filter (λ a, Assignment.id a = 11)
           (assignments
              (Assignments.update 11 JUndefined (JStr "Chapter 2") JNull
                                  JUndefined (School.as_user School.ann)
                                  School.with_assignment).2) = [new]
    ∧ filter (λ a, Assignment.id a ≠ 11)
             (assignments
                (Assignments.update 11 JUndefined (JStr "Chapter 2") JNull
                                    JUndefined (School.as_user School.ann)
                                    School.with_assignment).2)
      = filter (λ a, Assignment.id a ≠ 11)
               (assignments School.with_assignment)
    ∧ (∀ data,
         (Assignments.update 11 JUndefined (JStr "Chapter 2") JNull
                             JUndefined (School.as_user School.ann)
                             School.with_assignment).1 = Json data →
         data = new)
    ∧ Assignment.id new = 11
    ∧ Assignment.course_id new = 10
    ∧ Assignment.title new = JStr "HW1"
    ∧ Assignment.description new = JStr "Chapter 2"
    ∧ Assignment.due_date new = JNull
    ∧ Assignment.max_points new = JNum 100.
Proof.
  apply (assignment_partial_update (School.as_user School.ann)
           (School.session_of School.ann) School.with_assignment 11
           JUndefined (JStr "Chapter 2") JNull JUndefined
           (Assignment.mk 11 10 (JStr "HW1") (JStr "") (JNum 7) (JNum 100)));
    [reflexivity | right; split; reflexivity | reflexivity].
Defined.

(** The due date of HW1 was 7; the request above sets it to null and
    leaves the title and the points alone. *)
Example partial_update_reply :
  (Assignments.update 11 JUndefined (JStr "Chapter 2") JNull JUndefined
                      (School.as_user School.ann) School.with_assignment).1
  = Json (Assignment.mk 11 10 (JStr "HW1") (JStr "Chapter 2") JNull
                        (JNum 100)).
Proof. reflexivity. Qed.

(** ** Admin edit of a user *)

Lemma supplied_default (v old : JsVal) :
  default old (supplied v) = if truthy v then v else old.
Proof. unfold supplied. by destruct (truthy v). Qed.

Lemma kept_or_written_refl (v old : JsVal) : kept_or_written v old old.
Proof. by left. Qed.

Lemma kept_or_written_supplied (v old : JsVal) :
  kept_or_written v old (default old (supplied v)).
Proof.
  rewrite supplied_default. unfold kept_or_written.
  destruct (truthy v); auto.
Qed.

Lemma kept_or_written_truthy (v old new : JsVal) :
  kept_or_written v old new → truthy old = true → truthy new = true.
Proof. by intros [->|[Hv ->]]. Qed.

Lemma kept_or_written_falsy (v old new : JsVal) :
  kept_or_written v old new → truthy v = false → new = old.
Proof. intros [->|[Hv ->]]; [done|congruence]. Qed.

Lemma edit_user_rows (id : Id) (fn ln em ro : JsVal) (req : Req) (s : Store) :
  Forall2 (edited fn ln em ro)
          (users s) (users (Admin.edit_user id fn ln em ro req s).2).
Proof.
  assert (Forall2 (edited fn ln em ro) (users s) (users s)) as Hsame.
  { apply Forall_Forall2_diag, Forall_true. intros r.
    repeat split; apply kept_or_written_refl. }
  unfold Admin.edit_user, route.
  destruct (through _ _ _); [|done..].
  destruct (session_user req) as [u|]; [|done].
  destruct (_ && _); [done|].
  destruct (update_single _ _ _) as [[data rows]|] eqn:Hupd; [|done].
  unfold update_single in Hupd.
  destruct (single _); simpl in Hupd; simplify_eq. simpl.
  unfold update_where. apply Forall2_fmap_r, Forall_Forall2_diag, Forall_true.
  intros r. simpl. destruct (decide (User.id r = id)).
  - repeat split; apply kept_or_written_supplied.
  - repeat split; apply kept_or_written_refl.
Qed.

(** C10: whatever the request, every row of the users table keeps each of
    first name, last name, email and role unless the request supplies a
    truthy value for it, so a column whose supplied value is falsy keeps
    its stored value and a truthy stored value never becomes a falsy one;
    when the edit goes through, the row it answers with has the truthy
    supplied values and the previous value of every other column. *)
Theorem edit_user_ignores_falsy
    (id : Id) (fn ln em ro : JsVal) (req : Req) (s : Store) :
  Forall2 (λ r r',
             (truthy fn = false → User.first_name r' = User.first_name r)
             ∧ (truthy ln = false → User.last_name r' = User.last_name r)
             ∧ (truthy em = false → User.email r' = User.email r)
             ∧ (truthy ro = false → User.role r' = User.role r)
             ∧ (truthy (User.first_name r) = true →
                truthy (User.first_name r') = true)
             ∧ (truthy (User.last_name r) = true →
                truthy (User.last_name r') = true)
             ∧ (truthy (User.email r) = true →
                truthy (User.email r') = true))
          (users s) (users (Admin.edit_user id fn ln em ro req s).2)
  ∧ ∀ data,
      (Admin.edit_user id fn ln em ro req s).1 = Json data →
      ∃ old,
        filter (λ r, User.id r = id) (users s) = [old]
        ∧ filter (λ r, User.id r = id)
                 (users (Admin.edit_user id fn ln em ro req s).2) = [data]
        ∧ User.first_name data
          = (if truthy fn then fn else User.first_name old)
        ∧ User.last_name data = (if truthy ln then ln else User.last_name old)
        ∧ User.email data = (if truthy em then em else User.email old)
        ∧ User.role data = (if truthy ro then ro else User.role old)
        ∧ User.is_approved data = User.is_approved old
        ∧ User.password data = User.password old.
Proof.
  split.
  - eapply Forall2_impl; [apply edit_user_rows|].
    intros r r' (Hfn & Hln & Hem & Hro).
    repeat split;
      eauto using kept_or_written_falsy, kept_or_written_truthy.
  - intros data. unfold Admin.edit_user, route.
    destruct (through _ _ _); [|done..].
    destruct (session_user req) as [u|]; [|done].
    destruct (_ && _); [done|].
    destruct (update_single _ _ _) as [[data' rows]|] eqn:Hupd; [|done].
    unfold update_single in Hupd.
    destruct (single _) as [old|] eqn:Hold; simpl in Hupd; simplify_eq.
    simpl. intros [= <-]. apply single_Some in Hold.
    exists old. split; [done|].
    split; [by rewrite filter_update_where, Hold by done|].
    simpl. by rewrite !supplied_default.
Qed.

Lemma edit_user_ignores_falsy_witness :
  Forall2 (λ r r',
             (truthy (JStr "") = false → User.first_name r' = User.first_name r)
             ∧ (truthy JNull = false → User.last_name r' = User.last_name r)
             ∧ (truthy (JStr "bo@new.test") = false →
                User.email r' = User.email r)
             ∧ (truthy JUndefined = false → User.role r' = User.role r)
             ∧ (truthy (User.first_name r) = true →
                truthy (User.first_name r') = true)
             ∧ (truthy (User.last_name r) = true →
                truthy (User.last_name r') = true)
             ∧ (truthy (User.email r) = true →
                truthy (User.email r') = true))
          (users School.empty)
          (users (Admin.edit_user 2 (JStr "") JNull (JStr "bo@new.test")
                                  JUndefined (School.as_user School.root)
                                  School.empty).2)
  ∧ ∃ old,
      filter (λ r, User.id r = 2) (users School.empty) = [old]
      ∧ filter (λ r, User.id r = 2)
               (users (Admin.edit_user 2 (JStr "") JNull (JStr "bo@new.test")
                                       JUndefined (School.as_user School.root)
                                       School.empty).2)
        = [User.mk 2 (JStr "Bo") (JStr "Diaz") (JStr "bo@new.test") "hash-bo"
                   student true 0]
      ∧ JStr "Bo" = (if truthy (JStr "") then JStr "" else User.first_name old)
      ∧ JStr "Diaz" = (if truthy JNull then JNull else User.last_name old)
      ∧ JStr "bo@new.test"
        = (if truthy (JStr "bo@new.test") then JStr "bo@new.test"
           else User.email old)
      ∧ student = (if truthy JUndefined then JUndefined else User.role old)
      ∧ true = User.is_approved old
      ∧ "hash-bo" = User.password old.
Proof.
  split.
  - apply (proj1 (edit_user_ignores_falsy 2 (JStr "") JNull
                    (JStr "bo@new.test") JUndefined
                    (School.as_user School.root) School.empty)).
  - apply (proj2 (edit_user_ignores_falsy 2 (JStr "") JNull
                    (JStr "bo@new.test") JUndefined
                    (School.as_user School.root) School.empty)
                 (User.mk 2 (JStr "Bo") (JStr "Diaz") (JStr "bo@new.test")
                          "hash-bo" student true 0)).
    reflexivity.
Defined.

(** ** Conversations and read receipts *)

Section ReadReceipts.
Context (partner uid : Id).

Local Abbreviation from_partner :=
  (λ m : Message.t,
     Message.sender_id m = partner ∧ Message.receiver_id m = uid
     ∧ Message.is_read m = false).
Local Abbreviation unread :=
  (λ m : Message.t,
     Message.receiver_id m = uid ∧ Message.is_read m = false).

(** After the read-marking no unread message from the partner is left. *)
Lemma mark_read_none (l : list Message.t) :
  filter from_partner (update_where from_partner Message.mark_read l) = [].
Proof.
  unfold update_where. induction l as [|x l IH]; [done|].
  rewrite fmap_cons. rewrite filter_cons_False; [done|].
  destruct (decide (from_partner x)) as [HP|HP]; [|done].
  simpl. by intros (_ & _ & ?).
Qed.

(** The unread messages lost to the read-marking are the partner's. *)
Lemma mark_read_unread (l : list Message.t) :
  length (filter unread l)
  = length (filter unread (update_where from_partner Message.mark_read l))
    + length (filter from_partner l).
Proof.
  unfold update_where. induction l as [|x l IH]; [done|].
  rewrite fmap_cons.
  destruct (decide (from_partner x)) as [HP|HP].
  - rewrite (filter_cons_True from_partner) by done.
    rewrite (filter_cons_True unread)
      by (destruct HP as (_ & ? & ?); by split).
    rewrite (filter_cons_False unread)
      by (simpl; by intros [_ ?]).
    simpl. lia.
  - rewrite (filter_cons_False from_partner) by done.
    destruct (decide (unread x)) as [HQ|HQ].
    + rewrite !(filter_cons_True unread) by done. simpl. lia.
    + by rewrite !(filter_cons_False unread) by done.
Qed.

(** The read-marking keeps every row, in place, and changes nothing but
    the flag of the partner's messages to the caller. *)
Lemma mark_read_rows (l : list Message.t) :
  Forall2 (read_by partner uid) l
          (update_where from_partner Message.mark_read l).
Proof.
  unfold update_where. apply Forall2_fmap_r, Forall_Forall2_diag.
  apply Forall_forall. intros m _. unfold read_by. simpl.
  destruct (decide (from_partner m)) as [(Hfrom & Hto & _)|Hnot]; simpl;
    do 5 (split; [done|]).
  - by rewrite decide_True.
  - destruct (decide (_ ∧ _)) as [[Hfrom Hto]|]; [|done].
    destruct (Message.is_read m) eqn:Hread; [done|].
    by destruct Hnot.
Qed.
End ReadReceipts.

(** C8: conversation-with(partner) answers with the history and leaves
    every message from the partner to the caller read, so none of the
    caller's unread messages is from the partner (the unread count drops
    by the partner's share).  The call changes nothing else: the messages
    table holds the same rows in the same places, each with its key,
    sender, receiver, text and instant, and the flag of a message that is
    not from the partner to the caller is as it was; the other tables are
    untouched.  A second call answers again and leaves the store exactly as
    the first call left it. *)
Theorem conversation_marks_read
    (partnerId : Id) (req : Req) (u : SessionUser) (s : Store) :
  session_user req = Some u →
  ∃ c1 c2 s1,
    Messages.conversation partnerId req s = (Json c1, s1)
    ∧ Forall2 (read_by partnerId (su_id u)) (messages s) (messages s1)
    ∧ same_but_messages s s1
    ∧ Forall (λ m, Message.sender_id m = partnerId →
                   Message.receiver_id m = su_id u →
                   Message.is_read m = true) (messages s1)
    ∧ unread_from partnerId (su_id u) s1 = []
    ∧ Messages.unread_count req s
      = (Json (length (unread_for (su_id u) s1)
               + length (unread_from partnerId (su_id u) s)), s)
    ∧ Messages.unread_count req s1
      = (Json (length (unread_for (su_id u) s1)), s1)
    ∧ Messages.conversation partnerId req s1 = (Json c2, s1).
Proof.
  intros Hsession.
  pose proof (mark_read_none partnerId (su_id u) (messages s)) as Hnone.
  eexists _, _, _. split.
  { unfold Messages.conversation.
    by rewrite (route_next req u s Hsession)
      by apply (through_auth req u s Hsession). }
  simpl.
  split; [exact (mark_read_rows partnerId (su_id u) (messages s))|].
  split; [done|].
  split; [|split; [exact Hnone|split; [|split]]].
  - apply Forall_forall. intros m Hin Hfrom Hto.
    destruct (Message.is_read m) eqn:Hread; [done|].
    by destruct (filter_nil_not_elem_of _ _ m Hnone).
  - unfold Messages.unread_count.
    rewrite (route_next req u s Hsession)
      by apply (through_auth req u s Hsession).
    simpl. unfold unread_for, unread_from. simpl.
    by rewrite (mark_read_unread partnerId (su_id u) (messages s)).
  - unfold Messages.unread_count.
    by rewrite (route_next req u _ Hsession)
      by apply (through_auth req u _ Hsession).
  - unfold Messages.conversation.
    rewrite (route_next req u _ Hsession)
      by apply (through_auth req u _ Hsession).
    simpl. by rewrite (update_where_none _ _ _ Hnone).
Qed.

Lemma conversation_marks_read_witness :
  ∃ c1 c2 s1,
    Messages.conversation 1 (School.as_user School.bo) School.chatting
    = (Json c1, s1)
    ∧ Forall2 (read_by 1 (su_id (School.session_of School.bo)))
              (messages School.chatting) (messages s1)
    ∧ same_but_messages School.chatting s1
    ∧ Forall (λ m, Message.sender_id m = 1 →
                   Message.receiver_id m = su_id (School.session_of School.bo) →
                   Message.is_read m = true) (messages s1)
    ∧ unread_from 1 (su_id (School.session_of School.bo)) s1 = []
    ∧ Messages.unread_count (School.as_user School.bo) School.chatting
      = (Json (length (unread_for (su_id (School.session_of School.bo)) s1)
               + length (unread_from 1 (su_id (School.session_of School.bo))
                                     School.chatting)),
         School.chatting)
    ∧ Messages.unread_count (School.as_user School.bo) s1
      = (Json (length (unread_for (su_id (School.session_of School.bo)) s1)),
         s1)
    ∧ Messages.conversation 1 (School.as_user School.bo) s1 = (Json c2, s1).
Proof.
  apply (conversation_marks_read 1 (School.as_user School.bo)
           (School.session_of School.bo) School.chatting).
  reflexivity.
Defined.

(** Bo opens the conversation with Ann: Ann's two messages to Bo are
    read afterwards, Bo's answer and the notice from the administrator are
    as they were. *)
Example conversation_flags :
  messages (Messages.conversation 1 (School.as_user School.bo)
              School.chatting).2
  = [Message.mk 20 1 2 (JStr "Welcome") 1 true;
     Message.mk 21 2 1 (JStr "Thanks") 2 false;
     Message.mk 22 1 2 (JStr "HW1 is out") 3 true;
     Message.mk 23 3 2 (JStr "Notice") 4 false].
Proof. reflexivity. Qed.

(** Bo has three unread messages, two of them from Ann; after opening the
    conversation with Ann one is left. *)
Example unread_before_and_after :
  (Messages.unread_count (School.as_user School.bo) School.chatting).1 = Json 3
  ∧ (Messages.unread_count (School.as_user School.bo)
       (Messages.conversation 1 (School.as_user School.bo) School.chatting).2).1
    = Json 1.
Proof. split; reflexivity. Qed.

(** ** The grading queue *)

#[global] Instance by_submitted_at_total : Total Submission.by_submitted_at.
Proof. intros a b. unfold Submission.by_submitted_at. lia. Qed.

(** The object built by [rows.forEach(x => { map[key(x)] = val(x) })] has
    an entry for every key of the rows, and the entry comes from a row
    with that key. *)
Lemma foldl_insert_lookup {R V : Type} (key : R → Id) (val : R → V)
    (rows : list R) (m : gmap Id V) (k : Id) :
  k ∈ key <$> rows →
  ∃ x, x ∈ rows ∧ key x = k
       ∧ foldl (λ m x, <[key x := val x]> m) m rows !! k = Some (val x).
Proof.
  induction rows as [|x rows IH] using rev_ind; intros Hk.
  - by apply elem_of_nil in Hk.
  - rewrite foldl_snoc. destruct (decide (key x = k)) as [Heq|Hne].
    + exists x. split; [apply elem_of_app; right; apply list_elem_of_here|].
      split; [done|]. rewrite Heq. apply lookup_insert_eq.
    + rewrite fmap_app, elem_of_app in Hk. destruct Hk as [Hk|Hk].
      * destruct (IH Hk) as (y & Hy & Hkey & Hlookup).
        exists y. split; [apply elem_of_app; by left|]. split; [done|].
        by rewrite lookup_insert_ne.
      * apply list_elem_of_singleton in Hk. by destruct Hne.
Qed.

(** The store's selection of the route (ungraded, assignment among those
    of the caller's courses) is the selection of the specification. *)
Lemma pending_selection (uid : Id) (s : Store) (r : Submission.t) :
  Submission.assignment_id r
    ∈ Assignment.id
        <$> filter (λ a, Assignment.course_id a
                         ∈ Course.id
                             <$> filter (λ c, Course.teacher_id c = uid)
                                        (courses s))
                   (assignments s)
  ∧ Submission.grade r = None
  ↔ owned_pending uid s r.
Proof.
  unfold owned_pending.
  rewrite list_elem_of_fmap, Exists_exists.
  split.
  - intros [(a & Hid & Ha) Hgrade]. split; [done|].
    apply list_elem_of_filter in Ha as [Hc Ha].
    apply list_elem_of_fmap in Hc as (c & Hcid & Hc).
    apply list_elem_of_filter in Hc as [Ht Hc].
    exists a. split; [done|]. split; [done|].
    apply Exists_exists. by exists c.
  - intros [Hgrade (a & Ha & Hid & Hc)]. split; [|done].
    apply Exists_exists in Hc as (c & Hc & Hcid & Ht).
    exists a. split; [done|]. apply list_elem_of_filter. split; [|done].
    apply list_elem_of_fmap. exists c. split; [done|].
    by apply list_elem_of_filter.
Qed.

(** C9: for a teacher or master_teacher, pending-grading answers with
    exactly the ungraded submissions whose assignment belongs to a course
    of which the caller is the teacher, oldest submitted first, each with
    the student's name, the assignment and the course name attached; the
    store is only read. *)
Theorem pending_grading_queue (req : Req) (u : SessionUser) (s : Store) :
  session_user req = Some u →
  su_role u = teacher ∨ su_role u = master_teacher →
  ∃ l,
    Assignments.pending_grading req s = (Json l, s)
    ∧ Assignments.row <$> l
      ≡ₚ filter (owned_pending (su_id u) s) (submissions s)
    ∧ Sorted Submission.by_submitted_at (Assignments.row <$> l)
    ∧ Forall (enriched (su_id u) s) l.
Proof.
  intros Hsession Hrole.
  assert (su_role u ∈ [teacher; master_teacher]) as Hin.
  { destruct Hrole as [->| ->];
      [apply teacher_may_teach | apply master_may_teach]. }
  unfold Assignments.pending_grading.
  rewrite (route_next req u s Hsession)
    by by apply (through_auth_role req u s Hsession).
  rewrite <- (list_filter_iff _ _ _ (pending_selection (su_id u) s)).
  set (cs := filter (λ c, Course.teacher_id c = su_id u) (courses s)).
  set (ags := filter (λ a, Assignment.course_id a ∈ Course.id <$> cs)
                     (assignments s)).
  destruct (decide (cs = [])) as [Hcs|Hcs].
  { exists []. split; [done|]. split; [|split; constructor].
    assert (ags = []) as ->.
    { unfold ags. rewrite Hcs. simpl.
      induction (assignments s) as [|a l IH]; [done|].
      rewrite filter_cons_False; [done|]. apply not_elem_of_nil. }
    simpl. induction (submissions s) as [|r l IH]; [done|].
    rewrite filter_cons_False; [done|]. intros [Hr _].
    by apply elem_of_nil in Hr. }
  destruct (decide (ags = [])) as [Hags|Hags].
  { exists []. split; [done|]. split; [|split; constructor].
    rewrite Hags. simpl. induction (submissions s) as [|r l IH]; [done|].
    rewrite filter_cons_False; [done|]. intros [Hr _].
    by apply elem_of_nil in Hr. }
  eexists. split; [done|]. simpl.
  rewrite <- list_fmap_compose.
  assert (∀ l : list Submission.t,
            (Assignments.row ∘ Assignments.attach s
               (foldl (λ m c, <[Course.id c := Course.name c]> m) ∅ cs)
               (foldl (λ m a, <[Assignment.id a :=
                                  (Assignment.id a, Assignment.title a,
                                   Assignment.course_id a)]> m) ∅ ags))
              <$> l = l) as ->.
  { intros l. induction l as [|r l IH]; [done|]. by rewrite fmap_cons, IH. }
  split; [apply merge_sort_Permutation|].
  split; [apply Sorted_merge_sort, _|].
  apply Forall_fmap, Forall_forall. intros sub Hsub.
  rewrite merge_sort_Permutation in Hsub.
  apply list_elem_of_filter in Hsub as [[Haid _] _].
  destruct (foldl_insert_lookup Assignment.id
              (λ a, (Assignment.id a, Assignment.title a,
                     Assignment.course_id a))
              ags ∅ _ Haid) as (a & Ha & Hkey & Hlookup).
  apply list_elem_of_filter in Ha as [Hcid Ha].
  destruct (foldl_insert_lookup Course.id Course.name cs ∅ _ Hcid)
    as (c & Hc & Hckey & Hclookup).
  apply list_elem_of_filter in Hc as [Ht Hc].
  unfold enriched, Assignments.attach, compose. simpl. split.
  - intros r Hr. by rewrite Hr.
  - exists a, c. do 5 (split; [done|]).
    rewrite Hlookup. split; [done|]. simpl. by rewrite Hclookup.
Qed.

Lemma pending_grading_queue_witness :
  ∃ l,
    Assignments.pending_grading (School.as_user School.ann) School.bo_submitted
    = (Json l, School.bo_submitted)
    ∧ Assignments.row <$> l
      ≡ₚ filter (owned_pending (su_id (School.session_of School.ann))
                               School.bo_submitted)
                (submissions School.bo_submitted)
    ∧ Sorted Submission.by_submitted_at (Assignments.row <$> l)
    ∧ Forall (enriched (su_id (School.session_of School.ann))
                       School.bo_submitted) l.
Proof.
  apply (pending_grading_queue (School.as_user School.ann)
           (School.session_of School.ann) School.bo_submitted);
    [reflexivity | left; reflexivity].
Defined.

(** Ann's queue holds Bo's answer to HW1 of Algebra; the admin, who
    teaches no course, has an empty queue. *)
Example pending_for_ann_and_root :
  (Assignments.pending_grading (School.as_user School.ann)
                               School.bo_submitted).1
  = Json [Assignments.mkPending
            (Submission.mk 13 11 2 (JStr "answer") 3 None JNull None)
            (Some (JStr "Bo", JStr "Diaz"))
            (Some (11, JStr "HW1", 10))
            (JStr "Algebra")]
  ∧ (Assignments.pending_grading (School.as_user School.root)
                                 School.bo_submitted).1 = Json [].
Proof. split; reflexivity. Qed.

(** * Further properties of the routers *)

(** ** Role gates *)

Lemma route_forbidden {A} (roles : list JsVal) (ms : list Middleware)
    (crash : string) (body : SessionUser → Store → option (Reply A * Store))
    (req : Req) (u : SessionUser) (s : Store) :
  session_user req = Some u →
  su_role u ∉ roles →
  route (requireAuth :: requireRole roles :: ms) crash body req s
  = (Fail 403 "Insufficient permissions", s).
Proof.
  intros Hsession Hrole. apply route_halt. simpl.
  rewrite (requireAuth_next req u s Hsession).
  unfold requireRole. rewrite Hsession. by rewrite decide_False.
Qed.

(** X1: the role gate of each route.  A caller whose session role is
    neither teacher nor master_teacher is answered 403 by every teaching
    route, a caller who is not a student by every student route, and a
    caller who is not a master_teacher by every admin route; the store is
    not touched. *)
Theorem role_gates (req : Req) (u : SessionUser) (s : Store) :
  session_user req = Some u →
  (su_role u ∉ [teacher; master_teacher] →
   ∀ (parseInt : JsVal → option Z) (now : Time) (id : Id) (cid : option Id)
     (a b c d : JsVal),
     Courses.create now a b c req s
     = (Fail 403 "Insufficient permissions", s)
     ∧ Courses.update now id a b c d req s
       = (Fail 403 "Insufficient permissions", s)
     ∧ Courses.deactivate now id req s
       = (Fail 403 "Insufficient permissions", s)
     ∧ Courses.students id req s = (Fail 403 "Insufficient permissions", s)
     ∧ Assignments.create cid a b c d req s
       = (Fail 403 "Insufficient permissions", s)
     ∧ Assignments.update id a b c d req s
       = (Fail 403 "Insufficient permissions", s)
     ∧ Assignments.delete id req s = (Fail 403 "Insufficient permissions", s)
     ∧ Assignments.grade parseInt now id a b req s
       = (Fail 403 "Insufficient permissions", s)
     ∧ Assignments.list_submissions id req s
       = (Fail 403 "Insufficient permissions", s)
     ∧ Assignments.pending_grading req s
       = (Fail 403 "Insufficient permissions", s))
  ∧ (su_role u ≠ student →
     ∀ (now : Time) (id : Id) (content : JsVal),
       Courses.enroll now id req s = (Fail 403 "Insufficient permissions", s)
       ∧ Courses.unenroll id req s = (Fail 403 "Insufficient permissions", s)
       ∧ Courses.available req s = (Fail 403 "Insufficient permissions", s)
       ∧ Assignments.submit now id content req s
         = (Fail 403 "Insufficient permissions", s)
       ∧ Assignments.my_submissions req s
         = (Fail 403 "Insufficient permissions", s))
  ∧ (su_role u ≠ master_teacher →
     ∀ (id : Id) (a b c d : JsVal),
       Admin.stats req s = (Fail 403 "Insufficient permissions", s)
       ∧ Admin.edit_user id a b c d req s
         = (Fail 403 "Insufficient permissions", s)
       ∧ Admin.delete_user id req s = (Fail 403 "Insufficient permissions", s)
       ∧ Admin.approve id req s = (Fail 403 "Insufficient permissions", s)
       ∧ Admin.reject id req s = (Fail 403 "Insufficient permissions", s)
       ∧ Admin.promote id req s = (Fail 403 "Insufficient permissions", s)
       ∧ Admin.pending_teachers req s
         = (Fail 403 "Insufficient permissions", s)).
Proof.
  intros Hsession. split; [|split].
  - intros Hrole parseInt now id cid a b c d.
    repeat split; by apply route_forbidden with u.
  - intros Hrole now id content.
    assert (su_role u ∉ [student]) as Hout
      by by rewrite list_elem_of_singleton.
    repeat split; by apply route_forbidden with u.
  - intros Hrole id a b c d.
    assert (su_role u ∉ [master_teacher]) as Hout
      by by rewrite list_elem_of_singleton.
    repeat split; by apply route_forbidden with u.
Qed.

Lemma role_gates_witness :
  Courses.create 1 (JStr "Biology") JUndefined JUndefined
                 (School.as_user School.bo) School.empty
  = (Fail 403 "Insufficient permissions", School.empty)
  ∧ Courses.enroll 1 10 (School.as_user School.ann) School.with_course
    = (Fail 403 "Insufficient permissions", School.with_course)
  ∧ Admin.stats (School.as_user School.ann) School.empty
    = (Fail 403 "Insufficient permissions", School.empty).
Proof.
  split; [|split].
  - refine (proj1 (proj1 (role_gates (School.as_user School.bo)
                            (School.session_of School.bo) School.empty
                            eq_refl)
                         _ School.parse_int 1 10 None (JStr "Biology")
                         JUndefined JUndefined JUndefined)).
    apply (bool_decide_unpack _). vm_compute. exact I.
  - refine (proj1 (proj1 (proj2 (role_gates (School.as_user School.ann)
                                   (School.session_of School.ann)
                                   School.with_course eq_refl))
                         _ 1 10 JNull)).
    discriminate.
  - refine (proj1 (proj2 (proj2 (role_gates (School.as_user School.ann)
                                   (School.session_of School.ann)
                                   School.empty eq_refl))
                         _ 1 JNull JNull JNull JNull)).
    discriminate.
Defined.

(** ** Refused requests *)

Lemma route_frame {A} (ms : list Middleware) (crash : string)
    (body : SessionUser → Store → option (Reply A * Store))
    (req : Req) (s : Store) :
  (∀ u out, body u s = Some out → writes_only_on_success out s) →
  writes_only_on_success (route ms crash body req s) s.
Proof.
  intros Hbody. unfold route, writes_only_on_success.
  destruct (through ms req s); [|done..].
  destruct (session_user req) as [u|]; [|done].
  destruct (body u s) as [out|] eqn:Hout; [|done].
  by apply Hbody with u.
Qed.

Ltac frame_route :=
  apply route_frame; intros ? ? ?; unfold writes_only_on_success in *;
  unfold insert_enrollment in *;
  repeat first
    [ progress simplify_eq/=
    | match goal with
      | H : context [update_single ?P ?f ?l] |- _ =>
          destruct (update_single P f l) as [[? ?]|]
      | H : context [mbind _ ?o] |- _ => destruct o
      end
    | case_match ];
  try done.

(** X2: a request on a mutating route that is not answered with a
    success leaves the store as it was: validation, lookup, ownership and
    store errors all come before anything is written. *)
Theorem refused_requests_do_not_write
    (bcrypt_hash : JsVal → option string) (parseInt : JsVal → option Z)
    (now : Time) (id : Id) (oid : option Id) (a b c d e : JsVal)
    (req : Req) (s : Store) :
  writes_only_on_success (Courses.create now a b c req s) s
  ∧ writes_only_on_success (Courses.update now id a b c d req s) s
  ∧ writes_only_on_success (Courses.deactivate now id req s) s
  ∧ writes_only_on_success (Courses.enroll now id req s) s
  ∧ writes_only_on_success (Courses.unenroll id req s) s
  ∧ writes_only_on_success (Assignments.create oid a b c d req s) s
  ∧ writes_only_on_success (Assignments.update id a b c d req s) s
  ∧ writes_only_on_success (Assignments.delete id req s) s
  ∧ writes_only_on_success (Assignments.submit now id a req s) s
  ∧ writes_only_on_success (Assignments.grade parseInt now id a b req s) s
  ∧ writes_only_on_success (Messages.send now oid a req s) s
  ∧ writes_only_on_success (Admin.edit_user id a b c d req s) s
  ∧ writes_only_on_success (Admin.delete_user id req s) s
  ∧ writes_only_on_success (Admin.approve id req s) s
  ∧ writes_only_on_success (Admin.reject id req s) s
  ∧ writes_only_on_success (Admin.promote id req s) s
  ∧ writes_only_on_success
      ((Auth.register bcrypt_hash now a b c d e s).1.1,
       (Auth.register bcrypt_hash now a b c d e s).2) s.
Proof.
  repeat split; try (by frame_route).
  unfold Auth.register, writes_only_on_success.
  repeat case_match; done.
Qed.

(** ** Facts shared by the further properties *)

Lemma route_Json {A} (ms : list Middleware) (crash : string)
    (body : SessionUser → Store → option (Reply A * Store))
    (req : Req) (s s' : Store) (x : A) :
  route ms crash body req s = (Json x, s') →
  ∃ u, session_user req = Some u ∧ through ms req s = Next
       ∧ body u s = Some (Json x, s').
Proof.
  unfold route. destruct (through ms req s); [|intros; simplify_eq..].
  destruct (session_user req) as [u|]; [|intros; simplify_eq].
  destruct (body u s) as [out|] eqn:Hbody; simpl; [|intros; simplify_eq].
  intros ->. by exists u.
Qed.

Lemma fmap_section {A B} (f : A → B) (g : B → A) (l : list A) :
  (∀ x, g (f x) = x) → g <$> (f <$> l) = l.
Proof.
  intros Hgf. induction l as [|x l IH]; [done|].
  by rewrite !fmap_cons, Hgf, IH.
Qed.

Lemma filter_all {A} (P : A → Prop) `{!∀ x, Decision (P x)} (l : list A) :
  Forall P l → filter P l = l.
Proof.
  induction 1 as [|x l Hx Hl IH]; [done|].
  by rewrite filter_cons_True, IH by done.
Qed.

Lemma filter_none {A} (P : A → Prop) `{!∀ x, Decision (P x)} (l : list A) :
  Forall (λ x, ¬ P x) l → filter P l = [].
Proof.
  induction 1 as [|x l Hx Hl IH]; [done|].
  by rewrite filter_cons_False, IH by done.
Qed.

Lemma enrolled_course_elem (uid cid : Id) (s : Store) :
  cid ∈ Enrollment.course_id
          <$> filter (λ e, Enrollment.student_id e = uid) (enrollments s)
  ↔ enrolled uid cid s.
Proof.
  unfold enrolled. rewrite list_elem_of_fmap, Exists_exists. split.
  - intros (e & -> & [Hs He]%list_elem_of_filter). by exists e.
  - intros (e & He & Hs & Hc). exists e. split; [done|].
    by apply list_elem_of_filter.
Qed.

Lemma enrolled_student_elem (sid cid : Id) (s : Store) :
  sid ∈ Enrollment.student_id
          <$> filter (λ e, Enrollment.course_id e = cid) (enrollments s)
  ↔ enrolled sid cid s.
Proof.
  unfold enrolled. rewrite list_elem_of_fmap, Exists_exists. split.
  - intros (e & -> & [Hc He]%list_elem_of_filter). by exists e.
  - intros (e & He & Hs & Hc). exists e. split; [done|].
    by apply list_elem_of_filter.
Qed.

Lemma may_write_course_role (u : SessionUser) (cid : Id) (s : Store) :
  may_write_course u cid s → su_role u ∈ [teacher; master_teacher].
Proof.
  intros [->|[-> _]]; [apply master_may_teach | apply teacher_may_teach].
Qed.

Lemma may_write_course_passes (u : SessionUser) (cid : Id) (s : Store) :
  may_write_course u cid s → Courses.not_your_course cid u s = false.
Proof.
  intros [Hrole|(Hrole & c & Hrow & Hown)].
  - by apply not_your_course_master.
  - unfold Courses.not_your_course. rewrite decide_True by done.
    rewrite Hrow. simpl. apply bool_decide_eq_false. by intros [].
Qed.

#[global] Instance course_by_created_at_desc_total :
  Total Course.by_created_at_desc.
Proof. intros a b. unfold Course.by_created_at_desc. lia. Qed.

#[global] Instance user_by_created_at_desc_total :
  Total User.by_created_at_desc.
Proof. intros a b. unfold User.by_created_at_desc. lia. Qed.

#[global] Instance by_submitted_at_desc_total :
  Total Submission.by_submitted_at_desc.
Proof. intros a b. unfold Submission.by_submitted_at_desc. lia. Qed.

#[global] Instance by_created_at_total : Total Message.by_created_at.
Proof. intros a b. unfold Message.by_created_at. lia. Qed.

(** ** Approval, continued *)

(** X3: once the admin's approve request for a teacher has succeeded, the
    teacher's next create-course request passes the approval gate
    whatever the session snapshot says; it stores a new active course
    with the caller as its teacher. *)
Theorem approve_unlocks_creation
    (now : Time) (admin req : Req) (t : SessionUser) (s s1 : Store)
    (data : User.t) (name description subject : JsVal) :
  NoDup (User.id <$> users s) →
  Admin.approve (su_id t) admin s = (Json data, s1) →
  session_user req = Some t →
  su_role t = teacher →
  truthy name = true →
  ∃ course,
    Courses.create now name description subject req s1
    = (Json course, bump (with_courses (courses s1 ++ [course]) s1))
    ∧ Course.id course = next_id s1
    ∧ Course.teacher_id course = su_id t
    ∧ Course.name course = name
    ∧ Course.is_active course = JBool true.
Proof.
  intros Hkeys Happrove Hsession Hrole Hname.
  apply route_Json in Happrove as (adm & _ & _ & Hbody).
  destruct (update_single _ _ _) as [[data' rows]|] eqn:Hupd;
    simpl in Hbody; simplify_eq.
  unfold update_single in Hupd.
  destruct (single _) as [r|] eqn:Hr; simpl in Hupd; simplify_eq.
  destruct (single_filter_elem _ _ _ Hr) as [Hin [Hid Hteach]].
  assert (requireApproved req
            (with_users
               (update_where (λ r, User.id r = su_id t ∧ User.role r = teacher)
                             (User.approve true) (users s)) s) = Next) as Hgate.
  { unfold requireApproved. rewrite Hsession, Hrole.
    rewrite decide_False by (intros [?|?]; discriminate). simpl.
    rewrite filter_update_where_frame by done.
    rewrite <- Hid, (filter_key User.id r (users s) Hkeys Hin).
    unfold update_where. simpl. rewrite decide_True by (by split).
    reflexivity. }
  exists (Course.mk (next_id s) (su_id t) name (js_or description (JStr ""))
                    (js_or subject (JStr "")) (JBool true) now now).
  split; [|done].
  unfold Courses.create.
  rewrite (route_next req t _ Hsession).
  - by rewrite Hname.
  - simpl. rewrite (requireAuth_next req t _ Hsession).
    rewrite (requireRole_next req t _ Hsession)
      by (rewrite Hrole; apply teacher_may_teach).
    by rewrite Hgate.
Qed.

Lemma approve_unlocks_creation_witness :
  ∃ course,
    Courses.create 8 (JStr "Chemistry") JUndefined (JStr "science")
                   (School.as_user School.dee) School.dee_approved
    = (Json course,
       bump (with_courses (courses School.dee_approved ++ [course])
                          School.dee_approved))
    ∧ Course.id course = next_id School.dee_approved
    ∧ Course.teacher_id course = su_id (School.session_of School.dee)
    ∧ Course.name course = JStr "Chemistry"
    ∧ Course.is_active course = JBool true.
Proof.
  apply (approve_unlocks_creation 8 (School.as_user School.root)
           (School.as_user School.dee) (School.session_of School.dee)
           School.dee_registered School.dee_approved
           (User.approve true School.dee));
    [|reflexivity..].
  apply (bool_decide_unpack _). vm_compute. exact I.
Defined.

(** ** Deactivation *)

Lemma deactivate_writes (now : Time) (id : Id) (req : Req) (u : SessionUser)
    (s : Store) :
  session_user req = Some u →
  may_write_course u id s →
  Courses.deactivate now id req s
  = (Json (),
     with_courses
       (update_where (λ c, Course.id c = id)
          (Course.update
             (Course.mk_updates (Some now) None None None (Some (JBool false))))
          (courses s))
       s).
Proof.
  intros Hsession Hmay. unfold Courses.deactivate.
  rewrite (route_next req u s Hsession)
    by (apply (through_auth_role req u s Hsession);
        by eapply may_write_course_role).
  by rewrite (may_write_course_passes u id s Hmay).
Qed.

(** X4: deleting a course is a soft delete.  For a caller who may write
    to the course, the reply is a success, no course row is removed, the
    rows with the course's id get the active flag false and the instant
    of the call as updated-at, every other course row is as before, and
    the enrollments, assignments and submissions are not touched. *)
Theorem deactivate_is_soft_delete
    (now : Time) (id : Id) (req : Req) (u : SessionUser) (s : Store) :
  session_user req = Some u →
  may_write_course u id s →
  (Courses.deactivate now id req s).1 = Json ()
  ∧ Course.id <$> courses (Courses.deactivate now id req s).2
    = Course.id <$> courses s
  ∧ Forall (λ c, Course.id c = id →
                 Course.is_active c = JBool false ∧ Course.updated_at c = now)
           (courses (Courses.deactivate now id req s).2)
  ∧ filter (λ c, Course.id c ≠ id)
           (courses (Courses.deactivate now id req s).2)
    = filter (λ c, Course.id c ≠ id) (courses s)
  ∧ enrollments (Courses.deactivate now id req s).2 = enrollments s
  ∧ assignments (Courses.deactivate now id req s).2 = assignments s
  ∧ submissions (Courses.deactivate now id req s).2 = submissions s.
Proof.
  intros Hsession Hmay.
  rewrite (deactivate_writes now id req u s Hsession Hmay). simpl.
  split; [done|]. split; [by apply update_where_column|].
  split; [|split; [by apply filter_update_where_others|done]].
  unfold update_where. apply Forall_fmap, Forall_true. intros c. simpl.
  by destruct (decide (Course.id c = id)).
Qed.

Lemma deactivate_is_soft_delete_witness :
  (Courses.deactivate 7 10 (School.as_user School.ann) School.bo_submitted).1
  = Json ()
  ∧ Course.id <$> courses School.algebra_closed
    = Course.id <$> courses School.bo_submitted
  ∧ Forall (λ c, Course.id c = 10 →
                 Course.is_active c = JBool false ∧ Course.updated_at c = 7)
           (courses School.algebra_closed)
  ∧ filter (λ c, Course.id c ≠ 10) (courses School.algebra_closed)
    = filter (λ c, Course.id c ≠ 10) (courses School.bo_submitted)
  ∧ enrollments School.algebra_closed = enrollments School.bo_submitted
  ∧ assignments School.algebra_closed = assignments School.bo_submitted
  ∧ submissions School.algebra_closed = submissions School.bo_submitted.
Proof.
  apply (deactivate_is_soft_delete 7 10 (School.as_user School.ann)
           (School.session_of School.ann) School.bo_submitted);
    [reflexivity|].
  right. split; [reflexivity|]. eexists. split; reflexivity.
Defined.

(** The course rows of a student's two listings are active rows of the
    courses table. *)
Lemma student_listings_active (req : Req) (s : Store) (l : list Courses.Listed) :
  (Courses.list_courses req s).1 = Json l
  ∨ (Courses.available req s).1 = Json l →
  (∃ u, session_user req = Some u ∧ su_role u = student) →
  Forall (λ e, Courses.row e ∈ courses s
               ∧ Course.is_active (Courses.row e) = JBool true) l.
Proof.
  intros Hl (u & Hsession & Hrole).
  assert (su_role u ∈ [student]) as Hin
    by by apply list_elem_of_singleton.
  destruct Hl as [Hl|Hl]; revert Hl.
  - unfold Courses.list_courses.
    rewrite (route_next req u s Hsession)
      by apply (through_auth req u s Hsession).
    rewrite decide_True by done.
    destruct (decide _); simpl; intros [= <-]; [constructor|].
    apply Forall_fmap, Forall_forall. intros c Hc. simpl.
    apply list_elem_of_filter in Hc as [[_ Hactive] Hc]. done.
  - unfold Courses.available.
    rewrite (route_next req u s Hsession)
      by by apply (through_auth_role req u s Hsession).
    simpl. intros [= <-].
    apply Forall_fmap, Forall_forall. intros c Hc. simpl.
    rewrite merge_sort_Permutation in Hc.
    by apply list_elem_of_filter in Hc as [Hactive Hc].
Qed.

(** X5: after a course has been deactivated, neither listing of any
    student (my courses, courses available for enrollment) shows a row
    with the course's id, although the row is still in the table. *)
Theorem deactivated_course_leaves_student_listings
    (now : Time) (id : Id) (req : Req) (u : SessionUser) (s : Store)
    (req' : Req) (u' : SessionUser) (l : list Courses.Listed) :
  session_user req = Some u →
  may_write_course u id s →
  session_user req' = Some u' →
  su_role u' = student →
  (Courses.list_courses req' (Courses.deactivate now id req s).2).1 = Json l
  ∨ (Courses.available req' (Courses.deactivate now id req s).2).1 = Json l →
  Forall (λ e, Course.id (Courses.row e) ≠ id) l.
Proof.
  intros Hsession Hmay Hsession' Hrole' Hl.
  pose proof (student_listings_active req' _ l Hl
                (ex_intro _ u' (conj Hsession' Hrole'))) as Hactive.
  rewrite (deactivate_writes now id req u s Hsession Hmay) in Hactive.
  simpl in Hactive.
  eapply Forall_impl; [exact Hactive|]. simpl.
  intros e [Hin Hon] Hid.
  unfold update_where in Hin. apply list_elem_of_fmap in Hin as (c & Hc & _).
  destruct (decide (Course.id c = id)) as [Hcid|Hcid].
  - by rewrite Hc in Hon.
  - by rewrite Hc in Hid.
Qed.

Lemma deactivated_course_leaves_student_listings_witness :
  Forall (λ e, Course.id (Courses.row e) ≠ 10) []
  ∧ Course.id <$> courses School.algebra_closed = [10].
Proof.
  split; [|reflexivity].
  apply (deactivated_course_leaves_student_listings 7 10
           (School.as_user School.ann) (School.session_of School.ann)
           School.bo_submitted (School.as_user School.bo)
           (School.session_of School.bo) []);
    [reflexivity| |reflexivity|reflexivity|left; reflexivity].
  right. split; [reflexivity|]. eexists. split; reflexivity.
Defined.

(** Before the deactivation Bo's list shows Algebra. *)
Example listing_before_deactivation :
  Course.id ∘ Courses.row
    <$> default [] (match (Courses.list_courses (School.as_user School.bo)
                                                School.bo_submitted).1 with
                    | Json l => Some l
                    | _ => None
                    end) = [10].
Proof. reflexivity. Qed.

(** ** Enrollment, continued *)

Lemma enroll_when_free
    (now : Time) (req : Req) (u : SessionUser) (s : Store) (id : Id) :
  session_user req = Some u →
  su_role u = student →
  ¬ enrolled (su_id u) id s →
  Courses.enroll now id req s
  = (Json (Enrollment.mk (next_id s) (su_id u) id now),
     bump (with_enrollments
             (enrollments s ++ [Enrollment.mk (next_id s) (su_id u) id now])
             s)).
Proof.
  intros Hsession Hrole Hfree. unfold Courses.enroll.
  rewrite (route_next req u s Hsession)
    by (apply (through_auth_role req u s Hsession); rewrite Hrole;
        by apply list_elem_of_singleton).
  unfold insert_enrollment. by rewrite decide_False.
Qed.

Lemma unenroll_writes (req : Req) (u : SessionUser) (s : Store) (id : Id) :
  session_user req = Some u →
  su_role u = student →
  Courses.unenroll id req s
  = (Json (),
     with_enrollments
       (filter (λ e, ¬ (Enrollment.student_id e = su_id u
                        ∧ Enrollment.course_id e = id)) (enrollments s))
       s).
Proof.
  intros Hsession Hrole. unfold Courses.unenroll.
  by rewrite (route_next req u s Hsession)
    by (apply (through_auth_role req u s Hsession); rewrite Hrole;
        by apply list_elem_of_singleton).
Qed.

(** X6: a student who is not enrolled in a course is enrolled by the
    enroll route: the reply is the new row for the pair, the student is
    enrolled afterwards, the course has one more enrollment and the
    enrollments of every other course are as before. *)
Theorem enroll_adds_one
    (now : Time) (req : Req) (u : SessionUser) (s : Store) (id : Id) :
  session_user req = Some u →
  su_role u = student →
  ¬ enrolled (su_id u) id s →
  ∃ e s',
    Courses.enroll now id req s = (Json e, s')
    ∧ Enrollment.student_id e = su_id u
    ∧ Enrollment.course_id e = id
    ∧ Enrollment.enrolled_at e = now
    ∧ enrolled (su_id u) id s'
    ∧ length (filter (λ e, Enrollment.course_id e = id) (enrollments s'))
      = S (length (filter (λ e, Enrollment.course_id e = id) (enrollments s)))
    ∧ ∀ other, other ≠ id →
        filter (λ e, Enrollment.course_id e = other) (enrollments s')
        = filter (λ e, Enrollment.course_id e = other) (enrollments s).
Proof.
  intros Hsession Hrole Hfree. eexists _, _.
  split; [by apply enroll_when_free|]. simpl.
  do 3 (split; [done|]). split; [|split].
  - unfold enrolled. simpl. apply Exists_app. right. by constructor.
  - rewrite filter_app, length_app. simpl.
    rewrite filter_cons_True by done. simpl. lia.
  - intros other Hother. rewrite filter_app. simpl.
    rewrite filter_cons_False by (simpl; congruence).
    by rewrite app_nil_r.
Qed.

Lemma enroll_adds_one_witness :
  ∃ e s',
    Courses.enroll 2 10 (School.as_user School.bo) School.with_assignment
    = (Json e, s')
    ∧ Enrollment.student_id e = su_id (School.session_of School.bo)
    ∧ Enrollment.course_id e = 10
    ∧ Enrollment.enrolled_at e = 2
    ∧ enrolled (su_id (School.session_of School.bo)) 10 s'
    ∧ length (filter (λ e, Enrollment.course_id e = 10) (enrollments s'))
      = S (length (filter (λ e, Enrollment.course_id e = 10)
                          (enrollments School.with_assignment)))
    ∧ ∀ other, other ≠ 10 →
        filter (λ e, Enrollment.course_id e = other) (enrollments s')
        = filter (λ e, Enrollment.course_id e = other)
                 (enrollments School.with_assignment).
Proof.
  apply (enroll_adds_one 2 (School.as_user School.bo)
           (School.session_of School.bo) School.with_assignment 10);
    [reflexivity|reflexivity|].
  apply (bool_decide_unpack _). vm_compute. exact I.
Defined.

(** X7: unenroll answers with a success whether or not the student was
    enrolled; afterwards the student is not enrolled in the course, the
    rows of every other pair are as before, and a second unenroll changes
    nothing. *)
Theorem unenroll_exact (req : Req) (u : SessionUser) (s : Store) (id : Id) :
  session_user req = Some u →
  su_role u = student →
  (Courses.unenroll id req s).1 = Json ()
  ∧ ¬ enrolled (su_id u) id (Courses.unenroll id req s).2
  ∧ (∀ e, ¬ (Enrollment.student_id e = su_id u ∧ Enrollment.course_id e = id) →
          e ∈ enrollments (Courses.unenroll id req s).2 ↔ e ∈ enrollments s)
  ∧ Courses.unenroll id req (Courses.unenroll id req s).2
    = (Json (), (Courses.unenroll id req s).2).
Proof.
  intros Hsession Hrole.
  rewrite (unenroll_writes req u s id Hsession Hrole). simpl.
  split; [done|]. split; [|split].
  - unfold enrolled. simpl. rewrite Exists_exists.
    intros (e & [Hne _]%list_elem_of_filter & Hpair). by apply Hne.
  - intros e Hne. rewrite list_elem_of_filter. tauto.
  - rewrite (unenroll_writes req u _ id Hsession Hrole). simpl.
    rewrite list_filter_filter.
    rewrite (list_filter_iff _
               (λ e, ¬ (Enrollment.student_id e = su_id u
                        ∧ Enrollment.course_id e = id))); [done|].
    intros e. tauto.
Qed.

Lemma unenroll_exact_witness :
  (Courses.unenroll 10 (School.as_user School.bo) School.bo_submitted).1
  = Json ()
  ∧ ¬ enrolled (su_id (School.session_of School.bo)) 10
        (Courses.unenroll 10 (School.as_user School.bo) School.bo_submitted).2
  ∧ (∀ e, ¬ (Enrollment.student_id e = su_id (School.session_of School.bo)
             ∧ Enrollment.course_id e = 10) →
          e ∈ enrollments
                (Courses.unenroll 10 (School.as_user School.bo)
                                  School.bo_submitted).2
          ↔ e ∈ enrollments School.bo_submitted)
  ∧ Courses.unenroll 10 (School.as_user School.bo)
      (Courses.unenroll 10 (School.as_user School.bo) School.bo_submitted).2
    = (Json (),
       (Courses.unenroll 10 (School.as_user School.bo) School.bo_submitted).2).
Proof.
  apply (unenroll_exact (School.as_user School.bo)
           (School.session_of School.bo) School.bo_submitted 10);
    reflexivity.
Defined.

(** X8: enrolling and then unenrolling is a round trip on the enrollments
    table: for a student who was not enrolled, the table is as before
    (only the store's id counter has moved on). *)
Theorem enroll_unenroll_round_trip
    (now : Time) (req : Req) (u : SessionUser) (s : Store) (id : Id) :
  session_user req = Some u →
  su_role u = student →
  ¬ enrolled (su_id u) id s →
  Courses.unenroll id req (Courses.enroll now id req s).2
  = (Json (), bump s).
Proof.
  intros Hsession Hrole Hfree.
  rewrite (enroll_when_free now req u s id Hsession Hrole Hfree). simpl.
  rewrite (unenroll_writes req u _ id Hsession Hrole). simpl.
  rewrite filter_app, filter_cons_False by (simpl; tauto).
  rewrite filter_all, app_nil_r; [by destruct s|].
  unfold enrolled in Hfree. rewrite <- Forall_Exists_neg in Hfree.
  exact Hfree.
Qed.

Lemma enroll_unenroll_round_trip_witness :
  Courses.unenroll 10 (School.as_user School.bo)
    (Courses.enroll 2 10 (School.as_user School.bo) School.with_assignment).2
  = (Json (), bump School.with_assignment).
Proof.
  apply (enroll_unenroll_round_trip 2 (School.as_user School.bo)
           (School.session_of School.bo) School.with_assignment 10);
    [reflexivity|reflexivity|].
  apply (bool_decide_unpack _). vm_compute. exact I.
Defined.

(** ** Listings of courses *)

(** X9: the list of students of a course, for a caller who may write to
    the course, has one entry per user row whose id is enrolled in the
    course, in table order; each entry carries the names and email of
    that user and the enrolled-at instant of an enrollment row of the
    student in the course. *)
Theorem students_of_course (id : Id) (req : Req) (u : SessionUser) (s : Store) :
  session_user req = Some u →
  may_write_course u id s →
  ∃ l,
    Courses.students id req s = (Json l, s)
    ∧ Courses.student_id <$> l
      = User.id <$> filter (λ r, enrolled (User.id r) id s) (users s)
    ∧ Forall (λ x,
                ∃ r e,
                  r ∈ users s ∧ e ∈ enrollments s
                  ∧ User.id r = Courses.student_id x
                  ∧ Courses.first_name x = User.first_name r
                  ∧ Courses.last_name x = User.last_name r
                  ∧ Courses.email x = User.email r
                  ∧ Enrollment.student_id e = Courses.student_id x
                  ∧ Enrollment.course_id e = id
                  ∧ Courses.enrolled_at x = Some (Enrollment.enrolled_at e)) l.
Proof.
  intros Hsession Hmay. unfold Courses.students.
  rewrite (route_next req u s Hsession)
    by (apply (through_auth_role req u s Hsession);
        by eapply may_write_course_role).
  rewrite (may_write_course_passes u id s Hmay).
  rewrite <- (list_filter_iff _ _ _ (λ r, enrolled_student_elem (User.id r) id s)).
  set (es := filter (λ e, Enrollment.course_id e = id) (enrollments s)).
  destruct (decide (es = [])) as [Hes|Hes].
  { exists []. split; [done|]. split; [|constructor].
    rewrite Hes. simpl. rewrite filter_none; [done|].
    apply Forall_true. intros r Hr. by apply elem_of_nil in Hr. }
  eexists. split; [done|]. split.
  - rewrite <- list_fmap_compose. by apply list_fmap_ext.
  - apply Forall_fmap, Forall_forall. intros r Hr. simpl.
    apply list_elem_of_filter in Hr as [Hr Hin].
    destruct (foldl_insert_lookup Enrollment.student_id Enrollment.enrolled_at
                es ∅ _ Hr) as (e & He & Hkey & Hlookup).
    apply list_elem_of_filter in He as [Hc He].
    exists r, e. by rewrite Hlookup.
Qed.

Lemma students_of_course_witness :
  ∃ l,
    Courses.students 10 (School.as_user School.ann) School.bo_submitted
    = (Json l, School.bo_submitted)
    ∧ Courses.student_id <$> l
      = User.id <$> filter (λ r, enrolled (User.id r) 10 School.bo_submitted)
                           (users School.bo_submitted)
    ∧ Forall (λ x,
                ∃ r e,
                  r ∈ users School.bo_submitted
                  ∧ e ∈ enrollments School.bo_submitted
                  ∧ User.id r = Courses.student_id x
                  ∧ Courses.first_name x = User.first_name r
                  ∧ Courses.last_name x = User.last_name r
                  ∧ Courses.email x = User.email r
                  ∧ Enrollment.student_id e = Courses.student_id x
                  ∧ Enrollment.course_id e = 10
                  ∧ Courses.enrolled_at x = Some (Enrollment.enrolled_at e)) l.
Proof.
  apply (students_of_course 10 (School.as_user School.ann)
           (School.session_of School.ann) School.bo_submitted);
    [reflexivity|].
  right. split; [reflexivity|]. eexists. split; reflexivity.
Defined.

(** X10: a student's course list holds exactly the course rows that are
    active and in which the student is enrolled, in table order, each
    with the number of assignments of the course. *)
Theorem student_course_list (req : Req) (u : SessionUser) (s : Store) :
  session_user req = Some u →
  su_role u = student →
  ∃ l,
    Courses.list_courses req s = (Json l, s)
    ∧ Courses.row <$> l
      = filter (λ c, enrolled (su_id u) (Course.id c) s
                     ∧ Course.is_active c = JBool true) (courses s)
    ∧ Forall (λ e, Courses.assignment_count e
                   = Some (length (filter (λ a, Assignment.course_id a
                                                = Course.id (Courses.row e))
                                          (assignments s)))) l.
Proof.
  intros Hsession Hrole. unfold Courses.list_courses.
  rewrite (route_next req u s Hsession)
    by apply (through_auth req u s Hsession).
  rewrite decide_True by done.
  rewrite <- (list_filter_iff
                (λ c, Course.id c
                        ∈ Enrollment.course_id
                            <$> filter (λ e, Enrollment.student_id e = su_id u)
                                       (enrollments s)
                      ∧ Course.is_active c = JBool true)
                (λ c, enrolled (su_id u) (Course.id c) s
                      ∧ Course.is_active c = JBool true) _)
    by (intros c; by rewrite enrolled_course_elem).
  set (es := filter (λ e, Enrollment.student_id e = su_id u) (enrollments s)).
  destruct (decide (es = [])) as [Hes|Hes].
  { exists []. split; [done|]. split; [|constructor].
    rewrite Hes. simpl. rewrite filter_none; [done|].
    apply Forall_true. intros c [Hc _]. by apply elem_of_nil in Hc. }
  eexists. split; [done|]. split.
  - by apply fmap_section.
  - by apply Forall_fmap, Forall_true.
Qed.

Lemma student_course_list_witness :
  ∃ l,
    Courses.list_courses (School.as_user School.bo) School.algebra_closed
    = (Json l, School.algebra_closed)
    ∧ Courses.row <$> l
      = filter (λ c, enrolled (su_id (School.session_of School.bo))
                              (Course.id c) School.algebra_closed
                     ∧ Course.is_active c = JBool true)
               (courses School.algebra_closed)
    ∧ Forall (λ e, Courses.assignment_count e
                   = Some (length (filter (λ a, Assignment.course_id a
                                                = Course.id (Courses.row e))
                                          (assignments School.algebra_closed))))
             l.
Proof.
  apply (student_course_list (School.as_user School.bo)
           (School.session_of School.bo) School.algebra_closed);
    reflexivity.
Defined.

(** X11: a teacher's course list holds exactly the course rows that name
    the caller as teacher, active or not, newest first, each with the
    numbers of enrollments and of assignments of the course. *)
Theorem teacher_course_list (req : Req) (u : SessionUser) (s : Store) :
  session_user req = Some u →
  su_role u = teacher →
  ∃ l,
    Courses.list_courses req s = (Json l, s)
    ∧ Courses.row <$> l
      ≡ₚ filter (λ c, Course.teacher_id c = su_id u) (courses s)
    ∧ Sorted Course.by_created_at_desc (Courses.row <$> l)
    ∧ Forall (λ e,
                Courses.enrollment_count e
                = Some (length (filter (λ x, Enrollment.course_id x
                                             = Course.id (Courses.row e))
                                       (enrollments s)))
                ∧ Courses.assignment_count e
                  = Some (length (filter (λ a, Assignment.course_id a
                                               = Course.id (Courses.row e))
                                         (assignments s)))) l.
Proof.
  intros Hsession Hrole. unfold Courses.list_courses.
  rewrite (route_next req u s Hsession)
    by apply (through_auth req u s Hsession).
  rewrite decide_False by (rewrite Hrole; discriminate).
  rewrite decide_True by done.
  eexists. split; [done|].
  rewrite fmap_section by done.
  split; [apply merge_sort_Permutation|].
  split; [apply Sorted_merge_sort, _|].
  by apply Forall_fmap, Forall_true.
Qed.

Lemma teacher_course_list_witness :
  ∃ l,
    Courses.list_courses (School.as_user School.ann) School.algebra_closed
    = (Json l, School.algebra_closed)
    ∧ Courses.row <$> l
      ≡ₚ filter (λ c, Course.teacher_id c
                      = su_id (School.session_of School.ann))
                (courses School.algebra_closed)
    ∧ Sorted Course.by_created_at_desc (Courses.row <$> l)
    ∧ Forall (λ e,
                Courses.enrollment_count e
                = Some (length (filter (λ x, Enrollment.course_id x
                                             = Course.id (Courses.row e))
                                       (enrollments School.algebra_closed)))
                ∧ Courses.assignment_count e
                  = Some (length (filter (λ a, Assignment.course_id a
                                               = Course.id (Courses.row e))
                                         (assignments School.algebra_closed))))
             l.
Proof.
  apply (teacher_course_list (School.as_user School.ann)
           (School.session_of School.ann) School.algebra_closed);
    reflexivity.
Defined.

(** X12: the courses available to a student are exactly the active
    course rows, newest first, and the enrollment flag of an entry says
    whether the caller is enrolled in that course. *)
Theorem available_courses (req : Req) (u : SessionUser) (s : Store) :
  session_user req = Some u →
  su_role u = student →
  ∃ l,
    Courses.available req s = (Json l, s)
    ∧ Courses.row <$> l
      ≡ₚ filter (λ c, Course.is_active c = JBool true) (courses s)
    ∧ Sorted Course.by_created_at_desc (Courses.row <$> l)
    ∧ Forall (λ e,
                Courses.is_enrolled e
                = Some (bool_decide
                          (enrolled (su_id u) (Course.id (Courses.row e)) s)))
             l.
Proof.
  intros Hsession Hrole. unfold Courses.available.
  rewrite (route_next req u s Hsession)
    by (apply (through_auth_role req u s Hsession); rewrite Hrole;
        by apply list_elem_of_singleton).
  eexists. split; [done|].
  rewrite fmap_section by done.
  split; [apply merge_sort_Permutation|].
  split; [apply Sorted_merge_sort, _|].
  apply Forall_fmap, Forall_true. intros c. simpl. f_equal.
  apply bool_decide_ext, enrolled_course_elem.
Qed.

Lemma available_courses_witness :
  ∃ l,
    Courses.available (School.as_user School.bo) School.bo_submitted
    = (Json l, School.bo_submitted)
    ∧ Courses.row <$> l
      ≡ₚ filter (λ c, Course.is_active c = JBool true)
                (courses School.bo_submitted)
    ∧ Sorted Course.by_created_at_desc (Courses.row <$> l)
    ∧ Forall (λ e,
                Courses.is_enrolled e
                = Some (bool_decide
                          (enrolled (su_id (School.session_of School.bo))
                                    (Course.id (Courses.row e))
                                    School.bo_submitted)))
             l.
Proof.
  apply (available_courses (School.as_user School.bo)
           (School.session_of School.bo) School.bo_submitted);
    reflexivity.
Defined.

(** ** Assignments and grading *)

Lemma verifyTeacherOwns_not_owner (cid uid : Id) (s : Store) :
  not_owner uid cid s → Assignments.verifyTeacherOwns cid uid s = false.
Proof.
  intros Hown. unfold Assignments.verifyTeacherOwns.
  destruct (single _) as [course|] eqn:Hsingle; [|done].
  apply single_filter_elem in Hsingle as [Hin Hid].
  unfold not_owner in Hown. rewrite Forall_forall in Hown.
  apply bool_decide_eq_false. by apply Hown.
Qed.

Lemma verifyTeacherOwns_owner (cid uid : Id) (s : Store) (c : Course.t) :
  filter (λ c, Course.id c = cid) (courses s) = [c] →
  Course.teacher_id c = uid →
  Assignments.verifyTeacherOwns cid uid s = true.
Proof.
  intros Hrow Hown. unfold Assignments.verifyTeacherOwns.
  rewrite Hrow. simpl. by apply bool_decide_eq_true.
Qed.

(** X13: the assignment routes check existence before ownership.  For a
    teacher or master_teacher, updating, deleting or listing the
    submissions of an assignment id that no row carries answers 404; for
    a teacher who is not the teacher of the assignment's course the
    answer is 403; in both cases the store is unchanged. *)
Theorem assignment_ownership_gate
    (id : Id) (a b c d : JsVal) (req : Req) (u : SessionUser) (s : Store) :
  session_user req = Some u →
  su_role u ∈ [teacher; master_teacher] →
  (Forall (λ x, Assignment.id x ≠ id) (assignments s) →
   Assignments.update id a b c d req s = (Fail 404 "Assignment not found", s)
   ∧ Assignments.delete id req s = (Fail 404 "Assignment not found", s)
   ∧ Assignments.list_submissions id req s
     = (Fail 404 "Assignment not found", s))
  ∧ (∀ x,
       su_role u = teacher →
       filter (λ x, Assignment.id x = id) (assignments s) = [x] →
       not_owner (su_id u) (Assignment.course_id x) s →
       Assignments.update id a b c d req s = (Fail 403 "Not your course", s)
       ∧ Assignments.delete id req s = (Fail 403 "Not your course", s)
       ∧ Assignments.list_submissions id req s
         = (Fail 403 "Not your course", s)).
Proof.
  intros Hsession Hin.
  unfold Assignments.update, Assignments.delete, Assignments.list_submissions.
  rewrite !(route_next req u s Hsession)
    by by apply (through_auth_role req u s Hsession).
  split.
  - intros Hnone. by rewrite filter_none.
  - intros x Hrole Hrow Hown. rewrite Hrow. simpl.
    unfold Assignments.not_your_course. rewrite decide_True by done.
    by rewrite (verifyTeacherOwns_not_owner _ _ _ Hown).
Qed.

Lemma assignment_ownership_gate_witness :
  (Assignments.update 99 JUndefined JUndefined JUndefined JUndefined
                      (School.as_user School.root) School.with_assignment
   = (Fail 404 "Assignment not found", School.with_assignment)
   ∧ Assignments.delete 99 (School.as_user School.root)
                        School.with_assignment
     = (Fail 404 "Assignment not found", School.with_assignment)
   ∧ Assignments.list_submissions 99 (School.as_user School.root)
                                  School.with_assignment
     = (Fail 404 "Assignment not found", School.with_assignment))
  ∧ (Assignments.update 11 (JStr "Mine") JUndefined JUndefined JUndefined
                        (School.as_user School.cy) School.with_assignment
     = (Fail 403 "Not your course", School.with_assignment)
     ∧ Assignments.delete 11 (School.as_user School.cy) School.with_assignment
       = (Fail 403 "Not your course", School.with_assignment)
     ∧ Assignments.list_submissions 11 (School.as_user School.cy)
                                    School.with_assignment
       = (Fail 403 "Not your course", School.with_assignment)).
Proof.
  split.
  - apply (proj1 (assignment_ownership_gate 99 JUndefined JUndefined
                    JUndefined JUndefined (School.as_user School.root)
                    (School.session_of School.root) School.with_assignment
                    eq_refl master_may_teach)).
    apply (bool_decide_unpack _). vm_compute. exact I.
  - apply (proj2 (assignment_ownership_gate 11 (JStr "Mine") JUndefined
                    JUndefined JUndefined (School.as_user School.cy)
                    (School.session_of School.cy) School.with_assignment
                    eq_refl teacher_may_teach)
                 (Assignment.mk 11 10 (JStr "HW1") (JStr "") (JNum 7)
                                (JNum 100)));
      [reflexivity|reflexivity|].
    apply (bool_decide_unpack _). vm_compute. exact I.
Defined.

Lemma grade_writes (parseInt : JsVal → option Z) (now : Time) (id : Id)
    (g fb : JsVal) (req : Req) (u : SessionUser) (s : Store)
    (sub : Submission.t) :
  session_user req = Some u →
  g ≠ JUndefined → g ≠ JNull →
  filter (λ r, Submission.id r = id) (submissions s) = [sub] →
  may_grade u sub s →
  Assignments.grade parseInt now id g fb req s
  = (Json (Submission.graded (parseInt g) (js_or fb (JStr "")) now sub),
     with_submissions
       (update_where (λ r, Submission.id r = id)
          (Submission.graded (parseInt g) (js_or fb (JStr "")) now)
          (submissions s))
       s).
Proof.
  intros Hsession Hg Hg' Hrow Hmay.
  assert (su_role u ∈ [teacher; master_teacher]) as Hin.
  { destruct Hmay as [->|(_ & _ & -> & _)];
      [apply master_may_teach | apply teacher_may_teach]. }
  unfold Assignments.grade.
  rewrite (route_next req u s Hsession)
    by by apply (through_auth_role req u s Hsession).
  rewrite decide_False by (by intros [?|?]).
  rewrite Hrow. simpl.
  destruct Hmay as [Hrole|(a & Ha & Hrole & c & Hc & Hown)].
  - rewrite decide_False by (rewrite Hrole; discriminate). simpl.
    by rewrite (update_single_Some _ _ _ sub Hrow).
  - rewrite decide_True by done. rewrite Ha. simpl.
    rewrite (verifyTeacherOwns_owner _ _ _ c Hc Hown). simpl.
    by rewrite (update_single_Some _ _ _ sub Hrow).
Qed.

(** X14: grading by a caller who may grade the submission stores the
    parsed grade (null when the value does not parse), the feedback (the
    empty string when it is falsy) and the instant of the call as
    graded-at on the submission row and leaves its assignment, student,
    content and submitted-at, and every other row, as they were. *)
Theorem grade_submission
    (parseInt : JsVal → option Z) (now : Time) (id : Id) (g fb : JsVal)
    (req : Req) (u : SessionUser) (s : Store) (sub : Submission.t) :
  session_user req = Some u →
  g ≠ JUndefined → g ≠ JNull →
  filter (λ r, Submission.id r = id) (submissions s) = [sub] →
  may_grade u sub s →
  ∃ new s',
    Assignments.grade parseInt now id g fb req s = (Json new, s')
    ∧ filter (λ r, Submission.id r = id) (submissions s') = [new]
    ∧ filter (λ r, Submission.id r ≠ id) (submissions s')
      = filter (λ r, Submission.id r ≠ id) (submissions s)
    ∧ Submission.grade new = parseInt g
    ∧ Submission.feedback new = (if truthy fb then fb else JStr "")
    ∧ Submission.graded_at new = Some now
    ∧ Submission.assignment_id new = Submission.assignment_id sub
    ∧ Submission.student_id new = Submission.student_id sub
    ∧ Submission.content new = Submission.content sub
    ∧ Submission.submitted_at new = Submission.submitted_at sub.
Proof.
  intros Hsession Hg Hg' Hrow Hmay. eexists _, _.
  split;
    [exact (grade_writes parseInt now id g fb req u s sub
              Hsession Hg Hg' Hrow Hmay)|].
  simpl.
  split; [by rewrite filter_update_where, Hrow by done|].
  split; [by apply filter_update_where_others|done].
Qed.

Lemma grade_submission_witness :
  ∃ new s',
    Assignments.grade School.parse_int 5 13 (JNum 85) (JStr "good")
                      (School.as_user School.ann) School.bo_submitted
    = (Json new, s')
    ∧ filter (λ r, Submission.id r = 13) (submissions s') = [new]
    ∧ filter (λ r, Submission.id r ≠ 13) (submissions s')
      = filter (λ r, Submission.id r ≠ 13) (submissions School.bo_submitted)
    ∧ Submission.grade new = Some 85%Z
    ∧ Submission.feedback new = JStr "good"
    ∧ Submission.graded_at new = Some 5
    ∧ Submission.assignment_id new = 11
    ∧ Submission.student_id new = 2
    ∧ Submission.content new = JStr "answer"
    ∧ Submission.submitted_at new = 3.
Proof.
  apply (grade_submission School.parse_int 5 13 (JNum 85) (JStr "good")
           (School.as_user School.ann) (School.session_of School.ann)
           School.bo_submitted
           (Submission.mk 13 11 2 (JStr "answer") 3 None JNull None));
    [reflexivity|discriminate|discriminate|reflexivity|].
  right. eexists. split; [reflexivity|]. split; [reflexivity|].
  eexists. split; reflexivity.
Defined.

(** The rows of the grading queue are ungraded rows of the store. *)
Lemma pending_rows_ungraded (req : Req) (s : Store)
    (l : list Assignments.Pending) :
  (Assignments.pending_grading req s).1 = Json l →
  Forall (λ e, Assignments.row e ∈ submissions s
               ∧ Submission.grade (Assignments.row e) = None) l.
Proof.
  destruct (Assignments.pending_grading req s) as [r s'] eqn:Hout.
  simpl. intros ->. apply route_Json in Hout as (u & _ & _ & Hbody).
  simpl in Hbody.
  destruct (decide (filter _ (courses s) = [])); simplify_eq;
    [constructor|].
  destruct (decide (filter _ (assignments s) = [])); simplify_eq;
    [constructor|].
  apply Forall_fmap, Forall_forall. intros sub Hsub. simpl.
  rewrite merge_sort_Permutation in Hsub.
  by apply list_elem_of_filter in Hsub as [[_ Hgrade] Hsub].
Qed.

(** X15: a submission that has been given a grade is not in the grading
    queue of any caller afterwards. *)
Theorem graded_leaves_queue
    (parseInt : JsVal → option Z) (now : Time) (id : Id) (g fb : JsVal)
    (req : Req) (u : SessionUser) (s : Store) (sub : Submission.t)
    (n : Z) (req' : Req) (l : list Assignments.Pending) :
  session_user req = Some u →
  g ≠ JUndefined → g ≠ JNull →
  parseInt g = Some n →
  filter (λ r, Submission.id r = id) (submissions s) = [sub] →
  may_grade u sub s →
  (Assignments.pending_grading req'
     (Assignments.grade parseInt now id g fb req s).2).1 = Json l →
  Forall (λ e, Submission.id (Assignments.row e) ≠ id) l.
Proof.
  intros Hsession Hg Hg' Hparse Hrow Hmay Hl.
  apply pending_rows_ungraded in Hl.
  rewrite (grade_writes parseInt now id g fb req u s sub) in Hl by done.
  simpl in Hl. eapply Forall_impl; [exact Hl|]. simpl.
  intros e [Hin Hnone] Hid. unfold update_where in Hin.
  apply list_elem_of_fmap in Hin as (r & Hr & _).
  destruct (decide (Submission.id r = id)) as [Hrid|Hrid].
  - rewrite Hr, Hparse in Hnone. discriminate.
  - by rewrite Hr in Hid.
Qed.

Lemma graded_leaves_queue_witness :
  Forall (λ e, Submission.id (Assignments.row e) ≠ 13) [].
Proof.
  apply (graded_leaves_queue School.parse_int 5 13 (JNum 85) (JStr "good")
           (School.as_user School.ann) (School.session_of School.ann)
           School.bo_submitted
           (Submission.mk 13 11 2 (JStr "answer") 3 None JNull None)
           85 (School.as_user School.ann) []);
    [reflexivity|discriminate|discriminate|reflexivity|reflexivity| |
     reflexivity].
  right. eexists. split; [reflexivity|]. split; [reflexivity|].
  eexists. split; reflexivity.
Defined.

(** X16: a resubmission keeps the grade.  When the student already has a
    row for the assignment, a successful submit answers with that row
    under its id, carrying the new content and instant and the grade,
    feedback and graded-at instant it had: submitting again after being
    graded does not put the submission back among the ungraded ones. *)
Theorem resubmit_keeps_grade
    (now : Time) (req : Req) (u : SessionUser) (s : Store) (id : Id)
    (content : JsVal) (existing sub : Submission.t) (s' : Store) :
  session_user req = Some u →
  submission_keys s →
  submissions_of id (su_id u) s = [existing] →
  Assignments.submit now id content req s = (Json sub, s') →
  Submission.id sub = Submission.id existing
  ∧ Submission.grade sub = Submission.grade existing
  ∧ Submission.feedback sub = Submission.feedback existing
  ∧ Submission.graded_at sub = Submission.graded_at existing
  ∧ Submission.content sub = content
  ∧ Submission.submitted_at sub = now
  ∧ submissions_of id (su_id u) s' = [sub].
Proof.
  intros Hsession Hkeys Hex Hsubmit.
  destruct (submit_Json _ _ _ _ _ _ _ _ Hsession Hsubmit)
    as (_ & _ & a & _ & _ & Hrow).
  rewrite Hex in Hrow. simpl in Hrow. destruct Hrow as (rows & Hupd & ->).
  assert (existing ∈ submissions s) as Hin.
  { assert (existing ∈ submissions_of id (su_id u) s) as Hin
      by (rewrite Hex; apply list_elem_of_here).
    by apply list_elem_of_filter in Hin as [_ Hin]. }
  rewrite (update_single_Some _ _ _ existing) in Hupd
    by (apply (filter_key Submission.id); [apply Hkeys|done]).
  simplify_eq. do 6 (split; [done|]).
  by destruct (resubmit_rows now content existing id (su_id u) s Hkeys Hex)
    as (_ & Hs & _).
Qed.

Lemma resubmit_keeps_grade_witness :
  Submission.id
    (Submission.mk 13 11 2 (JStr "second try") 6 (Some 85%Z) (JStr "good")
                   (Some 5)) = 13
  ∧ Submission.grade
      (Submission.mk 13 11 2 (JStr "second try") 6 (Some 85%Z) (JStr "good")
                     (Some 5)) = Some 85%Z
  ∧ Submission.feedback
      (Submission.mk 13 11 2 (JStr "second try") 6 (Some 85%Z) (JStr "good")
                     (Some 5)) = JStr "good"
  ∧ Submission.graded_at
      (Submission.mk 13 11 2 (JStr "second try") 6 (Some 85%Z) (JStr "good")
                     (Some 5)) = Some 5
  ∧ Submission.content
      (Submission.mk 13 11 2 (JStr "second try") 6 (Some 85%Z) (JStr "good")
                     (Some 5)) = JStr "second try"
  ∧ Submission.submitted_at
      (Submission.mk 13 11 2 (JStr "second try") 6 (Some 85%Z) (JStr "good")
                     (Some 5)) = 6
  ∧ submissions_of 11 (su_id (School.session_of School.bo))
      (Assignments.submit 6 11 (JStr "second try") (School.as_user School.bo)
                          School.bo_graded).2
    = [Submission.mk 13 11 2 (JStr "second try") 6 (Some 85%Z) (JStr "good")
                     (Some 5)].
Proof.
  apply (resubmit_keeps_grade 6 (School.as_user School.bo)
           (School.session_of School.bo) School.bo_graded 11
           (JStr "second try")
           (Submission.mk 13 11 2 (JStr "answer") 3 (Some 85%Z) (JStr "good")
                          (Some 5)));
    [reflexivity| |reflexivity|reflexivity].
  apply (bool_decide_unpack _). vm_compute. exact I.
Defined.

Lemma verifyEnrolled_not_enrolled (cid sid : Id) (s : Store) :
  ¬ enrolled sid cid s → Assignments.verifyEnrolled cid sid s = false.
Proof.
  intros Hfree. destruct (Assignments.verifyEnrolled cid sid s) eqn:Henr;
    [|done].
  by apply verifyEnrolled_enrolled in Henr.
Qed.

(** X17: the checks of submit, in order.  For a student, a submit with
    falsy content is answered 400 whatever the assignment; with content,
    an assignment id that no row carries is answered 404; and with
    content and an assignment, a caller not enrolled in the assignment's
    course is answered 403.  Nothing is written in any of these cases. *)
Theorem submit_checks_in_order
    (now : Time) (id : Id) (content : JsVal) (req : Req) (u : SessionUser)
    (s : Store) :
  session_user req = Some u →
  su_role u = student →
  (truthy content = false →
   Assignments.submit now id content req s
   = (Fail 400 "Submission content is required", s))
  ∧ (truthy content = true →
     Forall (λ a, Assignment.id a ≠ id) (assignments s) →
     Assignments.submit now id content req s
     = (Fail 404 "Assignment not found", s))
  ∧ (∀ a,
       truthy content = true →
       filter (λ a, Assignment.id a = id) (assignments s) = [a] →
       ¬ enrolled (su_id u) (Assignment.course_id a) s →
       Assignments.submit now id content req s
       = (Fail 403 "Not enrolled in this course", s)).
Proof.
  intros Hsession Hrole. unfold Assignments.submit.
  rewrite (route_next req u s Hsession)
    by (apply (through_auth_role req u s Hsession); rewrite Hrole;
        by apply list_elem_of_singleton).
  split; [|split].
  - by intros ->.
  - intros -> Hnone. simpl. by rewrite filter_none.
  - intros a -> Hrow Hfree. simpl. rewrite Hrow. simpl.
    by rewrite (verifyEnrolled_not_enrolled _ _ _ Hfree).
Qed.

Lemma submit_checks_in_order_witness :
  Assignments.submit 3 99 (JStr "") (School.as_user School.bo)
                     School.with_assignment
  = (Fail 400 "Submission content is required", School.with_assignment)
  ∧ Assignments.submit 3 99 (JStr "answer") (School.as_user School.bo)
                       School.with_assignment
    = (Fail 404 "Assignment not found", School.with_assignment)
  ∧ Assignments.submit 3 11 (JStr "answer") (School.as_user School.bo)
                       School.with_assignment
    = (Fail 403 "Not enrolled in this course", School.with_assignment).
Proof.
  split; [|split].
  - apply (proj1 (submit_checks_in_order 3 99 (JStr "")
                    (School.as_user School.bo) (School.session_of School.bo)
                    School.with_assignment eq_refl eq_refl)).
    reflexivity.
  - apply (proj1 (proj2 (submit_checks_in_order 3 99 (JStr "answer")
                           (School.as_user School.bo)
                           (School.session_of School.bo)
                           School.with_assignment eq_refl eq_refl)));
      [reflexivity|].
    apply (bool_decide_unpack _). vm_compute. exact I.
  - apply (proj2 (proj2 (submit_checks_in_order 3 11 (JStr "answer")
                           (School.as_user School.bo)
                           (School.session_of School.bo)
                           School.with_assignment eq_refl eq_refl))
                 (Assignment.mk 11 10 (JStr "HW1") (JStr "") (JNum 7)
                                (JNum 100)));
      [reflexivity|reflexivity|].
    apply (bool_decide_unpack _). vm_compute. exact I.
Defined.

(** X18: a student's list of submissions holds exactly the submission
    rows of the caller, latest submitted first; an entry whose assignment
    and course are in the store carries the assignment's title, points,
    due date and course id and the course's name. *)
Theorem my_submissions_own_rows (req : Req) (u : SessionUser) (s : Store) :
  session_user req = Some u →
  su_role u = student →
  ∃ l,
    Assignments.my_submissions req s = (Json l, s)
    ∧ Assignments.mine <$> l
      ≡ₚ filter (λ r, Submission.student_id r = su_id u) (submissions s)
    ∧ Sorted Submission.by_submitted_at_desc (Assignments.mine <$> l)
    ∧ Forall (λ e,
                ∀ a c,
                  filter (λ a, Assignment.id a
                               = Submission.assignment_id (Assignments.mine e))
                         (assignments s) = [a] →
                  filter (λ c, Course.id c = Assignment.course_id a)
                         (courses s) = [c] →
                  Assignments.mine_assignment e
                  = Some (Assignment.title a, Assignment.max_points a,
                          Assignment.due_date a, Assignment.course_id a)
                  ∧ Assignments.mine_course_name e = Some (Course.name c)) l.
Proof.
  intros Hsession Hrole. unfold Assignments.my_submissions.
  rewrite (route_next req u s Hsession)
    by (apply (through_auth_role req u s Hsession); rewrite Hrole;
        by apply list_elem_of_singleton).
  eexists. split; [done|].
  rewrite fmap_section by done.
  split; [apply merge_sort_Permutation|].
  split; [apply Sorted_merge_sort, _|].
  apply Forall_fmap, Forall_true. intros sub a c Ha Hc.
  simpl in Ha. unfold Assignments.attach_mine. simpl.
  rewrite Ha. simpl. by rewrite Hc.
Qed.

Lemma my_submissions_own_rows_witness :
  ∃ l,
    Assignments.my_submissions (School.as_user School.bo) School.bo_graded
    = (Json l, School.bo_graded)
    ∧ Assignments.mine <$> l
      ≡ₚ filter (λ r, Submission.student_id r
                      = su_id (School.session_of School.bo))
                (submissions School.bo_graded)
    ∧ Sorted Submission.by_submitted_at_desc (Assignments.mine <$> l)
    ∧ Forall (λ e,
                ∀ a c,
                  filter (λ a, Assignment.id a
                               = Submission.assignment_id (Assignments.mine e))
                         (assignments School.bo_graded) = [a] →
                  filter (λ c, Course.id c = Assignment.course_id a)
                         (courses School.bo_graded) = [c] →
                  Assignments.mine_assignment e
                  = Some (Assignment.title a, Assignment.max_points a,
                          Assignment.due_date a, Assignment.course_id a)
                  ∧ Assignments.mine_course_name e = Some (Course.name c)) l.
Proof.
  apply (my_submissions_own_rows (School.as_user School.bo)
           (School.session_of School.bo) School.bo_graded);
    reflexivity.
Defined.

(** The end of the walk through the school: Bo's list shows the grade 85
    and the course name Algebra. *)
Example bo_sees_his_grade :
  (λ e, (Submission.grade (Assignments.mine e),
         Assignments.mine_course_name e))
    <$> default [] (match (Assignments.my_submissions
                             (School.as_user School.bo) School.bo_graded).1 with
                    | Json l => Some l
                    | _ => None
                    end)
  = [(Some 85%Z, Some (JStr "Algebra"))].
Proof. reflexivity. Qed.

(** ** Messages *)

(** X19: any logged-in caller can send to any user that has a row,
    whatever their roles: the message is appended unread with the caller
    as sender, the receiver has one more unread message and nobody else's
    unread messages change; a receiver id without a user row is answered
    404 and nothing is stored. *)
Theorem send_delivers
    (now : Time) (rid : Id) (content : JsVal) (req : Req) (u : SessionUser)
    (s : Store) :
  session_user req = Some u →
  truthy content = true →
  (∀ r,
     filter (λ r, User.id r = rid) (users s) = [r] →
     ∃ m s',
       Messages.send now (Some rid) content req s = (Json m, s')
       ∧ messages s' = messages s ++ [m]
       ∧ Message.sender_id m = su_id u
       ∧ Message.receiver_id m = rid
       ∧ Message.content m = content
       ∧ Message.created_at m = now
       ∧ Message.is_read m = false
       ∧ length (unread_for rid s') = S (length (unread_for rid s))
       ∧ ∀ v, v ≠ rid → unread_for v s' = unread_for v s)
  ∧ (Forall (λ r, User.id r ≠ rid) (users s) →
     Messages.send now (Some rid) content req s
     = (Fail 404 "Recipient not found", s)).
Proof.
  intros Hsession Hcontent. unfold Messages.send.
  rewrite (route_next req u s Hsession)
    by apply (through_auth req u s Hsession).
  rewrite Hcontent. simpl. split.
  - intros r Hrow. rewrite Hrow. simpl. eexists _, _. split; [done|]. simpl.
    do 6 (split; [done|]). unfold unread_for. simpl. split.
    + rewrite filter_app, length_app. simpl.
      rewrite filter_cons_True by done. simpl. lia.
    + intros v Hv. rewrite filter_app. simpl.
      rewrite filter_cons_False by (simpl; intros [? _]; congruence).
      by rewrite app_nil_r.
  - intros Hnone. by rewrite filter_none.
Qed.

Lemma send_delivers_witness :
  (∃ m s',
     Messages.send 9 (Some 3) (JStr "hello") (School.as_user School.bo)
                   School.chatting = (Json m, s')
     ∧ messages s' = messages School.chatting ++ [m]
     ∧ Message.sender_id m = su_id (School.session_of School.bo)
     ∧ Message.receiver_id m = 3
     ∧ Message.content m = JStr "hello"
     ∧ Message.created_at m = 9
     ∧ Message.is_read m = false
     ∧ length (unread_for 3 s') = S (length (unread_for 3 School.chatting))
     ∧ ∀ v, v ≠ 3 → unread_for v s' = unread_for v School.chatting)
  ∧ Messages.send 9 (Some 99) (JStr "hello") (School.as_user School.bo)
                  School.chatting
    = (Fail 404 "Recipient not found", School.chatting).
Proof.
  split.
  - apply (proj1 (send_delivers 9 3 (JStr "hello") (School.as_user School.bo)
                    (School.session_of School.bo) School.chatting
                    eq_refl eq_refl) School.root).
    reflexivity.
  - apply (proj2 (send_delivers 9 99 (JStr "hello")
                    (School.as_user School.bo) (School.session_of School.bo)
                    School.chatting eq_refl eq_refl)).
    apply (bool_decide_unpack _). vm_compute. exact I.
Defined.

(** X20: the history of a conversation is made of exactly the messages
    between the two parties, oldest first, and both parties get the same
    history from the same store. *)
Theorem conversation_history
    (req_a req_b : Req) (a b : SessionUser) (s : Store) :
  session_user req_a = Some a →
  session_user req_b = Some b →
  ∃ ca cb sa sb,
    Messages.conversation (su_id b) req_a s = (Json ca, sa)
    ∧ Messages.conversation (su_id a) req_b s = (Json cb, sb)
    ∧ Messages.history ca
      ≡ₚ filter (λ m, (Message.sender_id m = su_id a
                       ∧ Message.receiver_id m = su_id b)
                      ∨ (Message.sender_id m = su_id b
                         ∧ Message.receiver_id m = su_id a)) (messages s)
    ∧ Sorted Message.by_created_at (Messages.history ca)
    ∧ Messages.history cb = Messages.history ca.
Proof.
  intros Ha Hb. unfold Messages.conversation.
  rewrite (route_next req_a a s Ha) by apply (through_auth req_a a s Ha).
  rewrite (route_next req_b b s Hb) by apply (through_auth req_b b s Hb).
  eexists _, _, _, _. do 2 (split; [done|]). simpl.
  split; [apply merge_sort_Permutation|].
  split; [apply Sorted_merge_sort, _|].
  f_equal. apply list_filter_iff. intros m. tauto.
Qed.

Lemma conversation_history_witness :
  ∃ ca cb sa sb,
    Messages.conversation (su_id (School.session_of School.ann))
                          (School.as_user School.bo) School.chatting
    = (Json ca, sa)
    ∧ Messages.conversation (su_id (School.session_of School.bo))
                            (School.as_user School.ann) School.chatting
      = (Json cb, sb)
    ∧ Messages.history ca
      ≡ₚ filter (λ m, (Message.sender_id m
                       = su_id (School.session_of School.bo)
                       ∧ Message.receiver_id m
                         = su_id (School.session_of School.ann))
                      ∨ (Message.sender_id m
                         = su_id (School.session_of School.ann)
                         ∧ Message.receiver_id m
                           = su_id (School.session_of School.bo)))
                (messages School.chatting)
    ∧ Sorted Message.by_created_at (Messages.history ca)
    ∧ Messages.history cb = Messages.history ca.
Proof.
  apply (conversation_history (School.as_user School.bo)
           (School.as_user School.ann) (School.session_of School.bo)
           (School.session_of School.ann) School.chatting);
    reflexivity.
Defined.

Lemma dedupe_elem (x : Id) (ids seen : list Id) :
  x ∈ Messages.dedupe ids seen ↔ x ∈ ids ∧ x ∉ seen.
Proof.
  revert seen. induction ids as [|i ids IH]; intros seen; simpl.
  - split; [by intros ?%elem_of_nil|by intros [?%elem_of_nil _]].
  - destruct (decide (i ∈ seen)) as [Hi|Hi].
    + rewrite IH, elem_of_cons. split; [tauto|].
      intros [[->|?] ?]; tauto.
    + rewrite !elem_of_cons, IH, not_elem_of_cons.
      destruct (decide (x = i)) as [->|Hne]; tauto.
Qed.

Lemma teacher_ids_elem (tid uid : Id) (s : Store) :
  tid ∈ Messages.dedupe
          (Course.teacher_id
             <$> filter (λ c, Course.id c
                              ∈ Enrollment.course_id
                                  <$> filter (λ e, Enrollment.student_id e = uid)
                                             (enrollments s))
                        (courses s)) []
  ↔ teaches tid uid s.
Proof.
  rewrite dedupe_elem, list_elem_of_fmap. unfold teaches.
  rewrite Exists_exists. split.
  - intros [(c & -> & [Hc Hin]%list_elem_of_filter) _].
    exists c. by rewrite <- enrolled_course_elem.
  - intros (c & Hin & Ht & Henr). split; [|apply not_elem_of_nil].
    exists c. split; [done|]. apply list_elem_of_filter.
    by rewrite enrolled_course_elem.
Qed.

Lemma student_ids_elem (sid uid : Id) (s : Store) :
  sid ∈ Messages.dedupe
          (Enrollment.student_id
             <$> filter (λ e, Enrollment.course_id e
                              ∈ Course.id
                                  <$> filter (λ c, Course.teacher_id c = uid)
                                             (courses s))
                        (enrollments s)) []
  ↔ teaches uid sid s.
Proof.
  rewrite dedupe_elem, list_elem_of_fmap. unfold teaches, enrolled.
  rewrite Exists_exists. split.
  - intros [(e & -> & [Hc He]%list_elem_of_filter) _].
    apply list_elem_of_fmap in Hc as (c & Hcid & [Ht Hc]%list_elem_of_filter).
    exists c. do 2 (split; [done|]). apply Exists_exists. by exists e.
  - intros (c & Hc & Ht & (e & He & Hs & Hcid)%Exists_exists).
    split; [|apply not_elem_of_nil].
    exists e. split; [done|]. apply list_elem_of_filter. split; [|done].
    apply list_elem_of_fmap. exists c. split; [done|].
    by apply list_elem_of_filter.
Qed.

(** X21: whom the contacts route offers.  A student gets the users who
    teach a course the student is enrolled in, a teacher gets the users
    enrolled in a course the teacher teaches, and any other caller gets
    every user but the caller; each user appears once, in table order. *)
Theorem contacts_by_role (req : Req) (u : SessionUser) (s : Store) :
  session_user req = Some u →
  (su_role u = student →
   Messages.contacts req s
   = (Json (Messages.contact_of
              <$> filter (λ r, teaches (User.id r) (su_id u) s) (users s)),
      s))
  ∧ (su_role u = teacher →
     Messages.contacts req s
     = (Json (Messages.contact_of
                <$> filter (λ r, teaches (su_id u) (User.id r) s) (users s)),
        s))
  ∧ (su_role u ≠ student → su_role u ≠ teacher →
     Messages.contacts req s
     = (Json (Messages.contact_of
                <$> filter (λ r, User.id r ≠ su_id u) (users s)),
        s)).
Proof.
  intros Hsession. unfold Messages.contacts.
  rewrite (route_next req u s Hsession)
    by apply (through_auth req u s Hsession).
  split; [|split].
  - intros Hstudent. rewrite decide_True by done.
    rewrite <- (list_filter_iff _ _ _
                  (λ r, teacher_ids_elem (User.id r) (su_id u) s)).
    destruct (decide (filter _ (enrollments s) = [])) as [Hes|Hes].
    { rewrite Hes. simpl. rewrite filter_none; [done|].
      apply Forall_true. intros r [Hr _]%dedupe_elem.
      apply list_elem_of_fmap in Hr as (c & _ & [Hc _]%list_elem_of_filter).
      by apply elem_of_nil in Hc. }
    destruct (decide (Messages.dedupe _ _ = [])) as [Hts|Hts]; [|done].
    rewrite Hts. simpl. rewrite filter_none; [done|].
    apply Forall_true. intros r Hr. by apply elem_of_nil in Hr.
  - intros Hteacher.
    rewrite decide_False by (rewrite Hteacher; discriminate).
    rewrite decide_True by done.
    rewrite <- (list_filter_iff _ _ _
                  (λ r, student_ids_elem (User.id r) (su_id u) s)).
    destruct (decide (filter _ (courses s) = [])) as [Hcs|Hcs].
    { rewrite Hcs. simpl. rewrite filter_none; [done|].
      apply Forall_true. intros r [Hr _]%dedupe_elem.
      apply list_elem_of_fmap in Hr as (e & _ & [He _]%list_elem_of_filter).
      by apply elem_of_nil in He. }
    destruct (decide (Messages.dedupe _ _ = [])) as [Hss|Hss]; [|done].
    rewrite Hss. simpl. rewrite filter_none; [done|].
    apply Forall_true. intros r Hr. by apply elem_of_nil in Hr.
  - intros Hstudent Hteacher. by rewrite !decide_False by done.
Qed.

Lemma contacts_by_role_witness :
  Messages.contacts (School.as_user School.bo) School.bo_submitted
  = (Json (Messages.contact_of
             <$> filter (λ r, teaches (User.id r)
                                (su_id (School.session_of School.bo))
                                School.bo_submitted)
                        (users School.bo_submitted)),
     School.bo_submitted)
  ∧ Messages.contacts (School.as_user School.ann) School.bo_submitted
    = (Json (Messages.contact_of
               <$> filter (λ r, teaches (su_id (School.session_of School.ann))
                                  (User.id r) School.bo_submitted)
                          (users School.bo_submitted)),
       School.bo_submitted)
  ∧ Messages.contacts (School.as_user School.root) School.bo_submitted
    = (Json (Messages.contact_of
               <$> filter (λ r, User.id r
                                ≠ su_id (School.session_of School.root))
                          (users School.bo_submitted)),
       School.bo_submitted).
Proof.
  split; [|split].
  - by apply (proj1 (contacts_by_role (School.as_user School.bo)
                       (School.session_of School.bo) School.bo_submitted
                       eq_refl)).
  - by apply (proj1 (proj2 (contacts_by_role (School.as_user School.ann)
                              (School.session_of School.ann)
                              School.bo_submitted eq_refl))).
  - by apply (proj2 (proj2 (contacts_by_role (School.as_user School.root)
                              (School.session_of School.root)
                              School.bo_submitted eq_refl))).
Defined.

(** Bo, enrolled in Ann's Algebra, is offered Ann; Ann is offered Bo. *)
Example contacts_of_bo_and_ann :
  Messages.contact_id
    <$> default [] (match (Messages.contacts (School.as_user School.bo)
                                             School.bo_submitted).1 with
                    | Json l => Some l
                    | _ => None
                    end) = [1]
  ∧ Messages.contact_id
      <$> default [] (match (Messages.contacts (School.as_user School.ann)
                                               School.bo_submitted).1 with
                      | Json l => Some l
                      | _ => None
                      end) = [2].
Proof. split; reflexivity. Qed.

(** ** Registration *)

Section UniqueColumn.
Context {R C : Type} `{EqDecision C} (col : R → C).

Lemma filter_col_absent (k : C) (rows : list R) :
  k ∉ col <$> rows → filter (λ r, col r = k) rows = [].
Proof.
  intros Hk. apply filter_none, Forall_forall. intros r Hr Heq.
  apply Hk. rewrite <- Heq. by apply list_elem_of_fmap_2.
Qed.

(** Selecting by the value a row has in a column without repeated values
    selects that row. *)
Lemma filter_col (r : R) (rows : list R) :
  NoDup (col <$> rows) → r ∈ rows → filter (λ x, col x = col r) rows = [r].
Proof.
  induction rows as [|x rows IH]; intros Hdup Hin.
  - by apply elem_of_nil in Hin.
  - rewrite fmap_cons in Hdup. apply NoDup_cons in Hdup as [Hx Hdup].
    apply elem_of_cons in Hin as [->|Hin].
    + rewrite filter_cons_True by done. by rewrite filter_col_absent.
    + rewrite filter_cons_False; [by apply IH|].
      intros Heq. apply Hx. rewrite Heq. by apply list_elem_of_fmap_2.
Qed.

Lemma single_filter_col_None (k : C) (rows : list R) :
  NoDup (col <$> rows) →
  single (filter (λ r, col r = k) rows) = None →
  filter (λ r, col r = k) rows = [].
Proof.
  intros Hdup Hnone. apply filter_none, Forall_forall. intros r Hr Heq.
  rewrite <- Heq, (filter_col r rows Hdup Hr) in Hnone. discriminate.
Qed.
End UniqueColumn.

(** X22: registration keeps emails unique.  On a users table in which no
    two rows share an email, no registration creates a second row for an
    email: the table after the call still has no repeated email, and a
    registration with the email of an existing row (all fields given,
    password long enough) is answered 400 and stores nothing. *)
Theorem register_keeps_emails_unique
    (bcrypt_hash : JsVal → option string) (now : Time)
    (firstName lastName email password role : JsVal) (s : Store) :
  NoDup (User.email <$> users s) →
  NoDup (User.email
           <$> users (Auth.register bcrypt_hash now firstName lastName email
                                    password role s).2)
  ∧ (∀ r,
       r ∈ users s → User.email r = email →
       truthy firstName = true → truthy lastName = true →
       truthy email = true → truthy password = true →
       Auth.too_short password = false →
       Auth.register bcrypt_hash now firstName lastName email password role s
       = (Fail 400 "An account with this email already exists", None, s)).
Proof.
  intros Hdup. split.
  - unfold Auth.register.
    destruct (_ || _); [done|]. destruct (Auth.too_short _); [done|].
    destruct (single _) eqn:Hsingle; [done|].
    destruct (bcrypt_hash password); [|done]. simpl.
    rewrite fmap_app. apply NoDup_app. split; [done|].
    split; [|apply NoDup_singleton].
    intros k Hk Hk'%list_elem_of_singleton. simpl in Hk'. subst k.
    apply list_elem_of_fmap in Hk as (r & Heq & Hr).
    apply (single_filter_col_None User.email) in Hsingle; [|done].
    by destruct (filter_nil_not_elem_of _ _ r Hsingle).
  - intros r Hr Hemail Hfn Hln Hem Hpw Hlong. unfold Auth.register.
    rewrite Hfn, Hln, Hem, Hpw, Hlong. simpl.
    by rewrite <- Hemail, (filter_col User.email r (users s) Hdup Hr).
Qed.

Lemma register_keeps_emails_unique_witness :
  NoDup (User.email
           <$> users (Auth.register School.plain_hash 6 (JStr "Ann")
                        (JStr "Other") (JStr "ann@school.test")
                        (JStr "secret-ann") teacher School.empty).2)
  ∧ Auth.register School.plain_hash 6 (JStr "Ann") (JStr "Other")
                  (JStr "ann@school.test") (JStr "secret-ann") teacher
                  School.empty
    = (Fail 400 "An account with this email already exists", None,
       School.empty).
Proof.
  assert (NoDup (User.email <$> users School.empty)) as Hdup
    by (apply (bool_decide_unpack _); vm_compute; exact I).
  split.
  - apply (proj1 (register_keeps_emails_unique School.plain_hash 6
                    (JStr "Ann") (JStr "Other") (JStr "ann@school.test")
                    (JStr "secret-ann") teacher School.empty Hdup)).
  - apply (proj2 (register_keeps_emails_unique School.plain_hash 6
                    (JStr "Ann") (JStr "Other") (JStr "ann@school.test")
                    (JStr "secret-ann") teacher School.empty Hdup)
                 School.ann);
      [|reflexivity..].
    apply (bool_decide_unpack _). vm_compute. exact I.
Defined.

(** The length check counts code units, not bytes and not characters: a
    password of three accented letters (six bytes) is too short, one of
    three characters outside the basic plane (six code units) is not, and
    a number has no length to fall short. *)
Example too_short_code_units :
  Auth.too_short (JStr "ééé") = true
  ∧ Auth.too_short (JStr "😀😀😀") = false
  ∧ Auth.too_short (JStr "secre") = true
  ∧ Auth.too_short (JStr "secret") = false
  ∧ Auth.too_short (JNum 1) = false.
Proof. by repeat split. Qed.

(** The length check comes before the lookup of the email: with the
    email of Ann's account and a password of three accented letters the
    reply is about the password. *)
Example register_short_password :
  Auth.register School.plain_hash 6 (JStr "Ann") (JStr "Other")
                (JStr "ann@school.test") (JStr "ééé") teacher School.empty
  = (Fail 400 "Password must be at least 6 characters", None, School.empty).
Proof. reflexivity. Qed.

(** What a successful registration has stored. *)
Lemma register_Json (bcrypt_hash : JsVal → option string) (now : Time)
    (firstName lastName email password role : JsVal) (s s' : Store)
    (redirect : string) (session : option SessionUser) :
  Auth.register bcrypt_hash now firstName lastName email password role s
  = (Json redirect, session, s') →
  truthy email = true ∧ truthy password = true
  ∧ single (filter (λ r, User.email r = email) (users s)) = None
  ∧ ∃ hashed,
      bcrypt_hash password = Some hashed
      ∧ s' = bump (with_users
                     (users s
                      ++ [User.mk (next_id s) firstName lastName email hashed
                            (if decide (role = teacher) then teacher
                             else student)
                            (bool_decide (role ≠ teacher)) now])
                     s)
      ∧ session
        = Some (mkSessionUser (next_id s) firstName lastName email
                  (if decide (role = teacher) then teacher else student)
                  (bool_decide (role ≠ teacher)))
      ∧ redirect = "/dashboard".
Proof.
  unfold Auth.register.
  destruct (truthy firstName), (truthy lastName), (truthy email),
    (truthy password); simpl; try (by intros; simplify_eq).
  destruct (Auth.too_short _); [intros; simplify_eq|].
  destruct (single _) eqn:Hsingle; [intros; simplify_eq|].
  destruct (bcrypt_hash password) as [hashed|]; [|intros; simplify_eq].
  intros Heq. do 3 (split; [done|]). exists hashed. split; [done|].
  destruct (decide (role = teacher)) as [->|Hrole].
  - rewrite decide_True in Heq by (apply elem_of_cons; right;
                                   apply list_elem_of_here).
    rewrite bool_decide_eq_false_2 in Heq by discriminate.
    rewrite bool_decide_eq_false_2 by (by intros []).
    by simplify_eq.
  - rewrite (bool_decide_eq_true_2 (role ≠ teacher)) by done.
    destruct (decide (role ∈ [student; teacher])) as [Hin|Hout].
    + apply elem_of_cons in Hin as [->|Hin%list_elem_of_singleton]; [|done].
      rewrite bool_decide_eq_true_2 in Heq by done. by simplify_eq.
    + rewrite bool_decide_eq_true_2 in Heq by done. by simplify_eq.
Qed.

(** X23: a registration that succeeds appends one user row, with the
    given names and email and the hash of the password; its role is
    teacher when the request asks for teacher and student for every other
    requested role (master_teacher included), a teacher starts
    unapproved and a student approved, and the session gets the snapshot
    of the new row. *)
Theorem register_creates_student_or_teacher
    (bcrypt_hash : JsVal → option string) (now : Time)
    (firstName lastName email password role : JsVal) (s s' : Store)
    (redirect : string) (session : option SessionUser) :
  Auth.register bcrypt_hash now firstName lastName email password role s
  = (Json redirect, session, s') →
  ∃ new,
    users s' = users s ++ [new]
    ∧ User.id new = next_id s
    ∧ User.first_name new = firstName
    ∧ User.last_name new = lastName
    ∧ User.email new = email
    ∧ bcrypt_hash password = Some (User.password new)
    ∧ (role = teacher →
       User.role new = teacher ∧ User.is_approved new = false)
    ∧ (role ≠ teacher →
       User.role new = student ∧ User.is_approved new = true)
    ∧ session
      = Some (mkSessionUser (User.id new) firstName lastName email
                            (User.role new) (User.is_approved new)).
Proof.
  intros (_ & _ & _ & hashed & Hhash & -> & -> & _)%register_Json.
  eexists. split; [done|]. simpl. do 5 (split; [done|]).
  split; [|split; [|done]].
  - intros ->. rewrite decide_True by done.
    by rewrite bool_decide_eq_false_2 by (by intros []).
  - intros Hrole. rewrite decide_False by done.
    by rewrite bool_decide_eq_true_2.
Qed.

Lemma register_creates_student_or_teacher_witness :
  ∃ new,
    users (Auth.register School.plain_hash 6 (JStr "Eve") (JStr "Poe")
                         (JStr "eve@school.test") (JStr "secret-eve")
                         master_teacher School.empty).2
    = users School.empty ++ [new]
    ∧ User.id new = next_id School.empty
    ∧ User.first_name new = JStr "Eve"
    ∧ User.last_name new = JStr "Poe"
    ∧ User.email new = JStr "eve@school.test"
    ∧ School.plain_hash (JStr "secret-eve") = Some (User.password new)
    ∧ (master_teacher = teacher →
       User.role new = teacher ∧ User.is_approved new = false)
    ∧ (master_teacher ≠ teacher →
       User.role new = student ∧ User.is_approved new = true)
    ∧ Some (mkSessionUser 10 (JStr "Eve") (JStr "Poe")
              (JStr "eve@school.test") student true)
      = Some (mkSessionUser (User.id new) (JStr "Eve") (JStr "Poe")
                (JStr "eve@school.test") (User.role new)
                (User.is_approved new)).
Proof.
  apply (register_creates_student_or_teacher School.plain_hash 6
           (JStr "Eve") (JStr "Poe") (JStr "eve@school.test")
           (JStr "secret-eve") master_teacher School.empty _ "/dashboard").
  reflexivity.
Defined.

(** X24: register then login.  When the password hashing library accepts
    its own hash of the password, a login with the email and password of
    a registration that succeeded on a table without repeated emails
    succeeds and sets the session that the registration had set. *)
Theorem register_then_login
    (bcrypt_hash : JsVal → option string)
    (bcrypt_compare : JsVal → string → option bool) (now : Time)
    (firstName lastName email password role : JsVal) (s s' : Store)
    (redirect : string) (session : option SessionUser) :
  (∀ hashed, bcrypt_hash password = Some hashed →
             bcrypt_compare password hashed = Some true) →
  NoDup (User.email <$> users s) →
  Auth.register bcrypt_hash now firstName lastName email password role s
  = (Json redirect, session, s') →
  Auth.login bcrypt_compare email password s' = (Json "/dashboard", session).
Proof.
  intros Hlib Hdup
    (Hem & Hpw & Hnone & hashed & Hhash & -> & -> & _)%register_Json.
  apply (single_filter_col_None User.email) in Hnone; [|done].
  unfold Auth.login. rewrite Hem, Hpw. simpl.
  rewrite filter_app, Hnone. simpl.
  rewrite filter_cons_True by done. simpl.
  by rewrite (Hlib hashed Hhash).
Qed.

Lemma register_then_login_witness :
  Auth.login School.plain_compare (JStr "dee@school.test")
             (JStr "secret-dee") School.dee_registered
  = (Json "/dashboard", Some (School.session_of School.dee)).
Proof.
  apply (register_then_login School.plain_hash School.plain_compare 6
           (JStr "Dee") (JStr "Kim") (JStr "dee@school.test")
           (JStr "secret-dee") teacher School.empty School.dee_registered
           "/dashboard").
  - intros hashed [= <-]. reflexivity.
  - apply (bool_decide_unpack _). vm_compute. exact I.
  - reflexivity.
Defined.

(** ** Administration *)

Lemma role_counts (l : list User.t) :
  length (filter (λ r, User.role r = student) l)
  + length (filter (λ r, User.role r = teacher) l)
  + length (filter (λ r, User.role r = master_teacher) l)
  ≤ length l
  ∧ length (filter (λ r, User.role r = teacher ∧ User.is_approved r = false) l)
    ≤ length (filter (λ r, User.role r = teacher) l)
  ∧ (Forall (λ r, User.role r ∈ [student; teacher; master_teacher]) l →
     length (filter (λ r, User.role r = student) l)
     + length (filter (λ r, User.role r = teacher) l)
     + length (filter (λ r, User.role r = master_teacher) l)
     = length l).
Proof.
  induction l as [|r l (IH1 & IH2 & IH3)]; [done|].
  rewrite !filter_cons, Forall_cons.
  assert (User.role r ∈ [student; teacher; master_teacher] →
          User.role r = student ∨ User.role r = teacher
          ∨ User.role r = master_teacher) as Hcases.
  { rewrite !elem_of_cons, elem_of_nil. tauto. }
  repeat case_decide; simpl; repeat split; try lia;
    try (intros [Hr Hl]; specialize (IH3 Hl); try lia);
    try (exfalso; destruct (Hcases Hr) as [?|[?|?]]; congruence);
    try (exfalso; unfold student, teacher, master_teacher in *; congruence);
    try (exfalso; tauto).
Qed.

(** X25: the platform statistics add up.  The three role counts together
    never exceed the number of users and equal it when every user has one
    of the three roles; the pending approvals are at most the teachers;
    the totals are the sizes of the two tables. *)
Theorem stats_add_up (req : Req) (u : SessionUser) (s : Store) :
  session_user req = Some u →
  su_role u = master_teacher →
  ∃ st,
    Admin.stats req s = (Json st, s)
    ∧ Admin.totalStudents st + Admin.totalTeachers st + Admin.totalAdmins st
      ≤ Admin.totalUsers st
    ∧ Admin.pendingApprovals st ≤ Admin.totalTeachers st
    ∧ Admin.totalUsers st = length (users s)
    ∧ Admin.totalCourses st = length (courses s)
    ∧ (Forall (λ r, User.role r ∈ [student; teacher; master_teacher])
              (users s) →
       Admin.totalStudents st + Admin.totalTeachers st + Admin.totalAdmins st
       = Admin.totalUsers st).
Proof.
  intros Hsession Hrole. unfold Admin.stats.
  rewrite (route_next req u s Hsession)
    by (apply (through_auth_role req u s Hsession); rewrite Hrole;
        by apply list_elem_of_singleton).
  eexists. split; [done|]. simpl.
  destruct (role_counts (users s)) as (H1 & H2 & H3). by repeat split.
Qed.

Lemma stats_add_up_witness :
  ∃ st,
    Admin.stats (School.as_user School.root) School.dee_registered
    = (Json st, School.dee_registered)
    ∧ Admin.totalStudents st + Admin.totalTeachers st + Admin.totalAdmins st
      ≤ Admin.totalUsers st
    ∧ Admin.pendingApprovals st ≤ Admin.totalTeachers st
    ∧ Admin.totalUsers st = length (users School.dee_registered)
    ∧ Admin.totalCourses st = length (courses School.dee_registered)
    ∧ (Forall (λ r, User.role r ∈ [student; teacher; master_teacher])
              (users School.dee_registered) →
       Admin.totalStudents st + Admin.totalTeachers st + Admin.totalAdmins st
       = Admin.totalUsers st).
Proof.
  apply (stats_add_up (School.as_user School.root)
           (School.session_of School.root) School.dee_registered);
    reflexivity.
Defined.

(** X26: an admin cannot remove or demote the own account: a delete
    request for the caller's own id, and an edit request for it that
    supplies a role other than master_teacher, are answered 400 and the
    store is unchanged; an edit of the own account that supplies no role
    or the role master_teacher is not stopped by this guard. *)
Theorem admin_self_protection
    (fn ln em ro : JsVal) (req : Req) (u : SessionUser) (s : Store) :
  session_user req = Some u →
  su_role u = master_teacher →
  Admin.delete_user (su_id u) req s
  = (Fail 400 "Cannot delete your own account", s)
  ∧ (truthy ro = true → ro ≠ master_teacher →
     Admin.edit_user (su_id u) fn ln em ro req s
     = (Fail 400 "Cannot change your own admin role", s))
  ∧ (truthy ro = false ∨ ro = master_teacher →
     ∀ old,
       filter (λ r, User.id r = su_id u) (users s) = [old] →
       (Admin.edit_user (su_id u) fn ln em ro req s).1
       = Json (User.update
                 (User.mk_updates (supplied fn) (supplied ln) (supplied em)
                                  (supplied ro)) old)).
Proof.
  intros Hsession Hrole.
  unfold Admin.delete_user, Admin.edit_user.
  rewrite !(route_next req u s Hsession)
    by (apply (through_auth_role req u s Hsession); rewrite Hrole;
        by apply list_elem_of_singleton).
  rewrite decide_True by done. split; [done|].
  rewrite bool_decide_eq_true_2 by done. simpl. split.
  - intros -> Hro. by rewrite bool_decide_eq_true_2.
  - intros Hro old Hold.
    assert (truthy ro && bool_decide (ro ≠ master_teacher) = false) as ->.
    { destruct Hro as [->| ->]; [done|].
      rewrite bool_decide_eq_false_2 by (by intros []).
      apply andb_false_r. }
    simpl. by rewrite (update_single_Some _ _ _ old Hold).
Qed.

Lemma admin_self_protection_witness :
  Admin.delete_user 3 (School.as_user School.root) School.empty
  = (Fail 400 "Cannot delete your own account", School.empty)
  ∧ Admin.edit_user 3 JUndefined JUndefined JUndefined student
                    (School.as_user School.root) School.empty
    = (Fail 400 "Cannot change your own admin role", School.empty)
  ∧ (Admin.edit_user 3 (JStr "Maxine") JUndefined JUndefined master_teacher
                     (School.as_user School.root) School.empty).1
    = Json (User.update
              (User.mk_updates (supplied (JStr "Maxine")) (supplied JUndefined)
                               (supplied JUndefined) (supplied master_teacher))
              School.root).
Proof.
  split; [|split].
  - apply (proj1 (admin_self_protection JUndefined JUndefined JUndefined
                    student (School.as_user School.root)
                    (School.session_of School.root) School.empty
                    eq_refl eq_refl)).
  - apply (proj1 (proj2 (admin_self_protection JUndefined JUndefined
                           JUndefined student (School.as_user School.root)
                           (School.session_of School.root) School.empty
                           eq_refl eq_refl)));
      [reflexivity|discriminate].
  - apply (proj2 (proj2 (admin_self_protection (JStr "Maxine") JUndefined
                           JUndefined master_teacher
                           (School.as_user School.root)
                           (School.session_of School.root) School.empty
                           eq_refl eq_refl)));
      [by right|reflexivity].
Defined.

(** The rows of the pending-teachers list are unapproved teacher rows of
    the store. *)
Lemma pending_teachers_rows (req : Req) (s : Store)
    (l : list Admin.PendingTeacher) :
  (Admin.pending_teachers req s).1 = Json l →
  Forall (λ e, ∃ r, r ∈ users s ∧ User.id r = Admin.pt_id e
                    ∧ User.role r = teacher ∧ User.is_approved r = false) l.
Proof.
  destruct (Admin.pending_teachers req s) as [r s'] eqn:Hout.
  simpl. intros ->. apply route_Json in Hout as (u & _ & _ & Hbody).
  simplify_eq. apply Forall_fmap, Forall_forall. intros r Hr. simpl.
  rewrite merge_sort_Permutation in Hr.
  apply list_elem_of_filter in Hr as [[Hrole Hflag] Hr]. by exists r.
Qed.

(** X27: approving a teacher takes the teacher off the pending list: after
    an approve request that succeeded, the row it answers with is
    approved and no entry of the pending-teachers list has the approved
    id. *)
Theorem approve_clears_pending
    (id : Id) (admin : Req) (s s' : Store) (data : User.t) (req : Req)
    (l : list Admin.PendingTeacher) :
  Admin.approve id admin s = (Json data, s') →
  (Admin.pending_teachers req s').1 = Json l →
  User.id data = id ∧ User.role data = teacher
  ∧ User.is_approved data = true
  ∧ data ∈ users s'
  ∧ Forall (λ e, Admin.pt_id e ≠ id) l.
Proof.
  intros Happrove Hl.
  apply route_Json in Happrove as (adm & _ & _ & Hbody).
  destruct (update_single _ _ _) as [[data' rows]|] eqn:Hupd;
    simpl in Hbody; simplify_eq.
  unfold update_single in Hupd.
  destruct (single _) as [r|] eqn:Hr; simpl in Hupd; simplify_eq.
  destruct (single_filter_elem _ _ _ Hr) as [Hin [Hid Hteach]].
  do 3 (split; [done|]).
  split; [by apply update_where_elem|].
  apply pending_teachers_rows in Hl. simpl in Hl.
  eapply Forall_impl; [exact Hl|]. simpl.
  intros e (r' & Hr' & Hpt & Hrole & Hflag) Heq.
  unfold update_where in Hr'.
  apply list_elem_of_fmap in Hr' as (r0 & -> & _).
  revert Hflag Hrole Hpt.
  destruct (decide (User.id r0 = id ∧ User.role r0 = teacher)) as [_|Hne];
    simpl; intros Hflag Hrole Hpt; [done|].
  apply Hne. split; [congruence|done].
Qed.

Lemma approve_clears_pending_witness :
  User.id (User.approve true School.dee) = 10
  ∧ User.role (User.approve true School.dee) = teacher
  ∧ User.is_approved (User.approve true School.dee) = true
  ∧ User.approve true School.dee ∈ users School.dee_approved
  ∧ Forall (λ e, Admin.pt_id e ≠ 10) [].
Proof.
  apply (approve_clears_pending 10 (School.as_user School.root)
           School.dee_registered School.dee_approved
           (User.approve true School.dee) (School.as_user School.root) []);
    reflexivity.
Defined.

(** Before the approval Dee is the one pending teacher. *)
Example pending_before_approval :
  Admin.pt_id
    <$> default [] (match (Admin.pending_teachers (School.as_user School.root)
                                                  School.dee_registered).1 with
                    | Json l => Some l
                    | _ => None
                    end) = [10].
Proof. reflexivity. Qed.

(** X28: a promotion takes effect at the next login.  After a promote
    request that succeeded for a user whose email no other row has, a
    login of that user with a matching password sets a session with the
    role master_teacher and the approval flag true. *)
Theorem promote_then_login
    (bcrypt_compare : JsVal → string → option bool) (id : Id) (admin : Req)
    (s s' : Store) (data : User.t) (password : JsVal) :
  Admin.promote id admin s = (Json data, s') →
  filter (λ r, User.email r = User.email data) (users s)
  = filter (λ r, User.id r = id) (users s) →
  truthy (User.email data) = true →
  truthy password = true →
  bcrypt_compare password (User.password data) = Some true →
  Auth.login bcrypt_compare (User.email data) password s'
  = (Json "/dashboard",
     Some (mkSessionUser id (User.first_name data) (User.last_name data)
                         (User.email data) master_teacher true)).
Proof.
  intros Hpromote Hunique Hem Hpw Hmatch.
  apply route_Json in Hpromote as (adm & _ & _ & Hbody).
  destruct (update_single _ _ _) as [[data' rows]|] eqn:Hupd;
    simpl in Hbody; simplify_eq.
  unfold update_single in Hupd.
  destruct (single _) as [r|] eqn:Hr; simpl in Hupd; simplify_eq.
  destruct (single_filter_elem _ _ _ Hr) as [Hin Hid].
  apply single_Some in Hr.
  unfold Auth.login. rewrite Hem, Hpw. simpl.
  rewrite filter_update_where_frame by done.
  simpl in Hunique. rewrite Hunique, Hr.
  unfold update_where. simpl. rewrite decide_True by done. simpl.
  simpl in Hmatch. by rewrite Hmatch, Hid.
Qed.

Lemma promote_then_login_witness :
  Auth.login School.plain_compare
             (User.email (Admin.promoted School.cy)) (JStr "hash-cy")
             School.cy_promoted
  = (Json "/dashboard",
     Some (mkSessionUser 4 (User.first_name (Admin.promoted School.cy))
             (User.last_name (Admin.promoted School.cy))
             (User.email (Admin.promoted School.cy)) master_teacher true)).
Proof.
  apply (promote_then_login School.plain_compare 4
           (School.as_user School.root) School.empty School.cy_promoted
           (Admin.promoted School.cy) (JStr "hash-cy"));
    reflexivity.
Defined.

(** ** Reading assignments and their submissions *)

(** X29: the submissions list of an assignment, for a master_teacher or
    the teacher of the assignment's course, holds exactly the submission
    rows of the assignment, latest submitted first, each with the names
    and email on the student's user row. *)
Theorem submissions_of_assignment
    (id : Id) (req : Req) (u : SessionUser) (s : Store) (a : Assignment.t) :
  session_user req = Some u →
  filter (λ a, Assignment.id a = id) (assignments s) = [a] →
  may_write_course u (Assignment.course_id a) s →
  ∃ out,
    Assignments.list_submissions id req s = (Json out, s)
    ∧ Assignments.of_assignment out
      = (Assignment.course_id a, Assignment.title a, Assignment.max_points a)
    ∧ (Assignments.received out).*1
      ≡ₚ filter (λ r, Submission.assignment_id r = id) (submissions s)
    ∧ Sorted Submission.by_submitted_at_desc (Assignments.received out).*1
    ∧ Forall (λ e,
                ∀ r,
                  filter (λ r, User.id r = Submission.student_id e.1) (users s)
                  = [r] →
                  e.2 = Some (User.first_name r, User.last_name r,
                              User.email r))
             (Assignments.received out).
Proof.
  intros Hsession Hrow Hmay. unfold Assignments.list_submissions.
  rewrite (route_next req u s Hsession)
    by (apply (through_auth_role req u s Hsession);
        by eapply may_write_course_role).
  rewrite Hrow. simpl.
  assert (Assignments.not_your_course (Assignment.course_id a) u s = false)
    as ->.
  { apply not_your_course_authorized.
    destruct Hmay as [?|(? & c & Hc & Hown)]; [by left|right].
    split; [done|]. by apply verifyTeacherOwns_owner with c. }
  eexists. split; [done|]. simpl. split; [done|].
  rewrite fmap_section by done.
  split; [apply merge_sort_Permutation|].
  split; [apply Sorted_merge_sort, _|].
  apply Forall_fmap, Forall_true. intros sub r Hr. simpl in *.
  by rewrite Hr.
Qed.

Lemma submissions_of_assignment_witness :
  ∃ out,
    Assignments.list_submissions 11 (School.as_user School.ann)
                                 School.bo_graded
    = (Json out, School.bo_graded)
    ∧ Assignments.of_assignment out = (10, JStr "HW1", JNum 100)
    ∧ (Assignments.received out).*1
      ≡ₚ filter (λ r, Submission.assignment_id r = 11)
                (submissions School.bo_graded)
    ∧ Sorted Submission.by_submitted_at_desc (Assignments.received out).*1
    ∧ Forall (λ e,
                ∀ r,
                  filter (λ r, User.id r = Submission.student_id e.1)
                         (users School.bo_graded) = [r] →
                  e.2 = Some (User.first_name r, User.last_name r,
                              User.email r))
             (Assignments.received out).
Proof.
  apply (submissions_of_assignment 11 (School.as_user School.ann)
           (School.session_of School.ann) School.bo_graded
           (Assignment.mk 11 10 (JStr "HW1") (JStr "") (JNum 7) (JNum 100)));
    [reflexivity|reflexivity|].
  right. split; [reflexivity|]. eexists. split; reflexivity.
Defined.

(** X30: reading a single assignment asks for a session only: any
    logged-in caller, enrolled in the course or not and whatever the
    role, gets the assignment row with its course; a student gets
    attached the own submission and nobody else's, other callers get no
    submission attached; an id that no row carries is answered 404. *)
Theorem assignment_readable_by_any_session
    (id : Id) (req : Req) (u : SessionUser) (s : Store) :
  session_user req = Some u →
  (∀ a,
     filter (λ a, Assignment.id a = id) (assignments s) = [a] →
     ∃ out,
       Assignments.get id req s = (Json out, s)
       ∧ Assignments.detail out = a
       ∧ (∀ c, filter (λ c, Course.id c = Assignment.course_id a) (courses s)
               = [c] →
               Assignments.detail_course out
               = Some (Course.name c, Course.teacher_id c))
       ∧ (su_role u ≠ student → Assignments.my_submission out = None)
       ∧ (su_role u = student →
          ∃ mine,
            Assignments.my_submission out = Some mine
            ∧ (∀ sub, mine = Some sub →
                      sub ∈ submissions s
                      ∧ Submission.assignment_id sub = id
                      ∧ Submission.student_id sub = su_id u)
            ∧ (∀ sub, submissions_of id (su_id u) s = [sub] →
                      mine = Some sub)))
  ∧ (Forall (λ a, Assignment.id a ≠ id) (assignments s) →
     Assignments.get id req s = (Fail 404 "Assignment not found", s)).
Proof.
  intros Hsession. unfold Assignments.get.
  rewrite (route_next req u s Hsession)
    by apply (through_auth req u s Hsession).
  split.
  - intros a Hrow. rewrite Hrow. simpl. eexists. split; [done|]. simpl.
    assert (Assignment.id a = id) as Hid.
    { assert (a ∈ filter (λ a, Assignment.id a = id) (assignments s)) as Hin
        by (rewrite Hrow; apply list_elem_of_here).
      by apply list_elem_of_filter in Hin as [Hid _]. }
    split; [done|]. split; [by intros c ->|]. split.
    + intros Hrole. by rewrite decide_False.
    + intros Hrole. rewrite decide_True by done. eexists. split; [done|].
      rewrite Hid. split.
      * intros sub Hsub. apply single_filter_elem in Hsub. tauto.
      * intros sub Hsub. unfold submissions_of in Hsub. by rewrite Hsub.
  - intros Hnone. by rewrite filter_none.
Qed.

Lemma assignment_readable_by_any_session_witness :
  (∃ out,
     Assignments.get 11 (School.as_user School.cy) School.bo_submitted
     = (Json out, School.bo_submitted)
     ∧ Assignments.detail out
       = Assignment.mk 11 10 (JStr "HW1") (JStr "") (JNum 7) (JNum 100)
     ∧ (∀ c, filter (λ c, Course.id c = 10) (courses School.bo_submitted)
             = [c] →
             Assignments.detail_course out
             = Some (Course.name c, Course.teacher_id c))
     ∧ (su_role (School.session_of School.cy) ≠ student →
        Assignments.my_submission out = None)
     ∧ (su_role (School.session_of School.cy) = student →
        ∃ mine,
          Assignments.my_submission out = Some mine
          ∧ (∀ sub, mine = Some sub →
                    sub ∈ submissions School.bo_submitted
                    ∧ Submission.assignment_id sub = 11
                    ∧ Submission.student_id sub
                      = su_id (School.session_of School.cy))
          ∧ (∀ sub,
               submissions_of 11 (su_id (School.session_of School.cy))
                              School.bo_submitted = [sub] →
               mine = Some sub)))
  ∧ Assignments.get 99 (School.as_user School.cy) School.bo_submitted
    = (Fail 404 "Assignment not found", School.bo_submitted).
Proof.
  split.
  - apply (proj1 (assignment_readable_by_any_session 11
                    (School.as_user School.cy) (School.session_of School.cy)
                    School.bo_submitted eq_refl)
                 (Assignment.mk 11 10 (JStr "HW1") (JStr "") (JNum 7)
                                (JNum 100))).
    reflexivity.
  - apply (proj2 (assignment_readable_by_any_session 99
                    (School.as_user School.cy) (School.session_of School.cy)
                    School.bo_submitted eq_refl)).
    apply (bool_decide_unpack _). vm_compute. exact I.
Defined.
